(** * Group archive: store, day boundaries, summaries, scheduler, capture

    A shallow embedding of the group-archive extension
    (db.ts, summary.ts, scheduler.ts, capture.ts) and the properties of
    its specification.

    Conventions of the embedding.
    - JavaScript integers (epoch milliseconds, counters, limits) are [Z].
    - A JavaScript string is a [string]; one character of the model stands
      for one UTF-16 code unit, so [String.length] is the JS [length].
    - A calendar date string YYYY-MM-DD is kept as its three numeric
      fields ([CivilDate]).  For the years 1000 to 9999 this is the text
      the en-CA formatter prints and the text the callers pass, and
      comparing two such strings is comparing the fields.  Outside these
      years the two texts differ (the formatter does not pad the year), and
      the statements about day boundaries assume a year of four digits.
    - A timezone name that [Intl] knows is the entry of the timezone
      database it denotes: the function that gives the UTC offset, in
      milliseconds, in force at a UTC instant.  A name that [Intl] does not
      know makes [Intl.DateTimeFormat] throw a RangeError; that happens
      where a name is resolved ([tick_named]).
    - SQLite runs with foreign keys enforced, as node:sqlite opens a
      database: a statement that would leave a row whose [group_jid] has no
      row in [groups] fails and changes nothing.
    - A thrown exception is the [Throw] branch of [result]; the state
      reached before the throw is kept, as in JavaScript.
    - [Date.now()], [randomUUID()], the HTTP backends and the logger belong
      to the [World] the plugin runs in. *)

From Stdlib Require Import ZArith Lia Bool String Ascii List.
From stdpp Require Import gmap strings list sorting.

Local Open Scope Z_scope.

(** ** Exceptions and results *)

Inductive Exn : Type :=
| RangeError_InvalidTime                    (* Date.prototype.toISOString on an invalid Date *)
| DimensionMismatch (expected received : Z) (* raised by the vec0 table and by vec_distance_cosine *)
| ApiError (status : Z) (body : string)     (* "Anthropic API error (status): body" *)
| BackendFailure (reason : string)          (* rejected HTTP request / SDK error *)
| ForeignKeyConstraintFailed                (* "FOREIGN KEY constraint failed" *)
| UniqueConstraintFailed                    (* "UNIQUE constraint failed on message_embeddings primary key" *)
| RangeError_InvalidTimeZone (name : string). (* Intl.DateTimeFormat on an unknown timezone name *)

Inductive result (A : Type) : Type :=
| Ok (a : A)
| Throw (e : Exn).
Arguments Ok {A} a.
Arguments Throw {A} e.

Definition is_ok {A} (r : result A) : bool :=
  match r with Ok _ => true | Throw _ => false end.

(** ** Calendar arithmetic of the built-in Date and Intl objects *)

Module Calendar.

Definition msPerSecond : Z := 1000.
Definition msPerMinute : Z := 60000.
Definition msPerHour : Z := 3600000.
Definition msPerDay : Z := 86400000.

Record CivilDate : Type := mkDate { year : Z; month : Z; day : Z }.

Definition is_leap (y : Z) : bool :=
  (y mod 4 =? 0) && (negb (y mod 100 =? 0) || (y mod 400 =? 0)).

Definition days_in_month (y m : Z) : Z :=
  if m =? 2 then (if is_leap y then 29 else 28)
  else if (m =? 4) || (m =? 6) || (m =? 9) || (m =? 11) then 30
  else 31.

(** A date of the proleptic Gregorian calendar. *)
Definition valid_date (dt : CivilDate) : bool :=
  (1 <=? month dt) && (month dt <=? 12) &&
  (1 <=? day dt) && (day dt <=? days_in_month (year dt) (month dt)).

(** Day number (days since 1970-01-01) of a civil date, with years
    counted from 1 March in eras of 400 years. *)
Definition days_from_civil (y m d : Z) : Z :=
  let y' := if m <=? 2 then y - 1 else y in
  let era := y' / 400 in
  let yoe := y' - era * 400 in
  let mp := if m >? 2 then m - 3 else m + 9 in
  let doy := (153 * mp + 2) / 5 + d - 1 in
  let doe := yoe * 365 + yoe / 4 - yoe / 100 + doy in
  era * 146097 + doe - 719468.

(** Civil date of a day number. *)
Definition civil_from_days (z : Z) : CivilDate :=
  let z' := z + 719468 in
  let era := z' / 146097 in
  let doe := z' - era * 146097 in
  let yoe := (doe - doe / 1460 + doe / 36524 - doe / 146096) / 365 in
  let y := yoe + era * 400 in
  let doy := doe - (365 * yoe + yoe / 4 - yoe / 100) in
  let mp := (5 * doy + 2) / 153 in
  let d := doy - (153 * mp + 2) / 5 + 1 in
  let m := if mp <? 10 then mp + 3 else mp - 9 in
  mkDate (if m <=? 2 then y + 1 else y) m d.

Definition day_number (dt : CivilDate) : Z :=
  days_from_civil (year dt) (month dt) (day dt).

(** [Date.UTC(year, monthIndex, day, hours, 0, 0)]: a month index outside
    0..11 carries into the year, a day outside the month carries into the
    following months, and a year in 0..99 means 1900 + year. *)
Definition Date_UTC (y monthIndex d hours : Z) : Z :=
  let yr := if (0 <=? y) && (y <=? 99) then 1900 + y else y in
  let ym := yr + monthIndex / 12 in
  let mn := monthIndex mod 12 in
  (days_from_civil ym (mn + 1) 1 + (d - 1)) * msPerDay + hours * msPerHour.

(** Fields of a time value (milliseconds since the epoch). *)
Definition day_of (t : Z) : Z := t / msPerDay.
Definition hour_of (t : Z) : Z := (t mod msPerDay) / msPerHour.
Definition minute_of (t : Z) : Z := (t mod msPerHour) / msPerMinute.
Definition second_of (t : Z) : Z := (t mod msPerMinute) / msPerSecond.
Definition ms_of (t : Z) : Z := t mod msPerSecond.

(** The range of time values a Date can hold. *)
Definition valid_time (t : Z) : bool :=
  (-8640000000000000 <=? t) && (t <=? 8640000000000000).

End Calendar.
Export Calendar.

(** ** Timezones and the two Intl formatters the code uses *)

(** UTC offset in milliseconds in force at a UTC instant. *)
Definition Timezone : Type := Z -> Z.

Definition fixed_offset (off : Z) : Timezone := fun _ => off.

Definition local_time (tz : Timezone) (t : Z) : Z := t + tz t.

(** [Intl.DateTimeFormat("en-CA", {timeZone, year, month, day}).format]:
    the local date, YYYY-MM-DD. *)
Definition format_en_CA_date (tz : Timezone) (t : Z) : CivilDate :=
  civil_from_days (day_of (local_time tz t)).

(** ** Strings: digits, padding, slicing *)

Definition digit (n : Z) : ascii := ascii_of_nat (48 + Z.to_nat (n mod 10)).

(** The last [w] decimal digits of [n], most significant first. *)
Fixpoint pad (w : nat) (n : Z) : string :=
  match w with
  | O => EmptyString
  | S w' => pad w' (n / 10) +:+ String (digit n) EmptyString
  end.

Definition strlen (s : string) : Z := Z.of_nat (String.length s).

(** [s.slice(a, b)] for 0 <= a <= b. *)
Definition slice (a b : Z) (s : string) : string :=
  String.substring (Z.to_nat a) (Z.to_nat (b - a)) s.

(** [Date.prototype.toISOString]: YYYY-MM-DDTHH:mm:ss.sssZ, the year
    written with a sign and six digits outside 0..9999; an invalid Date
    throws a RangeError. *)
Definition toISOString (t : Z) : result string :=
  if valid_time t then
    let dt := civil_from_days (day_of t) in
    let y := year dt in
    let ystr :=
      if (0 <=? y) && (y <=? 9999) then pad 4 y
      else (if y <? 0 then "-" else "+") +:+ pad 6 (Z.abs y) in
    Ok (ystr +:+ "-" +:+ pad 2 (month dt) +:+ "-" +:+ pad 2 (day dt) +:+ "T" +:+
        pad 2 (hour_of t) +:+ ":" +:+ pad 2 (minute_of t) +:+ ":" +:+
        pad 2 (second_of t) +:+ "." +:+ pad 3 (ms_of t) +:+ "Z")
  else Throw RangeError_InvalidTime.

(** [Intl.DateTimeFormat("en-GB", {timeZone, hour, minute, hour12: false}).format]:
    the local time of day, HH:MM. *)
Definition format_en_GB_hm (tz : Timezone) (t : Z) : string :=
  let lt := local_time tz t in
  pad 2 (hour_of lt) +:+ ":" +:+ pad 2 (minute_of lt).

(** ** Rows of the three relational tables (db.ts) *)

Record GroupRow : Type := mkGroup {
  grp_jid : string;
  grp_name : option string;
  grp_first_seen : Z;
  grp_last_message : option Z;
  grp_message_count : Z }.

Record MessageRow : Type := mkMessage {
  msg_id : string;
  msg_group_jid : string;
  msg_sender_id : string;
  msg_sender_name : option string;
  msg_content : string;
  msg_timestamp : Z;
  msg_metadata : option string }.

(** [Omit<MessageRow, "id">], the argument of [insertMessage]. *)
Record NewMessage : Type := mkNewMessage {
  new_group_jid : string;
  new_sender_id : string;
  new_sender_name : option string;
  new_content : string;
  new_timestamp : Z;
  new_metadata : option string }.

Record DailySummaryRow : Type := mkSummary {
  sum_id : string;
  sum_group_jid : string;
  sum_date : CivilDate;
  sum_summary_text : string;
  sum_message_count : Z;
  sum_created_at : Z }.

Global Instance CivilDate_eq_dec : EqDecision CivilDate.
Proof. solve_decision. Defined.

(** ** Numbers of the vector extension

    Embeddings are vectors of floating-point numbers and the score is a
    floating-point expression. The store only moves the numbers around,
    rounds them to 32 bits, hands them to [vec_distance_cosine] and sorts
    by the result, so the embedding is parametric in the carrier. The
    order is the one ORDER BY uses, which is total on the values SQLite
    stores. *)
Class VecOps : Type := {
  number : Type;
  fround : number -> number;
  vec_distance_cosine : list number -> list number -> number;
  one_minus : number -> number;
  num_le : relation number;
  num_le_dec :: RelDecision num_le;
  num_le_total :: Total num_le;
  num_le_trans :: Transitive num_le }.

Section Archive.
Context `{VecOps}.

(** [vectorToBlob]: the Float32Array image of the vector. *)
Definition vectorToBlob (embedding : list number) : list number :=
  map fround embedding.

(** ** The SQL statements, as functions on tables *)

(** The object [ArchiveDb]: the tables of archive.db and the two private
    fields.  [message_embeddings] is the vec0 virtual table, declared with
    the column [embedding FLOAT[dims]]; it exists only when [vecAvailable]. *)
Record ArchiveDb : Type := mkDb {
  groups : gmap string GroupRow;
  messages : list MessageRow;
  daily_summaries : list DailySummaryRow;
  message_embeddings : gmap string (list number);
  vecAvailable : bool;
  dims : Z }.

Definition with_groups (f : gmap string GroupRow -> gmap string GroupRow) (d : ArchiveDb) :=
  mkDb (f (groups d)) (messages d) (daily_summaries d) (message_embeddings d)
       (vecAvailable d) (dims d).
Definition with_messages (f : list MessageRow -> list MessageRow) (d : ArchiveDb) :=
  mkDb (groups d) (f (messages d)) (daily_summaries d) (message_embeddings d)
       (vecAvailable d) (dims d).
Definition with_summaries (f : list DailySummaryRow -> list DailySummaryRow) (d : ArchiveDb) :=
  mkDb (groups d) (messages d) (f (daily_summaries d)) (message_embeddings d)
       (vecAvailable d) (dims d).
Definition with_embeddings (e : gmap string (list number)) (d : ArchiveDb) :=
  mkDb (groups d) (messages d) (daily_summaries d) e (vecAvailable d) (dims d).

(** The store right after the constructor ran on an empty directory. *)
Definition empty_db (vec : bool) (n : Z) : ArchiveDb :=
  mkDb ∅ [] [] ∅ vec n.

(** INSERT INTO groups (jid, name, first_seen, last_message, message_count)
    VALUES (?, ?, ?, ?, 1)
    ON CONFLICT(jid) DO UPDATE SET name = COALESCE(excluded.name, groups.name),
      last_message = excluded.last_message,
      message_count = groups.message_count + 1 *)
Definition sql_upsert_group (jid : string) (name : option string) (now : Z)
    (t : gmap string GroupRow) : gmap string GroupRow :=
  match t !! jid with
  | None => <[jid := mkGroup jid name now (Some now) 1]> t
  | Some old =>
      <[jid := mkGroup jid
                 (match name with Some n => Some n | None => grp_name old end)
                 (grp_first_seen old) (Some now) (grp_message_count old + 1)]> t
  end.

(** INSERT OR IGNORE INTO messages (...) VALUES (...), on the table
    declared with [id TEXT PRIMARY KEY] and
    [group_jid TEXT NOT NULL REFERENCES groups(jid)].  A row whose primary
    key is taken is dropped without an error.  OR IGNORE does not cover the
    foreign key: a new row whose group has no row in [groups] makes the
    statement fail. *)
Definition sql_insert_or_ignore_message (g : gmap string GroupRow) (row : MessageRow)
    (t : list MessageRow) : result (list MessageRow) :=
  if bool_decide (msg_id row ∈ map msg_id t) then Ok t
  else if bool_decide (is_Some (g !! msg_group_jid row)) then Ok (t ++ [row])
  else Throw ForeignKeyConstraintFailed.

(** ORDER BY timestamp ASC, along an index on the timestamp: rows of equal
    timestamp come in the order of their insertion. *)
Definition by_timestamp : relation MessageRow :=
  fun a b => msg_timestamp a <= msg_timestamp b.

Global Instance by_timestamp_dec : RelDecision by_timestamp.
Proof. intros a b. unfold by_timestamp. apply _. Defined.

Fixpoint insert_by_timestamp (m : MessageRow) (l : list MessageRow) : list MessageRow :=
  match l with
  | [] => [m]
  | x :: rest =>
      if decide (by_timestamp m x) then m :: l else x :: insert_by_timestamp m rest
  end.

Definition order_by_timestamp (l : list MessageRow) : list MessageRow :=
  foldr insert_by_timestamp [] l.

(** SELECT * FROM messages WHERE group_jid = ? AND timestamp >= ? AND
    timestamp < ? ORDER BY timestamp ASC *)
Definition sql_select_messages (groupJid : string) (startTs endTs : Z)
    (t : list MessageRow) : list MessageRow :=
  order_by_timestamp
    (filter (fun m => msg_group_jid m = groupJid /\
                      startTs <= msg_timestamp m /\ msg_timestamp m < endTs) t).

(** DISTINCT: each value where it comes first. *)
Fixpoint first_occurrences (l : list string) : list string :=
  match l with
  | [] => []
  | x :: rest => x :: filter (fun y => y <> x) (first_occurrences rest)
  end.

(** SELECT DISTINCT group_jid FROM messages WHERE timestamp >= ? AND
    timestamp < ?: the rows of the range are visited along the index on the
    timestamp, and each group is given where its first message comes. *)
Definition sql_select_distinct_groups (startTs endTs : Z)
    (t : list MessageRow) : list string :=
  first_occurrences
    (map msg_group_jid
       (order_by_timestamp
          (filter (fun m => startTs <= msg_timestamp m /\ msg_timestamp m < endTs) t))).

(** INSERT OR REPLACE INTO daily_summaries (...) VALUES (...), on the table
    declared with [group_jid TEXT NOT NULL REFERENCES groups(jid)]: the
    rows in conflict with the new one, on the primary key [id] or on the
    unique index (group_jid, date), are deleted, then the row is inserted.
    OR REPLACE does not cover the foreign key: a row whose group has no row
    in [groups] makes the statement fail. *)
Definition summary_conflicts (row r : DailySummaryRow) : Prop :=
  sum_id r = sum_id row \/
  (sum_group_jid r = sum_group_jid row /\ sum_date r = sum_date row).

Global Instance summary_conflicts_dec row r : Decision (summary_conflicts row r).
Proof. unfold summary_conflicts. apply _. Defined.

Definition sql_insert_or_replace_summary (g : gmap string GroupRow)
    (row : DailySummaryRow) (t : list DailySummaryRow) : result (list DailySummaryRow) :=
  if bool_decide (is_Some (g !! sum_group_jid row))
  then Ok (filter (fun r => ~ summary_conflicts row r) t ++ [row])
  else Throw ForeignKeyConstraintFailed.

(** SELECT * FROM daily_summaries WHERE group_jid = ? AND date = ?, first row. *)
Definition sql_get_summary (groupJid : string) (date : CivilDate)
    (t : list DailySummaryRow) : option DailySummaryRow :=
  head (filter (fun r => sum_group_jid r = groupJid /\ sum_date r = date) t).

(** INSERT OR REPLACE INTO message_embeddings (message_id, embedding)
    VALUES (?, ?), on the vec0 virtual table.  The column is FLOAT[dims]:
    vec0 first checks the width of the vector and raises an error for
    another width.  A virtual table resolves conflicts itself, and vec0
    does not replace: a key that has a vector makes the statement fail with
    a UNIQUE constraint error, and the stored vector stays. *)
Definition vec0_insert_or_replace (width : Z) (key : string) (blob : list number)
    (t : gmap string (list number)) : result (gmap string (list number)) :=
  if negb (Z.of_nat (length blob) =? width)
  then Throw (DimensionMismatch width (Z.of_nat (length blob)))
  else if bool_decide (is_Some (t !! key)) then Throw UniqueConstraintFailed
  else Ok (<[key := blob]> t).

(** A row of the search result: [MessageRow & { score: number }]. *)
Record Scored : Type := mkScored { sc_row : MessageRow; sc_score : number }.

(** ORDER BY score DESC: a row sorts before the rows whose score is not larger. *)
Definition by_score_desc : relation Scored :=
  fun a b => num_le (sc_score b) (sc_score a).

Global Instance by_score_desc_dec : RelDecision by_score_desc.
Proof. intros a b. unfold by_score_desc. apply _. Defined.

(** (1 - vec_distance_cosine(e.embedding, ?)) AS score; the function raises
    an error when its arguments differ in width. *)
Definition sql_score (stored query : list number) : result number :=
  if Z.of_nat (length stored) =? Z.of_nat (length query)
  then Ok (one_minus (vec_distance_cosine stored query))
  else Throw (DimensionMismatch (Z.of_nat (length stored)) (Z.of_nat (length query))).

(** FROM message_embeddings e JOIN messages m ON m.id = e.message_id *)
Definition sql_join_embeddings (e : gmap string (list number))
    (t : list MessageRow) : list (MessageRow * list number) :=
  omap (fun m => match e !! msg_id m with
                 | Some blob => Some (m, blob)
                 | None => None
                 end) t.

(** Evaluation of the score column on every selected row; the statement
    fails as a whole when one evaluation fails. *)
Fixpoint sql_score_rows (query : list number)
    (rows : list (MessageRow * list number)) : result (list Scored) :=
  match rows with
  | [] => Ok []
  | (m, blob) :: rest =>
      match sql_score blob query with
      | Throw e => Throw e
      | Ok s =>
          match sql_score_rows query rest with
          | Throw e => Throw e
          | Ok l => Ok (mkScored m s :: l)
          end
      end
  end.

(** LIMIT ?: a negative bound means no bound. *)
Definition sql_limit {A} (n : Z) (l : list A) : list A :=
  if n <? 0 then l else take (Z.to_nat n) l.

(** ** The world the plugin runs in *)

Inductive Provider : Type := OpenAI | Anthropic.

(** One request to a text-generation backend, and what comes back: the
    request is rejected (network failure, SDK error), or a response arrives
    with its status and, maybe, a text block. *)
Record LlmRequest : Type := mkRequest {
  req_provider : Provider;
  req_model : string;
  req_transcript : string }.

Inductive LlmReply : Type :=
| Rejected (reason : string)
| Response (ok : bool) (status : Z) (body : string) (text : option string).

(** The lines the plugin writes to the logger. *)
Inductive LogEntry : Type :=
| InfoGenerating (groupJid : string) (date : CivilDate) (count : Z)
| InfoSchedulerTriggered (date : CivilDate)
| InfoSchedulerDone (count : Z) (date : CivilDate)
| WarnSummaryFailed (groupJid : string) (err : Exn).

Record GroupArchiveConfig : Type := mkConfig {
  summary_provider : string;
  summary_model : string;
  scheduledTime : string;
  timezone : Timezone }.

(** [w_clock] is what [Date.now()] and [new Date()] read; it stands still
    during a step of the plugin and is moved by who drives the steps
    ([set_clock]).  [w_uuid] is the sequence [randomUUID()] draws from.
    [w_backend k] answers the k-th request sent to a backend, and
    [w_requests] keeps the requests sent.  [w_embed_requests] are the calls
    of [embeddings.embed] started by the capture hook, each with the
    message its result will be written for.  [w_lastRunDate] is the
    variable of that name in [createScheduler].  [w_pipeline_calls] records
    the entries into [generateAndStoreSummary] (ghost state: the code has
    no such variable). *)
Record World : Type := mkWorld {
  w_db : ArchiveDb;
  w_clock : Z;
  w_uuid : nat -> string;
  w_uuid_next : nat;
  w_backend : nat -> LlmRequest -> LlmReply;
  w_requests : list LlmRequest;
  w_embed_requests : list (string * string);
  w_log : list LogEntry;
  w_lastRunDate : option CivilDate;
  w_pipeline_calls : list (string * CivilDate) }.

Definition set_db (d : ArchiveDb) (w : World) : World :=
  mkWorld d (w_clock w) (w_uuid w) (w_uuid_next w) (w_backend w) (w_requests w)
          (w_embed_requests w) (w_log w) (w_lastRunDate w) (w_pipeline_calls w).
Definition set_clock (t : Z) (w : World) : World :=
  mkWorld (w_db w) t (w_uuid w) (w_uuid_next w) (w_backend w) (w_requests w)
          (w_embed_requests w) (w_log w) (w_lastRunDate w) (w_pipeline_calls w).
Definition set_uuid_next (n : nat) (w : World) : World :=
  mkWorld (w_db w) (w_clock w) (w_uuid w) n (w_backend w) (w_requests w)
          (w_embed_requests w) (w_log w) (w_lastRunDate w) (w_pipeline_calls w).
Definition set_requests (l : list LlmRequest) (w : World) : World :=
  mkWorld (w_db w) (w_clock w) (w_uuid w) (w_uuid_next w) (w_backend w) l
          (w_embed_requests w) (w_log w) (w_lastRunDate w) (w_pipeline_calls w).
Definition set_embed_requests (l : list (string * string)) (w : World) : World :=
  mkWorld (w_db w) (w_clock w) (w_uuid w) (w_uuid_next w) (w_backend w) (w_requests w)
          l (w_log w) (w_lastRunDate w) (w_pipeline_calls w).
Definition set_log (l : list LogEntry) (w : World) : World :=
  mkWorld (w_db w) (w_clock w) (w_uuid w) (w_uuid_next w) (w_backend w) (w_requests w)
          (w_embed_requests w) l (w_lastRunDate w) (w_pipeline_calls w).
Definition set_lastRunDate (d : option CivilDate) (w : World) : World :=
  mkWorld (w_db w) (w_clock w) (w_uuid w) (w_uuid_next w) (w_backend w) (w_requests w)
          (w_embed_requests w) (w_log w) d (w_pipeline_calls w).
Definition set_pipeline_calls (l : list (string * CivilDate)) (w : World) : World :=
  mkWorld (w_db w) (w_clock w) (w_uuid w) (w_uuid_next w) (w_backend w) (w_requests w)
          (w_embed_requests w) (w_log w) (w_lastRunDate w) l.

(** ** Computations: state of the world and exceptions *)

Definition M (A : Type) : Type := World -> result A * World.

Definition ret {A} (a : A) : M A := fun w => (Ok a, w).

Definition throw {A} (e : Exn) : M A := fun w => (Throw e, w).

Definition bind {A B} (m : M A) (k : A -> M B) : M B :=
  fun w => match m w with
           | (Ok a, w') => k a w'
           | (Throw e, w') => (Throw e, w')
           end.

(** try { m } catch (err) { handler err } *)
Definition try_catch {A} (m : M A) (handler : Exn -> M A) : M A :=
  fun w => match m w with
           | (Ok a, w') => (Ok a, w')
           | (Throw e, w') => handler e w'
           end.

Definition get_world : M World := fun w => (Ok w, w).
Definition modify (f : World -> World) : M unit := fun w => (Ok tt, f w).
Definition lift {A} (r : result A) : M A := fun w => (r, w).

Notation "'let*' x ':=' m 'in' k" := (bind m (fun x => k))
  (at level 10, x name, m at level 100, k at level 200).

Definition Date_now : M Z := fun w => (Ok (w_clock w), w).

Definition randomUUID : M string :=
  fun w => (Ok (w_uuid w (w_uuid_next w)), set_uuid_next (S (w_uuid_next w)) w).

Definition logger (e : LogEntry) : M unit :=
  modify (fun w => set_log (w_log w ++ [e]) w).

Definition modify_db (f : ArchiveDb -> ArchiveDb) : M unit :=
  modify (fun w => set_db (f (w_db w)) w).

(** ** The methods of ArchiveDb (db.ts) *)

Definition vectorEnabled : M bool := fun w => (Ok (vecAvailable (w_db w)), w).

Definition upsertGroup (jid : string) (name : option string) : M unit :=
  let* now := Date_now in
  modify_db (with_groups (sql_upsert_group jid name now)).

(** The row bound to the statement of [insertMessage]. *)
Definition new_row (id : string) (msg : NewMessage) : MessageRow :=
  mkMessage id (new_group_jid msg) (new_sender_id msg) (new_sender_name msg)
            (new_content msg) (new_timestamp msg) (new_metadata msg).

Definition insertMessage (msg : NewMessage) : M string :=
  let* id := randomUUID in
  let* w := get_world in
  let* t := lift (sql_insert_or_ignore_message (groups (w_db w)) (new_row id msg)
                    (messages (w_db w))) in
  let* _ := modify_db (with_messages (fun _ => t)) in
  ret id.

Definition getMessagesByGroupAndDateRange (groupJid : string) (startTs endTs : Z)
    : M (list MessageRow) :=
  fun w => (Ok (sql_select_messages groupJid startTs endTs (messages (w_db w))), w).

Definition insertEmbedding (messageId : string) (embedding : list number) : M unit :=
  let* w := get_world in
  if negb (vecAvailable (w_db w)) then ret tt
  else
    let* t := lift (vec0_insert_or_replace (dims (w_db w)) messageId
                 (vectorToBlob embedding) (message_embeddings (w_db w))) in
    modify_db (with_embeddings t).

(** [if (groupJid)]: an absent or empty group id selects the statement
    without the WHERE clause. *)
Definition truthy (s : option string) : bool :=
  match s with
  | Some g => negb (bool_decide (g = EmptyString))
  | None => false
  end.

Definition searchSimilar (queryVec : list number) (limit : Z)
    (groupJid : option string) : M (list Scored) :=
  let* w := get_world in
  if negb (vecAvailable (w_db w)) || (Z.of_nat (length queryVec) =? 0) then ret []
  else
    let blob := vectorToBlob queryVec in
    let joined := sql_join_embeddings (message_embeddings (w_db w)) (messages (w_db w)) in
    let selected :=
      if truthy groupJid
      then filter (fun r => Some (msg_group_jid (fst r)) = groupJid) joined
      else joined in
    let* scored := lift (sql_score_rows blob selected) in
    ret (sql_limit limit (merge_sort by_score_desc scored)).

Definition insertSummary (groupJid : string) (date : CivilDate)
    (summaryText : string) (messageCount : Z) : M unit :=
  let* id := randomUUID in
  let* now := Date_now in
  let* w := get_world in
  let* t := lift (sql_insert_or_replace_summary (groups (w_db w))
                    (mkSummary id groupJid date summaryText messageCount now)
                    (daily_summaries (w_db w))) in
  modify_db (with_summaries (fun _ => t)).

Definition getSummary (groupJid : string) (date : CivilDate)
    : M (option DailySummaryRow) :=
  fun w => (Ok (sql_get_summary groupJid date (daily_summaries (w_db w))), w).

Definition getGroupsWithMessagesOnDate (startTs endTs : Z) : M (list string) :=
  fun w => (Ok (sql_select_distinct_groups startTs endTs (messages (w_db w))), w).

(** ** Summaries (summary.ts) *)

Definition newline : string := String (ascii_of_nat 10) EmptyString.

(** One line of the transcript: [[HH:MM] sender: content], the time being
    characters 11 to 15 of the ISO rendering of the timestamp. *)
Definition format_line (m : MessageRow) : result string :=
  match toISOString (msg_timestamp m) with
  | Throw e => Throw e
  | Ok iso =>
      let time := slice 11 16 iso in
      let sender := match msg_sender_name m with
                    | Some n => n
                    | None => msg_sender_id m
                    end in
      Ok ("[" +:+ time +:+ "] " +:+ sender +:+ ": " +:+ msg_content m)
  end.

(** [Array.prototype.map] with a callback that may throw. *)
Fixpoint map_result {A B} (f : A -> result B) (l : list A) : result (list B) :=
  match l with
  | [] => Ok []
  | x :: rest =>
      match f x with
      | Throw e => Throw e
      | Ok y => match map_result f rest with
                | Throw e => Throw e
                | Ok ys => Ok (y :: ys)
                end
      end
  end.

Definition formatTranscript (msgs : list MessageRow) : result string :=
  match map_result format_line msgs with
  | Throw e => Throw e
  | Ok lines => Ok (String.concat newline lines)
  end.

Definition TRANSCRIPT_BUDGET : Z := 100000.

(** The marker: two line feeds, then the bracketed words. *)
Definition TRUNCATION_MARKER : string :=
  newline +:+ newline +:+ "[...transcript truncated...]".

(** The two statements that cap the transcript in [generateSummary]. *)
Definition cap_transcript (transcript : string) : string :=
  if strlen transcript >? TRANSCRIPT_BUDGET
  then slice 0 TRANSCRIPT_BUDGET transcript +:+ TRUNCATION_MARKER
  else transcript.

(** Sending one request: the world answers, the request is on record. *)
Definition send_request (req : LlmRequest) : M LlmReply :=
  fun w => (Ok (w_backend w (length (w_requests w)) req),
            set_requests (w_requests w ++ [req]) w).

Definition generateWithOpenAI (config : GroupArchiveConfig) (transcript : string)
    : M string :=
  let* reply := send_request (mkRequest OpenAI (summary_model config) transcript) in
  match reply with
  | Rejected reason => throw (BackendFailure reason)
  | Response ok status body text =>
      if ok then ret (match text with Some t => t | None => EmptyString end)
      else throw (ApiError status body)
  end.

Definition generateWithAnthropic (config : GroupArchiveConfig) (transcript : string)
    : M string :=
  let* reply := send_request (mkRequest Anthropic (summary_model config) transcript) in
  match reply with
  | Rejected reason => throw (BackendFailure reason)
  | Response ok status body text =>
      if negb ok then throw (ApiError status body)
      else ret (match text with Some t => t | None => EmptyString end)
  end.

Definition generateSummary (config : GroupArchiveConfig) (msgs : list MessageRow)
    : M string :=
  let* transcript := lift (formatTranscript msgs) in
  let transcript := cap_transcript transcript in
  if bool_decide (summary_provider config = "anthropic"%string)
  then generateWithAnthropic config transcript
  else generateWithOpenAI config transcript.

(** The candidates of the loop [for (offsetH = -14; offsetH <= 14; offsetH++)]. *)
Definition offset_hours : list Z := seqZ (-14) 29.

(** The body of the loop, over the offsets still to try: the first
    candidate instant whose local date is [dateStr] gives the result, the
    candidate minus its local time of day. *)
Fixpoint search_midnight (dateStr : CivilDate) (tz : Timezone) (rough : Z)
    (offsets : list Z) : option Z :=
  match offsets with
  | [] => None
  | offsetH :: rest =>
      let candidate := rough + offsetH * 3600000 in
      let localDate := format_en_CA_date tz candidate in
      if bool_decide (localDate = dateStr) then
        let lt := local_time tz candidate in
        let localH := hour_of lt in
        let localM := minute_of lt in
        let localS := second_of lt in
        Some (candidate - (localH * 3600000 + localM * 60000 + localS * 1000))
      else search_midnight dateStr tz rough rest
  end.

(** [midnightUtcForDate].  The fallback reads the date as UTC; it is
    reached for a date string that names no day of the calendar and for a
    date the timezone skips, and is given here for dates of the calendar
    (others carry into the following month, as in [Date_UTC]). *)
Definition midnightUtcForDate (dateStr : CivilDate) (tz : Timezone) : Z :=
  let rough := Date_UTC (year dateStr) (month dateStr - 1) (day dateStr) 12 in
  match search_midnight dateStr tz rough offset_hours with
  | Some t => t
  | None => (days_from_civil (year dateStr) (month dateStr) 1 + (day dateStr - 1)) * msPerDay
  end.

Definition generateAndStoreSummary (config : GroupArchiveConfig)
    (groupJid : string) (date : CivilDate) : M string :=
  let* _ := modify (fun w => set_pipeline_calls (w_pipeline_calls w ++ [(groupJid, date)]) w) in
  let* existing := getSummary groupJid date in
  match existing with
  | Some row => ret (sum_summary_text row)
  | None =>
      let dayStart := midnightUtcForDate date (timezone config) in
      let dayEnd := dayStart + 86400000 in
      let* msgs := getMessagesByGroupAndDateRange groupJid dayStart dayEnd in
      if Z.of_nat (length msgs) =? 0 then ret EmptyString
      else
        let* _ := logger (InfoGenerating groupJid date (Z.of_nat (length msgs))) in
        let* summaryText := generateSummary config msgs in
        let* _ := insertSummary groupJid date summaryText (Z.of_nat (length msgs)) in
        ret summaryText
  end.

(** ** The scheduler (scheduler.ts) *)

Definition getYesterdayDate (tz : Timezone) : M CivilDate :=
  let* now := Date_now in
  let yesterday := now - 86400000 in
  ret (format_en_CA_date tz yesterday).

Definition currentTimeInTimezone (tz : Timezone) : M string :=
  let* now := Date_now in
  ret (format_en_GB_hm tz now).

(** The loop [for (const groupJid of groupJids) { try {...} catch {...} }]. *)
Fixpoint summarize_groups (config : GroupArchiveConfig) (yesterday : CivilDate)
    (groupJids : list string) : M unit :=
  match groupJids with
  | [] => ret tt
  | groupJid :: rest =>
      let* _ := try_catch
                  (let* _ := generateAndStoreSummary config groupJid yesterday in ret tt)
                  (fun err => logger (WarnSummaryFailed groupJid err)) in
      summarize_groups config yesterday rest
  end.

Definition tick (config : GroupArchiveConfig) : M unit :=
  let* currentTime := currentTimeInTimezone (timezone config) in
  if negb (bool_decide (currentTime = scheduledTime config)) then ret tt
  else
    let* yesterday := getYesterdayDate (timezone config) in
    let* w := get_world in
    if bool_decide (w_lastRunDate w = Some yesterday) then ret tt
    else
      let* _ := modify (set_lastRunDate (Some yesterday)) in
      let* _ := logger (InfoSchedulerTriggered yesterday) in
      let dayStart := midnightUtcForDate yesterday (timezone config) in
      let dayEnd := dayStart + 86400000 in
      let* groupJids := getGroupsWithMessagesOnDate dayStart dayEnd in
      let* _ := summarize_groups config yesterday groupJids in
      logger (InfoSchedulerDone (Z.of_nat (length groupJids)) yesterday).

(** ** The capture hook (capture.ts) *)

(** [event.metadata], with the two properties the hook reads and the text
    [JSON.stringify] gives for it. *)
Record Metadata : Type := mkMetadata {
  md_groupName : option string;
  md_pushName : option string;
  md_json : string }.

(** The inbound event; [content] may be missing at run time, which the
    hook guards against with [event.content?.trim()]. *)
Record InboundEvent : Type := mkEvent {
  ev_from : string;
  ev_content : option string;
  ev_timestamp : option Z;
  ev_metadata : option Metadata }.

Record HookCtx : Type := mkHookCtx {
  channelId : string;
  conversationId : option string }.

(** White space and line terminators among the code units below 256. *)
Definition is_space (c : ascii) : bool :=
  let n := nat_of_ascii c in
  (Nat.leb 9 n && Nat.leb n 13) || Nat.eqb n 32 || Nat.eqb n 160.

Fixpoint trimStart (s : string) : string :=
  match s with
  | EmptyString => EmptyString
  | String c rest => if is_space c then trimStart rest else s
  end.

Fixpoint trimEnd (s : string) : string :=
  match s with
  | EmptyString => EmptyString
  | String c rest =>
      match trimEnd rest with
      | EmptyString => if is_space c then EmptyString else String c EmptyString
      | rest' => String c rest'
      end
  end.

Definition trim (s : string) : string := trimEnd (trimStart s).

Definition endsWith (suffix s : string) : bool :=
  let n := String.length s in
  let k := String.length suffix in
  Nat.leb k n && bool_decide (String.substring (n - k) k s = suffix).

Definition createCaptureHandler (event : InboundEvent) (hookCtx : HookCtx) : M unit :=
  if negb (bool_decide (channelId hookCtx = "whatsapp"%string)) then ret tt
  else if negb (match conversationId hookCtx with
                | Some c => endsWith "@g.us" c
                | None => false
                end) then ret tt
  else
    let content := option_map trim (ev_content event) in
    if negb (truthy content) then ret tt
    else
      let content := match content with Some c => c | None => EmptyString end in
      let groupJid := match conversationId hookCtx with
                      | Some c => c
                      | None => EmptyString
                      end in
      let groupName := match ev_metadata event with
                       | Some md => md_groupName md
                       | None => None
                       end in
      let senderName := match ev_metadata event with
                        | Some md => md_pushName md
                        | None => None
                        end in
      let* _ := upsertGroup groupJid groupName in
      let* now := Date_now in
      let* messageId := insertMessage
        (mkNewMessage groupJid (ev_from event) senderName content
           (match ev_timestamp event with Some t => t | None => now end)
           (option_map md_json (ev_metadata event))) in
      let* enabled := vectorEnabled in
      if enabled
      then modify (fun w => set_embed_requests
                              (w_embed_requests w ++ [(messageId, content)]) w)
      else ret tt.

End Archive.

(** ** Concrete data for the examples *)

(** A carrier for the examples: integers, with the sum of the absolute
    differences in the place of the cosine distance. *)
Definition Z_ops : VecOps :=
  {| number := Z;
     fround := fun x => x;
     vec_distance_cosine :=
       fun a b => foldr Z.add 0 (zip_with (fun x y => Z.abs (x - y)) a b);
     one_minus := fun x => 1 - x;
     num_le := Z.le |}.

(** Australia/Sydney around 6 October 2024: UTC+10 until 2024-10-05T16:00Z
    (02:00 local), UTC+11 from then on. *)
Definition sydney : Timezone :=
  fun t => if t <? 1728144000000 then 36000000 else 39600000.

(** America/New_York around 10 March 2024: UTC-5 until 2024-03-10T07:00Z
    (02:00 local), UTC-4 from then on. *)
Definition new_york : Timezone :=
  fun t => if t <? 1710054000000 then -18000000 else -14400000.

Definition utc_plus_2 : Timezone := fixed_offset 7200000.

(** A world with an empty store whose [randomUUID] always draws the same
    identity and whose backends reject every request. *)
Definition quiet_world (vec : bool) (now : Z) : @World Z_ops :=
  mkWorld (empty_db vec 3) now (fun _ => "u1"%string) O
          (fun _ _ => Rejected "unreachable") [] [] [] None [].

(** A store with two messages, one in each of two groups, and their
    embeddings. *)
Definition search_world : @World Z_ops :=
  mkWorld
    (mkDb {["g1@g.us"%string := mkGroup "g1@g.us" None 10 (Some 10) 1;
            "g2@g.us"%string := mkGroup "g2@g.us" None 20 (Some 20) 1]}
       [mkMessage "a" "g1@g.us" "alice" None "one" 10 None;
        mkMessage "b" "g2@g.us" "bob" None "two" 20 None]
       []
       (<["a"%string := [1; 0; 0]]> (<["b"%string := [0; 1; 0]]> ∅))
       true 3)
    0 (fun _ => "u1"%string) O (fun _ _ => Rejected "unreachable") [] [] [] None [].

Definition june15 : CivilDate := mkDate 2024 6 15.

Definition demo_config (tz : Timezone) : GroupArchiveConfig :=
  mkConfig "openai" "gpt-4o-mini" "00:00" tz.

Definition answering : nat -> LlmRequest -> LlmReply :=
  fun _ _ => Response true 200 EmptyString (Some "summary"%string).

Definition rejecting : nat -> LlmRequest -> LlmReply :=
  fun _ _ => Rejected "timeout".

Definition one_oclock_message : MessageRow :=
  mkMessage "a" "g1@g.us" "alice" None "twenty characters ok" 1718413200000 None.

(** A store with one message of group g1@g.us at 2024-06-15T01:00Z, on
    16 June, with the given backend. *)
Definition day_world (backend : nat -> LlmRequest -> LlmReply) : @World Z_ops :=
  mkWorld
    (mkDb {["g1@g.us"%string := mkGroup "g1@g.us" None 1718413200000 (Some 1718413200000) 1]}
          [one_oclock_message] [] ∅ false 3)
    1718500000000 (fun _ => "u1"%string) O backend [] [] [] None [].

(** Four thousand copies of a message: a transcript of 143,999 characters. *)
Definition long_day : list MessageRow := repeat one_oclock_message 4000.

(** Three groups with one message each on 15 June 2024, seen at
    2024-06-16T00:00:30Z; the backend rejects the second request it gets. *)
Definition second_fails : nat -> LlmRequest -> LlmReply :=
  fun k _ => if Nat.eqb k 1 then Rejected "timeout"
             else Response true 200 EmptyString (Some "summary"%string).

Definition three_groups_world : @World Z_ops :=
  mkWorld
    (mkDb {["g1@g.us"%string := mkGroup "g1@g.us" None 1718413200000 (Some 1718413200000) 1;
            "g2@g.us"%string := mkGroup "g2@g.us" None 1718416800000 (Some 1718416800000) 1;
            "g3@g.us"%string := mkGroup "g3@g.us" None 1718420400000 (Some 1718420400000) 1]}
          [mkMessage "a" "g1@g.us" "alice" None "one" 1718413200000 None;
           mkMessage "b" "g2@g.us" "bob" None "two" 1718416800000 None;
           mkMessage "c" "g3@g.us" "carol" None "three" 1718420400000 None]
          [] ∅ false 3)
    1718496030000 (fun k => pad 3 (Z.of_nat k)) O second_fails [] [] [] None [].

(** New York, the night before the clocks go forward: one group with a
    message on 9 March (15:00Z) and one on 10 March 2024 (15:00Z), seen at
    2024-03-10T05:00:30Z, which is 00:00:30 local time on 10 March. *)
Definition ny_world : @World Z_ops :=
  mkWorld
    (mkDb {["g1@g.us"%string := mkGroup "g1@g.us" None 1709996400000 (Some 1710082800000) 2]}
          [mkMessage "a" "g1@g.us" "alice" None "saturday" 1709996400000 None;
           mkMessage "b" "g1@g.us" "alice" None "sunday" 1710082800000 None]
          [] ∅ false 3)
    1710046830000 (fun k => pad 3 (Z.of_nat k)) O answering [] [] [] None [].

(** Sydney, the night the clocks go forward: one group whose only message
    came at 2024-10-05T13:30Z, which is 23:30 local time on 5 October. *)
Definition sydney_world : @World Z_ops :=
  mkWorld
    (mkDb {["g1@g.us"%string := mkGroup "g1@g.us" None 1728135000000 (Some 1728135000000) 1]}
          [mkMessage "a" "g1@g.us" "alice" None "good night" 1728135000000 None]
          [] ∅ false 3)
    1728300000000 (fun k => pad 3 (Z.of_nat k)) O answering [] [] [] None [].

Definition hello_event : InboundEvent :=
  mkEvent "alice" (Some "  hello "%string) None None.
Definition blank_event : InboundEvent :=
  mkEvent "alice" (Some "   "%string) None None.
Definition group_ctx : HookCtx := mkHookCtx "whatsapp" (Some "g1@g.us"%string).

(** ** Vocabulary of the statements *)

Section Vocabulary.
Context `{VecOps}.

(** A string of white space only. *)
Fixpoint all_space (s : string) : bool :=
  match s with
  | EmptyString => true
  | String c rest => is_space c && all_space rest
  end.

(** The events the capture hook does not archive. *)
Definition content_blank (ev : InboundEvent) : Prop :=
  match ev_content ev with
  | None => True
  | Some c => trim c = EmptyString
  end.

Definition not_group_conversation (hc : HookCtx) : Prop :=
  match conversationId hc with
  | None => True
  | Some c => endsWith "@g.us" c = false
  end.

(** The ingestion path of the capture hook: [upsertGroup], then
    [insertMessage]. *)
Definition ingest (jid : string) (name : option string) (msg : NewMessage) : M string :=
  bind (upsertGroup jid name) (fun _ => insertMessage msg).

(** What the insert of a message leaves of the table when no foreign key
    stands in its way, and what the insert of a summary leaves. *)
Definition append_new_message (row : MessageRow) (t : list MessageRow) : list MessageRow :=
  if bool_decide (msg_id row ∈ map msg_id t) then t else t ++ [row].

Definition replace_summary (row : DailySummaryRow) (t : list DailySummaryRow)
    : list DailySummaryRow :=
  filter (fun r => ~ summary_conflicts row r) t ++ [row].

(** The foreign key of the messages table holds. *)
Definition groups_known (d : ArchiveDb) : Prop :=
  forall m, m ∈ messages d -> is_Some (groups d !! msg_group_jid m).

(** The counter of a group, 0 for a group the store has not seen. *)
Definition message_count_of (jid : string) (d : ArchiveDb) : Z :=
  match groups d !! jid with
  | Some g => grp_message_count g
  | None => 0
  end.

Definition rows_with_id (id : string) (d : ArchiveDb) : list MessageRow :=
  filter (fun m => msg_id m = id) (messages d).

(** The primary key of the messages table. *)
Definition keys_unique (d : ArchiveDb) : Prop := NoDup (map msg_id (messages d)).

(** Every vector of the vec0 table has the width its column declares. *)
Definition widths_ok (d : ArchiveDb) : Prop :=
  map_Forall (fun _ blob => Z.of_nat (length blob) = dims d) (message_embeddings d).

(** The score column of the search statement. *)
Definition score_row (query : list number) (r : MessageRow * list number) : Scored :=
  mkScored (fst r) (one_minus (vec_distance_cosine (snd r) query)).

(** The rows the search statement selects before it orders them. *)
Definition search_candidates (groupJid : option string) (d : ArchiveDb)
    : list (MessageRow * list number) :=
  let joined := sql_join_embeddings (message_embeddings d) (messages d) in
  if truthy groupJid
  then filter (fun r => Some (msg_group_jid (fst r)) = groupJid) joined
  else joined.

End Vocabulary.

(** ** Vocabulary of the further properties *)

Section MoreVocabulary.
Context `{VecOps}.

(** A run of [upsertGroup] calls for one group, each with the name it
    passes and the time it reads from the clock. *)
Definition upsert_each (jid : string) (calls : list (option string * Z)) (w : World)
    : World :=
  foldl (fun w c => snd (upsertGroup jid (fst c) (set_clock (snd c) w))) w calls.

(** The last name among the calls that passed one. *)
Definition last_name (calls : list (option string * Z)) (init : option string)
    : option string :=
  foldl (fun acc c => match fst c with Some n => Some n | None => acc end) init calls.

(** The primary key and the unique index of the table of summaries. *)
Definition summary_key (r : DailySummaryRow) : string * CivilDate :=
  (sum_group_jid r, sum_date r).

Definition summaries_unique (d : ArchiveDb) : Prop :=
  NoDup (map sum_id (daily_summaries d)) /\
  NoDup (map summary_key (daily_summaries d)).

(** Two states of the store that differ at most in the table of summaries. *)
Definition same_but_summaries (d d' : ArchiveDb) : Prop :=
  groups d' = groups d /\ messages d' = messages d /\
  message_embeddings d' = message_embeddings d /\
  vecAvailable d' = vecAvailable d /\ dims d' = dims d.

(** What the capture hook keeps true of the store: every message belongs
    to a stored group whose id ends in "@g.us", and its content is not
    empty and has no white space at either end. *)
Definition archived_well (d : ArchiveDb) : Prop :=
  forall m, m ∈ messages d ->
    is_Some (groups d !! msg_group_jid m) /\
    endsWith "@g.us" (msg_group_jid m) = true /\
    msg_content m <> EmptyString /\
    trim (msg_content m) = msg_content m.

(** ** The counter of a group and its stored messages *)

Definition group_messages (jid : string) (d : ArchiveDb) : list MessageRow :=
  filter (fun m => msg_group_jid m = jid) (messages d).

(** The counter of every group is at least, or exactly, the number of its
    stored messages. *)
Definition counter_covers (d : ArchiveDb) : Prop :=
  forall jid, Z.of_nat (length (group_messages jid d)) <= message_count_of jid d.

Definition counter_exact (d : ArchiveDb) : Prop :=
  forall jid, Z.of_nat (length (group_messages jid d)) = message_count_of jid d.

(** The capture hook run on a sequence of inbound events. *)
Definition capture_each (events : list (InboundEvent * HookCtx)) (w : World) : World :=
  foldl (fun w e => snd (createCaptureHandler (fst e) (snd e) w)) w events.

(** ** When the scheduler's pass over the groups cannot fail *)

(** The backends answer every request with a response that is ok. *)
Definition backend_answers (w : World) : Prop :=
  forall n req, exists status body text, w_backend w n req = Response true status body text.

(** Every stored timestamp is a time value a Date can hold. *)
Definition timestamps_valid (d : ArchiveDb) : Prop :=
  forall m, m ∈ messages d -> valid_time (msg_timestamp m) = true.

(** The identities [randomUUID] is still to draw differ from one another
    and from the identities of the stored summaries. *)
Definition uuids_fresh (w : World) : Prop :=
  (forall j k, (w_uuid_next w <= j)%nat -> (w_uuid_next w <= k)%nat ->
               w_uuid w j = w_uuid w k -> j = k) /\
  (forall k, (w_uuid_next w <= k)%nat ->
             w_uuid w k ∉ map sum_id (daily_summaries (w_db w))).

Definition pipeline_ready (w : World) : Prop :=
  backend_answers w /\ timestamps_valid (w_db w) /\ uuids_fresh w /\
  groups_known (w_db w).

(** ** The tick of a configuration as the parser returns it *)

(** The timezone names [Intl] knows, each with the timezone it denotes. *)
Definition TimezoneNames : Type := string -> option Timezone.

(** The fields of the parsed configuration the scheduler reads; [timezone]
    is any string (config.ts accepts every string). *)
Record ParsedConfig : Type := mkParsed {
  parsed_provider : string;
  parsed_model : string;
  parsed_scheduledTime : string;
  parsed_timezone : string }.

(** [tick] on a parsed configuration.  Its first statement builds
    [Intl.DateTimeFormat] with the configured timezone, which throws a
    RangeError for a name [Intl] does not know; the call is in no [try],
    so the error leaves [tick].  For a name [Intl] knows, every later
    formatter of the tick is built with the same name and denotes the same
    timezone. *)
Definition tick_named (intl : TimezoneNames) (p : ParsedConfig) : M unit :=
  match intl (parsed_timezone p) with
  | None => throw (RangeError_InvalidTimeZone (parsed_timezone p))
  | Some tz =>
      tick (mkConfig (parsed_provider p) (parsed_model p) (parsed_scheduledTime p) tz)
  end.

(** ** Listing the groups (db.ts) *)

(** ORDER BY last_message DESC: NULL sorts below every number, so the
    groups without a last message come last. *)
Definition last_message_le (a b : option Z) : Prop :=
  match a, b with
  | None, _ => True
  | Some _, None => False
  | Some x, Some y => x <= y
  end.

Definition by_last_message_desc : relation GroupRow :=
  fun a b => last_message_le (grp_last_message b) (grp_last_message a).

Global Instance last_message_le_dec : RelDecision last_message_le.
Proof. intros [a|] [b|]; cbn; apply _. Defined.

Global Instance by_last_message_desc_dec : RelDecision by_last_message_desc.
Proof. intros a b. unfold by_last_message_desc. apply _. Defined.

(** SELECT * FROM groups ORDER BY last_message DESC *)
Definition sql_select_groups (t : gmap string GroupRow) : list GroupRow :=
  merge_sort by_last_message_desc (map snd (map_to_list t)).

Definition listGroups : M (list GroupRow) :=
  fun w => (Ok (sql_select_groups (groups (w_db w))), w).

(** ** The embedding client and the semantic search (embeddings.ts, search.ts) *)

(** What [client.embeddings.create] comes back with: the request is
    rejected, or a response with its [data] array, one vector per entry. *)
Inductive EmbedReply : Type :=
| EmbedRejected (reason : string)
| EmbedData (data : list (list number)).

(** The embeddings endpoint, by the input text it is sent. *)
Definition EmbeddingApi : Type := string -> EmbedReply.

Definition EMBED_INPUT_LIMIT : Z := 8000.

Definition embed (api : EmbeddingApi) (text : string) : M (list number) :=
  let trimmed := slice 0 EMBED_INPUT_LIMIT text in
  match api trimmed with
  | EmbedRejected reason => throw (BackendFailure reason)
  | EmbedData data =>
      match head data with
      | Some vec => ret vec
      | None => throw (BackendFailure "OpenAI embeddings returned empty data")
      end
  end.

(** [opts?: { groupJid?: string; limit?: number }] *)
Record SearchOpts : Type := mkOpts {
  opt_groupJid : option string;
  opt_limit : option Z }.

Definition semanticSearch (api : EmbeddingApi) (query : string)
    (opts : option SearchOpts) : M (list Scored) :=
  let limit := match opts with
               | Some o => match opt_limit o with Some l => l | None => 10 end
               | None => 10
               end in
  bind (embed api query) (fun queryVec =>
  searchSimilar queryVec limit
    (match opts with Some o => opt_groupJid o | None => None end)).

End MoreVocabulary.

(** ** The suppress hook (suppress.ts) *)

(** The value the hook returns to cancel the outbound message. *)
Record SuppressDecision : Type := mkDecision { cancel : bool }.

(** [createSuppressHandler]: the decision, if any, and the lines written to
    the logger. *)
Definition createSuppressHandler (hookCtx : HookCtx)
    : option SuppressDecision * list string :=
  if negb (bool_decide (channelId hookCtx = "whatsapp"%string)) then (None, [])
  else if negb (match conversationId hookCtx with
                | Some c => endsWith "@g.us" c
                | None => false
                end) then (None, [])
  else
    (Some (mkDecision true),
     ["group-archive: suppressed outbound message to group "
      +:+ (match conversationId hookCtx with Some c => c | None => EmptyString end)]).



(** ** The check of [scheduledTime] (config.ts) *)

Definition DEFAULT_SCHEDULED_TIME : string := "00:00".

(** [\d] of a regular expression without the unicode flag: 0 to 9. *)
Definition is_digit (c : ascii) : bool :=
  let n := nat_of_ascii c in Nat.leb 48 n && Nat.leb n 57.

(** [/^\d{2}:\d{2}$/.test(s)] *)
Definition scheduledTime_ok (s : string) : bool :=
  match s with
  | String h1 (String h2 (String c (String m1 (String m2 EmptyString)))) =>
      is_digit h1 && is_digit h2 && Ascii.eqb c ":" && is_digit m1 && is_digit m2
  | _ => false
  end.

(** The error of [parse] for a malformed [scheduledTime]. *)
Inductive ConfigError : Type :=
| ScheduledTimeNotHHMM.

(** The part of [groupArchiveConfigSchema.parse] that reads [scheduledTime]:
    [raw] is the field when it is a string. *)
Definition parse_scheduledTime (raw : option string) : ConfigError + string :=
  let scheduledTime := match raw with Some s => s | None => DEFAULT_SCHEDULED_TIME end in
  if negb (scheduledTime_ok scheduledTime) then inl ScheduledTimeNotHHMM
  else inr scheduledTime.

(** ** Starting and stopping the scheduler (scheduler.ts) *)

(** The timers of the runtime, and the variable [interval] of the
    scheduler's closure.  [setInterval] hands out a handle that was never
    used before; [clearInterval] removes a handle from the live timers. *)
Record SchedulerState : Type := mkScheduler {
  interval : option nat;
  live_timers : list nat;
  next_timer : nat;
  scheduler_log : list string }.

Definition setInterval (s : SchedulerState) : nat * SchedulerState :=
  (next_timer s,
   mkScheduler (interval s) (next_timer s :: live_timers s) (S (next_timer s))
               (scheduler_log s)).

Definition clearInterval (h : nat) (s : SchedulerState) : SchedulerState :=
  mkScheduler (interval s) (filter (fun h' => h' <> h) (live_timers s)) (next_timer s)
              (scheduler_log s).

(** [start], for a configuration with the given trigger time and timezone
    name. *)
Definition start (scheduledTime tzName : string) (s : SchedulerState) : SchedulerState :=
  let s1 := mkScheduler (interval s) (live_timers s) (next_timer s)
              (scheduler_log s ++
               ["group-archive: scheduler started (daily at " +:+ scheduledTime
                +:+ " " +:+ tzName +:+ ")"]) in
  let '(h, s2) := setInterval s1 in
  mkScheduler (Some h) (live_timers s2) (next_timer s2) (scheduler_log s2).

Definition stop (s : SchedulerState) : SchedulerState :=
  match interval s with
  | Some h =>
      let s1 := clearInterval h s in
      mkScheduler None (live_timers s1) (next_timer s1) (scheduler_log s1)
  | None => s
  end.

Inductive SchedulerCall : Type := CallStart | CallStop.

Definition run_calls (scheduledTime tzName : string) (calls : list SchedulerCall)
    (s : SchedulerState) : SchedulerState :=
  foldl (fun s c => match c with
                    | CallStart => start scheduledTime tzName s
                    | CallStop => stop s
                    end) s calls.

(** Every live timer was handed out before. *)
Definition timers_fresh (s : SchedulerState) : Prop :=
  forall h, h ∈ live_timers s -> (h < next_timer s)%nat.

(** ** Concrete data for the further properties *)

(** One group, last seen at time 5, looked at when the clock shows 9. *)
Definition family_world : @World Z_ops :=
  set_clock 9 (snd (upsertGroup "g1@g.us" (Some "Family"%string) (quiet_world true 5))).

Definition unreachable_api : @EmbeddingApi Z_ops := fun _ => @EmbedRejected Z_ops "timeout".

Definition unit_x_api : @EmbeddingApi Z_ops := fun _ => @EmbedData Z_ops [[1; 0; 0]].

(** The text an endpoint is asked to embed, given back as its failure. *)
Definition echo_api : @EmbeddingApi Z_ops := fun text => @EmbedRejected Z_ops text.

(** 8000 characters. *)
Definition long_text : string := string_of_list_ascii (replicate (Z.to_nat 8000) "a"%char).

Definition idle_scheduler : SchedulerState := mkScheduler None [] O [].

(** Three groups with one message each on 15 June 2024, seen at
    2024-06-16T00:00:30Z; every request is answered, and the k-th identity
    drawn is a string of k letters. *)
(** The names of the examples: "UTC" and nothing else. *)
Definition utc_only : TimezoneNames :=
  fun name => if bool_decide (name = "UTC"%string) then Some (fixed_offset 0) else None.

Definition answered_world : @World Z_ops :=
  mkWorld (w_db three_groups_world) (w_clock three_groups_world)
          (fun k => string_of_list_ascii (replicate k "u"%char)) O answering
          [] [] [] None [].

(** The store of [day_world] with a summary of group g1@g.us for
    15 June 2024. *)
Definition summarized_world : @World Z_ops :=
  snd (insertSummary "g1@g.us" june15 "done" 1 (day_world answering)).
(** * Properties *)

Section Properties.
Context `{VecOps}.

(** Projections of an updated world. *)
Ltac world_simpl :=
  cbv beta iota in *;
  simpl (w_db _) in *; simpl (w_clock _) in *; simpl (w_uuid _) in *;
  simpl (w_uuid_next _) in *; simpl (w_backend _) in *; simpl (w_requests _) in *;
  simpl (w_embed_requests _) in *; simpl (w_log _) in *;
  simpl (w_lastRunDate _) in *; simpl (w_pipeline_calls _) in *.

(** ** Strings: what [endsWith] and [trim] decide *)

Lemma append_cons (c : ascii) (a b : string) :
  String c a +:+ b = String c (a +:+ b).
Proof. reflexivity. Qed.

Lemma append_nil_l (b : string) : EmptyString +:+ b = b.
Proof. reflexivity. Qed.

Lemma length_append (a b : string) :
  String.length (a +:+ b) = (String.length a + String.length b)%nat.
Proof.
  induction a as [|c a IH]; [reflexivity|].
  rewrite append_cons. cbn [String.length]. by rewrite IH.
Qed.

Lemma substring_all (s : string) : String.substring 0 (String.length s) s = s.
Proof. induction s as [|c s IH]; [reflexivity|]. cbn [String.length String.substring]. by rewrite IH. Qed.

Lemma substring_after_prefix (p s : string) :
  String.substring (String.length p) (String.length s) (p +:+ s) = s.
Proof.
  induction p as [|c p IH]; [apply substring_all|].
  rewrite append_cons. cbn [String.length String.substring]. exact IH.
Qed.

Lemma substring_split (a b : nat) (s : string) :
  (a + b)%nat = String.length s ->
  s = String.substring 0 a s +:+ String.substring a b s.
Proof.
  revert s. induction a as [|a IH]; intros s Hlen.
  - cbn [Nat.add] in Hlen. subst b. rewrite substring_all.
    destruct s; reflexivity.
  - destruct s as [|c s]; [discriminate|]. cbn [String.length] in Hlen.
    cbn [String.substring]. rewrite append_cons. f_equal. apply IH. lia.
Qed.

(** [endsWith suffix s] holds exactly when [s] is some string followed by
    [suffix]. *)
Lemma endsWith_spec (suffix s : string) :
  endsWith suffix s = true <-> exists p, s = p +:+ suffix.
Proof.
  unfold endsWith. rewrite andb_true_iff, Nat.leb_le, bool_decide_eq_true. split.
  - intros [Hle Hsub].
    exists (String.substring 0 (String.length s - String.length suffix) s).
    pose proof (substring_split (String.length s - String.length suffix)
                  (String.length suffix) s ltac:(lia)) as Hs.
    rewrite Hsub in Hs. exact Hs.
  - intros [p ->]. rewrite length_append. split; [lia|].
    replace (String.length p + String.length suffix - String.length suffix)%nat
      with (String.length p) by lia.
    apply substring_after_prefix.
Qed.

Lemma trimEnd_head (c : ascii) (s : string) :
  is_space c = false -> trimEnd (String c s) <> EmptyString.
Proof.
  intros Hc. cbn [trimEnd]. destruct (trimEnd s); [rewrite Hc|]; discriminate.
Qed.

(** [trim s] is empty exactly when [s] holds white space only. *)
Lemma trim_blank (s : string) : trim s = EmptyString <-> all_space s = true.
Proof.
  unfold trim. induction s as [|c s IH]; [done|].
  cbn [trimStart all_space]. destruct (is_space c) eqn:Hc.
  - rewrite andb_true_l. exact IH.
  - rewrite andb_false_l. split; [|discriminate].
    intros Hempty. by apply trimEnd_head in Hempty.
Qed.

(** ** The capture hook leaves the world alone on events it does not archive *)

(** C10. An inbound event whose content is absent or empty after trimming,
    or whose channel is not whatsapp, or whose conversation id does not end
    in "@g.us" (or is absent), leaves the whole world as it was: no group
    upserted, no message row inserted, no embedding request started. *)
Theorem capture_skips_unarchived_events (ev : InboundEvent) (hc : HookCtx) (w : World) :
  content_blank ev \/ channelId hc <> "whatsapp"%string \/ not_group_conversation hc ->
  createCaptureHandler ev hc w = (Ok tt, w).
Proof.
  intros Hskip. unfold createCaptureHandler.
  destruct (bool_decide (channelId hc = "whatsapp"%string)) eqn:Hch; [|reflexivity].
  apply bool_decide_eq_true in Hch. cbn [negb].
  destruct (conversationId hc) as [c|] eqn:Hconv; [|reflexivity].
  destruct (endsWith "@g.us" c) eqn:Hends; [|reflexivity]. cbn [negb].
  destruct Hskip as [Hblank | [Hne | Hng]].
  - unfold content_blank in Hblank.
    destruct (ev_content ev) as [c'|]; cbn [option_map truthy]; [|reflexivity].
    rewrite Hblank. reflexivity.
  - contradiction.
  - unfold not_group_conversation in Hng. rewrite Hconv in Hng. congruence.
Qed.


(** ** Ingestion: one row per identity, one count per run *)

Lemma w_db_set_db (d : ArchiveDb) (w : World) : w_db (set_db d w) = d.
Proof. by destruct w. Qed.

Lemma w_db_set_uuid_next (n : nat) (w : World) : w_db (set_uuid_next n w) = w_db w.
Proof. by destruct w. Qed.

Lemma w_db_set_log (l : list LogEntry) (w : World) : w_db (set_log l w) = w_db w.
Proof. by destruct w. Qed.

Lemma w_db_set_requests (l : list LlmRequest) (w : World) :
  w_db (set_requests l w) = w_db w.
Proof. by destruct w. Qed.

Lemma w_db_set_pipeline_calls (l : list (string * CivilDate)) (w : World) :
  w_db (set_pipeline_calls l w) = w_db w.
Proof. by destruct w. Qed.

Lemma rows_with_id_absent (id : string) (t : list MessageRow) :
  id ∉ map msg_id t -> filter (fun m => msg_id m = id) t = [].
Proof.
  induction t as [|m t IH]; intros Hnot; [reflexivity|].
  cbn [map] in Hnot. apply not_elem_of_cons in Hnot as [Hne Hnot].
  rewrite filter_cons_False by congruence. auto.
Qed.

Lemma rows_with_id_present (id : string) (t : list MessageRow) :
  NoDup (map msg_id t) -> id ∈ map msg_id t ->
  length (filter (fun m => msg_id m = id) t) = 1%nat.
Proof.
  induction t as [|m t IH]; intros Hnd Hin; [by apply elem_of_nil in Hin|].
  cbn [map] in Hnd, Hin. apply NoDup_cons in Hnd as [Hfresh Hnd].
  destruct (decide (msg_id m = id)) as [Heq|Hne].
  - rewrite filter_cons_True by done. subst id.
    rewrite rows_with_id_absent by done. reflexivity.
  - rewrite filter_cons_False by done. apply IH; [done|].
    apply elem_of_cons in Hin as [Heq|Hin]; [congruence|done].
Qed.

Lemma append_new_message_keys (row : MessageRow) (t : list MessageRow) :
  NoDup (map msg_id t) ->
  NoDup (map msg_id (append_new_message row t)) /\
  msg_id row ∈ map msg_id (append_new_message row t).
Proof.
  intros Hnd. unfold append_new_message.
  destruct (bool_decide (msg_id row ∈ map msg_id t)) eqn:Hin.
  - apply bool_decide_eq_true in Hin. done.
  - apply bool_decide_eq_false in Hin. rewrite map_app. cbn [map]. split.
    + apply NoDup_app. split; [done|]. split; [|apply NoDup_singleton].
      intros x Hx Hx'. apply list_elem_of_singleton in Hx'. congruence.
    + apply elem_of_app. right. apply list_elem_of_singleton. done.
Qed.

Lemma append_new_message_dup (row : MessageRow) (t : list MessageRow) :
  msg_id row ∈ map msg_id t -> append_new_message row t = t.
Proof.
  intros Hin. unfold append_new_message.
  by rewrite bool_decide_eq_true_2.
Qed.

Lemma message_count_after_upsert (jid : string) (name : option string) (now : Z)
    (d : ArchiveDb) :
  message_count_of jid (with_groups (sql_upsert_group jid name now) d)
  = message_count_of jid d + 1.
Proof.
  unfold message_count_of, with_groups, sql_upsert_group. cbn [groups].
  destruct (groups d !! jid) as [old|] eqn:Hold; rewrite lookup_insert_eq; reflexivity.
Qed.

Lemma message_count_other_group (jid c : string) (name : option string) (now : Z)
    (d : ArchiveDb) :
  jid <> c ->
  message_count_of jid (with_groups (sql_upsert_group c name now) d)
  = message_count_of jid d.
Proof.
  intros Hne. unfold message_count_of, with_groups, sql_upsert_group. cbn [groups].
  destruct (groups d !! c); by rewrite lookup_insert_ne.
Qed.

Lemma messages_with_messages f (d : ArchiveDb) :
  messages (with_messages f d) = f (messages d).
Proof. reflexivity. Qed.

Lemma messages_with_groups f (d : ArchiveDb) :
  messages (with_groups f d) = messages d.
Proof. reflexivity. Qed.

Lemma groups_with_messages f (d : ArchiveDb) :
  groups (with_messages f d) = groups d.
Proof. reflexivity. Qed.

Lemma message_count_with_messages jid f (d : ArchiveDb) :
  message_count_of jid (with_messages f d) = message_count_of jid d.
Proof. reflexivity. Qed.

(** The insert statement of a message, case by case. *)
Lemma sql_insert_or_ignore_message_ok (g : gmap string GroupRow) (row : MessageRow)
    (t : list MessageRow) :
  is_Some (g !! msg_group_jid row) ->
  sql_insert_or_ignore_message g row t = Ok (append_new_message row t).
Proof.
  intros Hg. unfold sql_insert_or_ignore_message, append_new_message.
  destruct (bool_decide (msg_id row ∈ map msg_id t)); [reflexivity|].
  by rewrite bool_decide_eq_true_2.
Qed.

Lemma sql_insert_or_ignore_message_stored (g : gmap string GroupRow) (row : MessageRow)
    (t : list MessageRow) :
  msg_id row ∈ map msg_id t -> sql_insert_or_ignore_message g row t = Ok t.
Proof.
  intros Hin. unfold sql_insert_or_ignore_message. by rewrite bool_decide_eq_true_2.
Qed.

Lemma sql_insert_or_ignore_message_orphan (g : gmap string GroupRow) (row : MessageRow)
    (t : list MessageRow) :
  msg_id row ∉ map msg_id t -> g !! msg_group_jid row = None ->
  sql_insert_or_ignore_message g row t = Throw ForeignKeyConstraintFailed.
Proof.
  intros Hnew Hg. unfold sql_insert_or_ignore_message.
  rewrite bool_decide_eq_false_2 by done.
  rewrite bool_decide_eq_false_2; [reflexivity|]. rewrite Hg. by intros [? ?].
Qed.

Lemma insertMessage_run (msg : NewMessage) (w : World) :
  insertMessage msg w =
  match sql_insert_or_ignore_message (groups (w_db w))
          (new_row (w_uuid w (w_uuid_next w)) msg) (messages (w_db w)) with
  | Ok t =>
      (Ok (w_uuid w (w_uuid_next w)),
       set_uuid_next (S (w_uuid_next w)) (set_db (with_messages (fun _ => t) (w_db w)) w))
  | Throw e => (Throw e, set_uuid_next (S (w_uuid_next w)) w)
  end.
Proof.
  unfold insertMessage, bind, randomUUID, get_world, lift, modify_db, modify, ret.
  destruct w. cbn.
  destruct (sql_insert_or_ignore_message _ _ _); reflexivity.
Qed.

Lemma sql_upsert_group_known (jid : string) (name : option string) (now : Z)
    (t : gmap string GroupRow) (j : string) :
  is_Some (t !! j) \/ j = jid -> is_Some (sql_upsert_group jid name now t !! j).
Proof.
  intros Hj. unfold sql_upsert_group.
  destruct (t !! jid) eqn:Hjid;
    (destruct (decide (j = jid)) as [->|Hne];
     [rewrite lookup_insert_eq; eauto
     |rewrite lookup_insert_ne by done; destruct Hj; [done|contradiction]]).
Qed.

(** The ingestion path for a message of the group that is upserted: the
    group has its row when the message is inserted, so the insert cannot
    fail. *)
Lemma ingest_run (jid : string) (name : option string) (msg : NewMessage) (w : World) :
  new_group_jid msg = jid ->
  ingest jid name msg w =
  (Ok (w_uuid w (w_uuid_next w)),
   set_uuid_next (S (w_uuid_next w))
     (set_db (with_messages
                (append_new_message (new_row (w_uuid w (w_uuid_next w)) msg))
                (with_groups (sql_upsert_group jid name (w_clock w)) (w_db w))) w)).
Proof.
  intros Hgrp. unfold ingest, upsertGroup, Date_now, modify_db, modify, bind.
  cbv beta iota. rewrite insertMessage_run. destruct w. cbn.
  rewrite sql_insert_or_ignore_message_ok; [reflexivity|].
  cbn. rewrite Hgrp. apply sql_upsert_group_known. by right.
Qed.

(** A whatsapp group event with text goes down the ingestion path, and
    starts an embedding request when the vector extension is there. *)
Lemma createCaptureHandler_ingests (ev : InboundEvent) (hc : HookCtx) (w : World)
    (c raw : string) :
  channelId hc = "whatsapp"%string -> conversationId hc = Some c ->
  endsWith "@g.us" c = true ->
  ev_content ev = Some raw -> trim raw <> EmptyString ->
  createCaptureHandler ev hc w =
  match ingest c (match ev_metadata ev with Some md => md_groupName md | None => None end)
          (mkNewMessage c (ev_from ev)
             (match ev_metadata ev with Some md => md_pushName md | None => None end)
             (trim raw)
             (match ev_timestamp ev with Some t => t | None => w_clock w end)
             (option_map md_json (ev_metadata ev))) w with
  | (Ok messageId, w1) =>
      (Ok tt,
       if vecAvailable (w_db w1)
       then set_embed_requests (w_embed_requests w1 ++ [(messageId, trim raw)]) w1
       else w1)
  | (Throw e, w1) => (Throw e, w1)
  end.
Proof.
  intros Hch Hconv Hends Hraw Htext.
  unfold createCaptureHandler.
  rewrite (bool_decide_eq_true_2 _ Hch), Hconv, Hends, Hraw. cbn [negb option_map truthy].
  rewrite (bool_decide_eq_false_2 _ Htext). cbn [negb].
  unfold ingest, upsertGroup, vectorEnabled, Date_now, modify_db, modify, ret, bind.
  cbv beta iota. rewrite !insertMessage_run. destruct w. cbn.
  destruct (sql_insert_or_ignore_message _ _ _); cbn; [|reflexivity].
  destruct (vecAvailable _); reflexivity.
Qed.

(** C1. The identity of a message is drawn by [insertMessage] itself.  On
    the ingestion path ([upsertGroup], then [insertMessage] of a message of
    that group), with an identity that is not stored yet: the message is
    stored as one row, the only row with its identity, and the counter of
    the group grows by one, the counters of the other groups staying.  An
    insert of the same identity once more, for a message of a stored group,
    is ignored by the statement: the table stays as it is, with its one row
    of that identity. *)
Theorem ingest_one_row_per_identity (w : World) (jid : string) (name : option string)
    (msg : NewMessage) :
  keys_unique (w_db w) ->
  new_group_jid msg = jid ->
  w_uuid w (w_uuid_next w) ∉ map msg_id (messages (w_db w)) ->
  exists w' : World,
    ingest jid name msg w = (Ok (w_uuid w (w_uuid_next w)), w') /\
    messages (w_db w') = messages (w_db w) ++ [new_row (w_uuid w (w_uuid_next w)) msg] /\
    rows_with_id (w_uuid w (w_uuid_next w)) (w_db w')
    = [new_row (w_uuid w (w_uuid_next w)) msg] /\
    keys_unique (w_db w') /\
    message_count_of jid (w_db w') = message_count_of jid (w_db w) + 1 /\
    (forall other, other <> jid ->
       message_count_of other (w_db w') = message_count_of other (w_db w)) /\
    (forall msg',
       is_Some (groups (w_db w') !! new_group_jid msg') ->
       sql_insert_or_ignore_message (groups (w_db w'))
         (new_row (w_uuid w (w_uuid_next w)) msg') (messages (w_db w'))
       = Ok (messages (w_db w')) /\
       length (rows_with_id (w_uuid w (w_uuid_next w)) (w_db w')) = 1%nat).
Proof.
  intros Hkeys Hgrp Hfresh. rewrite (ingest_run jid name msg w Hgrp).
  set (id := w_uuid w (w_uuid_next w)).
  eexists. split; [reflexivity|].
  rewrite w_db_set_uuid_next, w_db_set_db.
  rewrite messages_with_messages, messages_with_groups, message_count_with_messages.
  assert (Happ : append_new_message (new_row id msg) (messages (w_db w))
                 = messages (w_db w) ++ [new_row id msg]).
  { unfold append_new_message. by rewrite bool_decide_eq_false_2. }
  assert (Hrows : rows_with_id id
                    (with_messages (append_new_message (new_row id msg))
                       (with_groups (sql_upsert_group jid name (w_clock w)) (w_db w)))
                  = [new_row id msg]).
  { unfold rows_with_id. rewrite messages_with_messages, messages_with_groups, Happ.
    rewrite filter_app, rows_with_id_absent by done.
    by rewrite filter_cons_True. }
  split; [exact Happ|]. split; [exact Hrows|]. split; [|split; [|split]].
  - unfold keys_unique. rewrite messages_with_messages, messages_with_groups.
    by apply append_new_message_keys.
  - apply message_count_after_upsert.
  - intros other Hne. rewrite message_count_with_messages.
    by apply message_count_other_group.
  - intros msg' _. split; [|by rewrite Hrows].
    apply sql_insert_or_ignore_message_stored.
    rewrite Happ, map_app. apply elem_of_app. right. by apply list_elem_of_here.
Qed.

(** ** Embeddings *)

Lemma length_vectorToBlob (v : list number) :
  length (vectorToBlob v) = length v.
Proof. unfold vectorToBlob. apply length_map. Qed.

(** The four outcomes of [insertEmbedding]. *)
Lemma insertEmbedding_run (w : World) (messageId : string) (v : list number) :
  insertEmbedding messageId v w =
  if negb (vecAvailable (w_db w)) then (Ok tt, w)
  else if negb (Z.of_nat (length v) =? dims (w_db w))
       then (Throw (DimensionMismatch (dims (w_db w)) (Z.of_nat (length v))), w)
  else if bool_decide (is_Some (message_embeddings (w_db w) !! messageId))
       then (Throw UniqueConstraintFailed, w)
  else (Ok tt, set_db (with_embeddings
                         (<[messageId := vectorToBlob v]> (message_embeddings (w_db w)))
                         (w_db w)) w).
Proof.
  unfold insertEmbedding, bind, get_world, lift, vec0_insert_or_replace.
  rewrite length_vectorToBlob.
  destruct (vecAvailable (w_db w)); [|reflexivity]. cbn [negb].
  destruct (Z.of_nat (length v) =? dims (w_db w)); [|reflexivity]. cbn [negb].
  destruct (bool_decide (is_Some (message_embeddings (w_db w) !! messageId))); reflexivity.
Qed.

(** What [insertEmbedding] does, case by case.  Without the vector
    extension it changes nothing.  With it, a vector whose length is not
    the configured dimensionality is refused with a dimension-mismatch
    error; a vector of the configured length for a message that has no
    vector yet is stored under the message id, every other entry being
    kept; and a vector of the configured length for a message that has a
    vector is refused with a UNIQUE constraint error.  A refused write
    leaves the world as it was, so the stored vector stays. *)
Theorem insertEmbedding_outcomes (w : World) (messageId : string) (v : list number) :
  (vecAvailable (w_db w) = false -> insertEmbedding messageId v w = (Ok tt, w)) /\
  (vecAvailable (w_db w) = true -> Z.of_nat (length v) <> dims (w_db w) ->
   insertEmbedding messageId v w
   = (Throw (DimensionMismatch (dims (w_db w)) (Z.of_nat (length v))), w)) /\
  (vecAvailable (w_db w) = true -> Z.of_nat (length v) = dims (w_db w) ->
   message_embeddings (w_db w) !! messageId = None ->
   exists w', insertEmbedding messageId v w = (Ok tt, w') /\
     message_embeddings (w_db w') !! messageId = Some (vectorToBlob v) /\
     (forall k, k <> messageId ->
        message_embeddings (w_db w') !! k = message_embeddings (w_db w) !! k) /\
     w' = set_db (with_embeddings
                    (<[messageId := vectorToBlob v]> (message_embeddings (w_db w)))
                    (w_db w)) w) /\
  (vecAvailable (w_db w) = true -> Z.of_nat (length v) = dims (w_db w) ->
   forall old, message_embeddings (w_db w) !! messageId = Some old ->
   insertEmbedding messageId v w = (Throw UniqueConstraintFailed, w)).
Proof.
  rewrite insertEmbedding_run. split; [|split; [|split]].
  - intros Hoff. rewrite Hoff. reflexivity.
  - intros Hon Hne. rewrite Hon. cbn [negb].
    apply Z.eqb_neq in Hne. rewrite Hne. reflexivity.
  - intros Hon Heq Hnew. rewrite Hon. cbn [negb].
    apply Z.eqb_eq in Heq. rewrite Heq. cbn [negb].
    rewrite bool_decide_eq_false_2 by (rewrite Hnew; by intros [? ?]).
    eexists. split; [reflexivity|].
    destruct w. cbn [w_db set_db with_embeddings message_embeddings].
    split; [apply lookup_insert_eq|]. split; [|reflexivity].
    intros k Hk. apply lookup_insert_ne. congruence.
  - intros Hon Heq old Hold. rewrite Hon. cbn [negb].
    apply Z.eqb_eq in Heq. rewrite Heq. cbn [negb].
    rewrite bool_decide_eq_true_2 by (rewrite Hold; eauto). reflexivity.
Qed.

(** The width of the stored vectors is an invariant of the store: it
    holds when the table is created and [insertEmbedding] keeps it. *)
Lemma empty_db_widths_ok (vec : bool) (n : Z) : widths_ok (empty_db vec n).
Proof. unfold widths_ok, empty_db. cbn [message_embeddings]. apply map_Forall_empty. Qed.

Lemma insertEmbedding_keeps_widths (w : World) (messageId : string) (v : list number) :
  widths_ok (w_db w) -> widths_ok (w_db (snd (insertEmbedding messageId v w))).
Proof.
  intros Hok. rewrite insertEmbedding_run.
  destruct (vecAvailable (w_db w)); [|exact Hok]. cbn [negb].
  destruct (Z.of_nat (length v) =? dims (w_db w)) eqn:Hlen; [|exact Hok]. cbn [negb].
  destruct (bool_decide _); [exact Hok|].
  apply Z.eqb_eq in Hlen. destruct w. cbn [snd w_db set_db] in *.
  unfold widths_ok in *. cbn [with_embeddings message_embeddings dims].
  apply map_Forall_insert_2; [|exact Hok]. by rewrite length_vectorToBlob.
Qed.

(** ** Similarity search *)

Global Instance by_score_desc_total : Total by_score_desc.
Proof. intros a b. unfold by_score_desc. destruct (total num_le (sc_score b) (sc_score a)); auto. Qed.

Global Instance by_score_desc_trans : Transitive by_score_desc.
Proof. intros a b c Hab Hbc. unfold by_score_desc in *. by transitivity (sc_score b). Qed.

Lemma sql_score_rows_ok (query : list number) (rows : list (MessageRow * list number)) :
  Forall (fun r => length (snd r) = length query) rows ->
  sql_score_rows query rows = Ok (map (score_row query) rows).
Proof.
  induction 1 as [|[m blob] rows Hlen _ IH]; [reflexivity|].
  cbn [sql_score_rows map snd] in *. unfold sql_score. rewrite Hlen, Z.eqb_refl, IH.
  reflexivity.
Qed.

Lemma elem_of_sql_join_embeddings (e : gmap string (list number))
    (t : list MessageRow) (m : MessageRow) (blob : list number) :
  (m, blob) ∈ sql_join_embeddings e t <-> m ∈ t /\ e !! msg_id m = Some blob.
Proof.
  unfold sql_join_embeddings. rewrite list_elem_of_omap. split.
  - intros (m' & Hin & Hsome). destruct (e !! msg_id m') as [b|] eqn:Hb; [|done].
    injection Hsome as <- <-. done.
  - intros [Hin Hb]. exists m. split; [done|]. by rewrite Hb.
Qed.

Lemma elem_of_search_candidates (g : option string) (d : ArchiveDb)
    (m : MessageRow) (blob : list number) :
  (m, blob) ∈ search_candidates g d ->
  m ∈ messages d /\ message_embeddings d !! msg_id m = Some blob /\
  (truthy g = true -> Some (msg_group_jid m) = g).
Proof.
  unfold search_candidates. destruct (truthy g).
  - rewrite list_elem_of_filter, elem_of_sql_join_embeddings. cbn [fst].
    intros (Hg & Hm & Hb). auto.
  - rewrite elem_of_sql_join_embeddings. intros [Hm Hb].
    split; [done|]. split; [done|]. intros; discriminate.
Qed.

Lemma sql_limit_nonneg {A} (n : Z) (l : list A) :
  0 <= n -> sql_limit n l = take (Z.to_nat n) l.
Proof. intros Hn. unfold sql_limit. by rewrite (proj2 (Z.ltb_ge n 0)). Qed.

Lemma searchSimilar_run (w : World) (q : list number) (limit : Z) (g : option string) :
  vecAvailable (w_db w) = true -> q <> [] ->
  widths_ok (w_db w) -> Z.of_nat (length q) = dims (w_db w) ->
  searchSimilar q limit g w
  = (Ok (sql_limit limit
           (merge_sort by_score_desc
              (map (score_row (vectorToBlob q)) (search_candidates g (w_db w))))), w).
Proof.
  intros Hon Hq Hwid Hdim. unfold searchSimilar, bind, get_world, lift.
  rewrite Hon. cbn [negb orb].
  destruct (Z.of_nat (length q) =? 0) eqn:Hz.
  { apply Z.eqb_eq in Hz. destruct q; [done|]. cbn [length] in Hz. lia. }
  fold (search_candidates g (w_db w)).
  rewrite sql_score_rows_ok; [reflexivity|].
  apply Forall_forall. intros [m blob] Hin. cbn [snd].
  apply elem_of_search_candidates in Hin as (_ & Hblob & _).
  apply Hwid in Hblob. rewrite length_vectorToBlob. lia.
Qed.


(** ** The summary pipeline *)

Lemma sql_get_summary_after_insert (row : DailySummaryRow) (t : list DailySummaryRow) :
  sql_get_summary (sum_group_jid row) (sum_date row)
    (replace_summary row t) = Some row.
Proof.
  unfold sql_get_summary, replace_summary.
  rewrite filter_app.
  replace (filter _ (filter _ t)) with (@nil DailySummaryRow).
  - rewrite filter_cons_True by done. reflexivity.
  - symmetry. induction t as [|r t IH]; [reflexivity|].
    destruct (decide (summary_conflicts row r)) as [Hc|Hc].
    + rewrite (filter_cons_False _ r t) by tauto. exact IH.
    + rewrite (filter_cons_True _ r t) by done.
      rewrite filter_cons_False; [exact IH|].
      intros [Hg Hd]. apply Hc. right. done.
Qed.

(** The two outcomes of [insertSummary]: the identity is drawn before the
    statement runs, so it is spent also when the statement fails. *)
Lemma insertSummary_run (g : string) (d : CivilDate) (text : string) (n : Z) (w : World) :
  insertSummary g d text n w =
  let row := mkSummary (w_uuid w (w_uuid_next w)) g d text n (w_clock w) in
  if bool_decide (is_Some (groups (w_db w) !! g))
  then (Ok tt, set_db (with_summaries (replace_summary row) (w_db w))
                 (set_uuid_next (S (w_uuid_next w)) w))
  else (Throw ForeignKeyConstraintFailed, set_uuid_next (S (w_uuid_next w)) w).
Proof.
  unfold insertSummary, bind, randomUUID, Date_now, get_world, lift, modify_db, modify,
    sql_insert_or_replace_summary.
  destruct w. cbn.
  destruct (bool_decide (is_Some (groups w_db0 !! g))); reflexivity.
Qed.

(** What a run of [generateSummary] can change: the requests on record
    grow by at most one, and nothing else. *)
Lemma generateSummary_effect (cfg : GroupArchiveConfig) (msgs : list MessageRow)
    (w : World) :
  exists reqs,
    snd (generateSummary cfg msgs w) = set_requests reqs w /\
    (reqs = w_requests w \/ exists req, reqs = w_requests w ++ [req]).
Proof.
  unfold generateSummary, bind, lift.
  destruct (formatTranscript msgs) as [t|e].
  - exists (w_requests w ++ [mkRequest
              (if bool_decide (summary_provider cfg = "anthropic"%string)
               then Anthropic else OpenAI) (summary_model cfg) (cap_transcript t)]).
    split; [|right; eauto].
    destruct (bool_decide (summary_provider cfg = "anthropic"%string));
      unfold generateWithAnthropic, generateWithOpenAI, bind, send_request;
      match goal with |- context [w_backend w ?k ?r] => destruct (w_backend w k r) as [?|[] ? ? ?] end;
      reflexivity.
  - exists (w_requests w). split; [destruct w; reflexivity|left; reflexivity].
Qed.

Lemma generateAndStoreSummary_hit (cfg : GroupArchiveConfig) (g : string)
    (d : CivilDate) (w : World) (row : DailySummaryRow) :
  sql_get_summary g d (daily_summaries (w_db w)) = Some row ->
  generateAndStoreSummary cfg g d w
  = (Ok (sum_summary_text row),
     set_pipeline_calls (w_pipeline_calls w ++ [(g, d)]) w).
Proof.
  intros Hrow. unfold generateAndStoreSummary, bind, modify, getSummary.
  destruct w. world_simpl. rewrite Hrow. reflexivity.
Qed.

Lemma generateAndStoreSummary_empty_day (cfg : GroupArchiveConfig) (g : string)
    (d : CivilDate) (w : World) :
  sql_get_summary g d (daily_summaries (w_db w)) = None ->
  sql_select_messages g (midnightUtcForDate d (timezone cfg))
    (midnightUtcForDate d (timezone cfg) + 86400000) (messages (w_db w)) = [] ->
  generateAndStoreSummary cfg g d w
  = (Ok EmptyString, set_pipeline_calls (w_pipeline_calls w ++ [(g, d)]) w).
Proof.
  intros Hrow Hmsgs.
  unfold generateAndStoreSummary, bind, modify, getSummary, getMessagesByGroupAndDateRange.
  destruct w. world_simpl. rewrite Hrow. world_simpl. rewrite Hmsgs. reflexivity.
Qed.

(** A run that finds no stored summary and some messages of the day: one
    call of [generateSummary], whose text, if it comes, is stored. *)
Lemma generateAndStoreSummary_generate (cfg : GroupArchiveConfig) (g : string)
    (d : CivilDate) (w : World) (m : MessageRow) (rest : list MessageRow) :
  sql_get_summary g d (daily_summaries (w_db w)) = None ->
  sql_select_messages g (midnightUtcForDate d (timezone cfg))
    (midnightUtcForDate d (timezone cfg) + 86400000) (messages (w_db w)) = m :: rest ->
  generateAndStoreSummary cfg g d w =
  let n := Z.of_nat (length (m :: rest)) in
  let w1 := set_log (w_log w ++ [InfoGenerating g d n])
              (set_pipeline_calls (w_pipeline_calls w ++ [(g, d)]) w) in
  match generateSummary cfg (m :: rest) w1 with
  | (Ok text, w2) =>
      if bool_decide (is_Some (groups (w_db w2) !! g))
      then
        (Ok text,
         set_db (with_summaries
                   (replace_summary
                      (mkSummary (w_uuid w2 (w_uuid_next w2)) g d text n (w_clock w2)))
                   (w_db w2))
                (set_uuid_next (S (w_uuid_next w2)) w2))
      else (Throw ForeignKeyConstraintFailed, set_uuid_next (S (w_uuid_next w2)) w2)
  | (Throw e, w2) => (Throw e, w2)
  end.
Proof.
  intros Hrow Hmsgs.
  unfold generateAndStoreSummary, bind, modify, getSummary, getMessagesByGroupAndDateRange,
    logger, modify.
  destruct w. world_simpl. rewrite Hrow. world_simpl. rewrite Hmsgs.
  replace (Z.of_nat (length (m :: rest)) =? 0) with false
    by (symmetry; apply Z.eqb_neq; cbn [length]; lia).
  cbv zeta.
  destruct (generateSummary cfg (m :: rest) _) as [[text|e] w2]; [|reflexivity].
  rewrite insertSummary_run. cbv zeta.
  destruct (bool_decide (is_Some (groups (w_db w2) !! g))); reflexivity.
Qed.


(** ** The transcript sent to the backend *)

Lemma strlen_append (a b : string) : strlen (a +:+ b) = strlen a + strlen b.
Proof.
  unfold strlen. induction a as [|c a IH].
  - rewrite append_nil_l. cbn [String.length]. lia.
  - rewrite append_cons. cbn [String.length]. rewrite !Nat2Z.inj_succ. lia.
Qed.

Lemma substring_prefix_length (n : nat) (s : string) :
  (n <= String.length s)%nat -> String.length (String.substring 0 n s) = n.
Proof.
  revert s. induction n as [|n IH]; intros s Hn.
  - destruct s; reflexivity.
  - destruct s as [|c s]; cbn [String.length] in Hn; [lia|].
    cbn [String.substring String.length]. rewrite IH; [reflexivity|lia].
Qed.

Lemma substring_prefix_split (n : nat) (s : string) :
  exists dropped, s = String.substring 0 n s +:+ dropped.
Proof.
  revert s. induction n as [|n IH]; intros s.
  - exists s. destruct s; reflexivity.
  - destruct s as [|c s].
    + exists EmptyString. reflexivity.
    + destruct (IH s) as [dropped Hd]. exists dropped.
      cbn [String.substring]. rewrite append_cons. congruence.
Qed.

(** The capped transcript: unchanged within the budget; beyond it, the
    first [TRANSCRIPT_BUDGET] characters followed by the marker. *)
Lemma cap_transcript_spec (t : string) :
  (strlen t > TRANSCRIPT_BUDGET ->
   exists body dropped,
     cap_transcript t = body +:+ TRUNCATION_MARKER /\
     t = body +:+ dropped /\
     strlen body = TRANSCRIPT_BUDGET /\
     strlen (cap_transcript t) = TRANSCRIPT_BUDGET + strlen TRUNCATION_MARKER) /\
  (strlen t <= TRANSCRIPT_BUDGET -> cap_transcript t = t).
Proof.
  unfold cap_transcript. split.
  - intros Hlong. rewrite (proj2 (Z.gtb_gt _ _)) by lia.
    unfold slice. rewrite Z.sub_0_r.
    assert (Hb : 0 <= TRANSCRIPT_BUDGET) by (unfold TRANSCRIPT_BUDGET; lia).
    revert Hb Hlong. generalize TRANSCRIPT_BUDGET. intros budget Hb Hlong.
    destruct (substring_prefix_split (Z.to_nat budget) t) as [dropped Hd].
    assert (Hlen : strlen (String.substring (Z.to_nat 0) (Z.to_nat budget) t) = budget).
    { unfold strlen in *. change (Z.to_nat 0) with O.
      rewrite substring_prefix_length; lia. }
    exists (String.substring (Z.to_nat 0) (Z.to_nat budget) t), dropped.
    split; [reflexivity|]. split; [exact Hd|]. split; [exact Hlen|].
    rewrite strlen_append, Hlen. reflexivity.
  - intros Hshort. destruct (strlen t >? TRANSCRIPT_BUDGET) eqn:Hgt; [|reflexivity].
    apply Z.gtb_gt in Hgt. lia.
Qed.

Lemma map_result_total {A B} (f : A -> result B) (l : list A) :
  forallb (fun x => is_ok (f x)) l = true -> exists ys, map_result f l = Ok ys.
Proof.
  induction l as [|x l IH]; cbn [forallb map_result]; intros Hall.
  - eauto.
  - apply andb_true_iff in Hall as [Hx Hl].
    destruct (f x) as [y|e]; [|discriminate].
    destruct (IH Hl) as [ys ->]. eauto.
Qed.

(** Rendering fails only on a timestamp that is no valid time value. *)
Lemma formatTranscript_total (msgs : list MessageRow) :
  forallb (fun m => valid_time (msg_timestamp m)) msgs = true ->
  exists t, formatTranscript msgs = Ok t.
Proof.
  intros Hall. unfold formatTranscript.
  destruct (map_result_total format_line msgs) as [lines ->]; [|eauto].
  induction msgs as [|m msgs IH]; [reflexivity|].
  cbn [forallb] in *. apply andb_true_iff in Hall as [Hm Hrest].
  rewrite (IH Hrest), andb_true_r.
  unfold format_line, toISOString. rewrite Hm. reflexivity.
Qed.

Lemma generateSummary_request (cfg : GroupArchiveConfig) (msgs : list MessageRow)
    (w : World) (t : string) :
  formatTranscript msgs = Ok t ->
  exists req,
    w_requests (snd (generateSummary cfg msgs w)) = w_requests w ++ [req] /\
    req_transcript req = cap_transcript t.
Proof.
  intros Ht. unfold generateSummary, bind, lift. rewrite Ht.
  destruct (bool_decide (summary_provider cfg = "anthropic"%string));
    unfold generateWithAnthropic, generateWithOpenAI, bind, send_request;
    match goal with |- context [w_backend w ?k ?r] =>
      exists r; destruct (w_backend w k r) as [?|[] ? ? ?] end;
    destruct w; split; reflexivity.
Qed.

(** C8. For messages whose timestamps are valid time values the transcript
    is rendered, whatever its size, and one request carries it to the
    backend.  A transcript longer than 100,000 characters is sent as its
    first 100,000 characters followed by the truncation marker, two line
    feeds and the words [...transcript truncated...]: it ends with the
    marker and is 100,030 characters long, the budget plus the length of
    the marker.  A transcript within the budget is sent unchanged. *)
Theorem generateSummary_caps_transcript (cfg : GroupArchiveConfig)
    (msgs : list MessageRow) (w : World) :
  forallb (fun m => valid_time (msg_timestamp m)) msgs = true ->
  exists t req,
    formatTranscript msgs = Ok t /\
    w_requests (snd (generateSummary cfg msgs w)) = w_requests w ++ [req] /\
    (strlen t > 100000 ->
     strlen (req_transcript req) = 100030 /\
     endsWith (String "010"%char (String "010"%char "[...transcript truncated...]"))
              (req_transcript req) = true /\
     exists body dropped,
       req_transcript req
       = body +:+ String "010"%char (String "010"%char "[...transcript truncated...]") /\
       t = body +:+ dropped /\ strlen body = 100000) /\
    (strlen t <= 100000 -> req_transcript req = t).
Proof.
  intros Hvalid.
  destruct (formatTranscript_total msgs Hvalid) as [t Ht].
  destruct (generateSummary_request cfg msgs w t Ht) as (req & Hreq & Hsent).
  exists t, req. split; [exact Ht|]. split; [exact Hreq|].
  destruct (cap_transcript_spec t) as [Hlong Hshort]. rewrite Hsent.
  change TRANSCRIPT_BUDGET with 100000 in Hlong, Hshort.
  change TRUNCATION_MARKER
    with (String "010"%char (String "010"%char "[...transcript truncated...]"))
    in Hlong.
  split.
  - intros Hgt. destruct (Hlong Hgt) as (body & dropped & Hcap & Hsplit & Hbody & Hlen).
    split; [rewrite Hlen; reflexivity|]. split.
    + apply endsWith_spec. eauto.
    + exists body, dropped. auto.
  - exact Hshort.
Qed.

(** ** The scheduler's run over the groups of a day *)

(** What every run of the pipeline does to the scheduler's view of the
    world: the call is on record, the log only grows, [lastRunDate] stays. *)
Lemma generateAndStoreSummary_frame (cfg : GroupArchiveConfig) (g : string)
    (d : CivilDate) (w : World) :
  w_pipeline_calls (snd (generateAndStoreSummary cfg g d w))
  = w_pipeline_calls w ++ [(g, d)] /\
  w_lastRunDate (snd (generateAndStoreSummary cfg g d w)) = w_lastRunDate w /\
  exists l, w_log (snd (generateAndStoreSummary cfg g d w)) = w_log w ++ l.
Proof.
  destruct (sql_get_summary g d (daily_summaries (w_db w))) as [row|] eqn:Hrow.
  { rewrite (generateAndStoreSummary_hit cfg g d w row Hrow).
    destruct w. cbn. split; [done|]. split; [done|]. exists []. by rewrite app_nil_r. }
  destruct (sql_select_messages g (midnightUtcForDate d (timezone cfg))
              (midnightUtcForDate d (timezone cfg) + 86400000) (messages (w_db w)))
    as [|m rest] eqn:Hmsgs.
  { rewrite (generateAndStoreSummary_empty_day cfg g d w Hrow Hmsgs).
    destruct w. cbn. split; [done|]. split; [done|]. exists []. by rewrite app_nil_r. }
  rewrite (generateAndStoreSummary_generate cfg g d w m rest Hrow Hmsgs). cbv zeta.
  match goal with |- context [generateSummary cfg (m :: rest) ?w0] =>
    destruct (generateSummary_effect cfg (m :: rest) w0) as (reqs & Hsnd & _);
    destruct (generateSummary cfg (m :: rest) w0) as [[text|e] w2]
  end; cbn [snd] in Hsnd; subst w2; try destruct (bool_decide (is_Some _));
    destruct w; cbn; eauto.
Qed.

(** One turn of the loop: a failure of the pipeline is caught and logged,
    and the loop goes on with the groups that remain. *)
Lemma summarize_groups_cons (cfg : GroupArchiveConfig) (d : CivilDate) (g : string)
    (rest : list string) (w : World) :
  summarize_groups cfg d (g :: rest) w =
  match generateAndStoreSummary cfg g d w with
  | (Ok _, w1) => summarize_groups cfg d rest w1
  | (Throw e, w1) =>
      summarize_groups cfg d rest (set_log (w_log w1 ++ [WarnSummaryFailed g e]) w1)
  end.
Proof.
  cbn [summarize_groups]. unfold bind at 1. unfold try_catch, bind, ret, logger, modify.
  destruct (generateAndStoreSummary cfg g d w) as [[t|e] w1]; reflexivity.
Qed.

Lemma summarize_groups_spec (cfg : GroupArchiveConfig) (d : CivilDate)
    (groupJids : list string) (w : World) :
  fst (summarize_groups cfg d groupJids w) = Ok tt /\
  w_pipeline_calls (snd (summarize_groups cfg d groupJids w))
  = w_pipeline_calls w ++ map (fun g => (g, d)) groupJids /\
  w_lastRunDate (snd (summarize_groups cfg d groupJids w)) = w_lastRunDate w /\
  exists l, w_log (snd (summarize_groups cfg d groupJids w)) = w_log w ++ l.
Proof.
  revert w. induction groupJids as [|g rest IH]; intros w.
  - cbn. rewrite app_nil_r. split; [done|]. split; [done|]. split; [done|].
    exists []. by rewrite app_nil_r.
  - rewrite summarize_groups_cons.
    destruct (generateAndStoreSummary_frame cfg g d w) as (Hcalls & Hlrd & l1 & Hlog).
    destruct (generateAndStoreSummary cfg g d w) as [[t|e] w1]; cbn [snd] in *.
    + destruct (IH w1) as (Hok & Hc & Hl & l2 & Hlog2).
      split; [done|]. rewrite Hc, Hl, Hcalls, Hlrd, Hlog2, Hlog.
      cbn [map]. rewrite <- !app_assoc. eauto.
    + destruct (IH (set_log (w_log w1 ++ [WarnSummaryFailed g e]) w1))
        as (Hok & Hc & Hl & l2 & Hlog2).
      split; [done|]. rewrite Hc, Hl, Hlog2. destruct w1; cbn in *.
      rewrite Hcalls, Hlrd, Hlog. rewrite <- !app_assoc. eauto.
Qed.

Lemma summarize_groups_app (cfg : GroupArchiveConfig) (d : CivilDate)
    (pre post : list string) (w : World) :
  summarize_groups cfg d (pre ++ post) w
  = summarize_groups cfg d post (snd (summarize_groups cfg d pre w)).
Proof.
  revert w. induction pre as [|g pre IH]; intros w; [reflexivity|].
  rewrite <- app_comm_cons, !summarize_groups_cons.
  destruct (generateAndStoreSummary cfg g d w) as [[t|e] w1]; apply IH.
Qed.

(** The failure of one group is in the log at the end of the run. *)
Lemma summarize_groups_logs_failure (cfg : GroupArchiveConfig) (d : CivilDate)
    (pre post : list string) (g : string) (e : Exn) (w : World) :
  fst (generateAndStoreSummary cfg g d (snd (summarize_groups cfg d pre w))) = Throw e ->
  WarnSummaryFailed g e ∈ w_log (snd (summarize_groups cfg d (pre ++ g :: post) w)).
Proof.
  intros Hfail. rewrite summarize_groups_app, summarize_groups_cons.
  destruct (generateAndStoreSummary cfg g d (snd (summarize_groups cfg d pre w)))
    as [[t|e'] w1]; cbn [fst] in Hfail; [discriminate|]. injection Hfail as ->.
  destruct (summarize_groups_spec cfg d post
              (set_log (w_log w1 ++ [WarnSummaryFailed g e]) w1)) as (_ & _ & _ & l & ->).
  destruct w1; cbn. rewrite !elem_of_app, list_elem_of_singleton. auto.
Qed.

(** A tick outside the trigger minute, and a tick in the trigger minute for
    a date already handled, change nothing. *)
Lemma tick_idle (cfg : GroupArchiveConfig) (w : World) :
  format_en_GB_hm (timezone cfg) (w_clock w) <> scheduledTime cfg ->
  tick cfg w = (Ok tt, w).
Proof.
  intros Htime. unfold tick, currentTimeInTimezone, Date_now, ret, bind.
  cbv beta iota. rewrite (bool_decide_eq_false_2 _ Htime). reflexivity.
Qed.

Lemma tick_skips (cfg : GroupArchiveConfig) (w : World) :
  format_en_GB_hm (timezone cfg) (w_clock w) = scheduledTime cfg ->
  w_lastRunDate w = Some (format_en_CA_date (timezone cfg) (w_clock w - 86400000)) ->
  tick cfg w = (Ok tt, w).
Proof.
  intros Htime Hdone.
  unfold tick, currentTimeInTimezone, getYesterdayDate, Date_now, get_world, ret, bind.
  cbv beta iota. rewrite (bool_decide_eq_true_2 _ Htime). cbn [negb].
  cbv beta iota. rewrite (bool_decide_eq_true_2 _ Hdone). reflexivity.
Qed.

(** A tick in the trigger minute for a date not yet handled: the date is
    recorded, the pipeline runs over the groups of the date, and the tick
    ends with the line that reports the run. *)
Lemma tick_fires (cfg : GroupArchiveConfig) (w : World) :
  let yesterday := format_en_CA_date (timezone cfg) (w_clock w - 86400000) in
  let dayStart := midnightUtcForDate yesterday (timezone cfg) in
  let groupJids :=
    sql_select_distinct_groups dayStart (dayStart + 86400000) (messages (w_db w)) in
  let w0 := set_log (w_log w ++ [InfoSchedulerTriggered yesterday])
              (set_lastRunDate (Some yesterday) w) in
  format_en_GB_hm (timezone cfg) (w_clock w) = scheduledTime cfg ->
  w_lastRunDate w <> Some yesterday ->
  tick cfg w =
  (Ok tt, set_log (w_log (snd (summarize_groups cfg yesterday groupJids w0))
                   ++ [InfoSchedulerDone (Z.of_nat (length groupJids)) yesterday])
            (snd (summarize_groups cfg yesterday groupJids w0))).
Proof.
  intros yesterday dayStart groupJids w0 Htime Hnew.
  unfold tick, currentTimeInTimezone, getYesterdayDate, Date_now, get_world,
    logger, modify, getGroupsWithMessagesOnDate, ret, bind.
  cbv beta iota. rewrite (bool_decide_eq_true_2 _ Htime). cbn [negb].
  cbv beta iota. fold yesterday. rewrite (bool_decide_eq_false_2 _ Hnew).
  cbv beta iota.
  assert (Hdb : messages (w_db (set_log (w_log (set_lastRunDate (Some yesterday) w)
                                        ++ [InfoSchedulerTriggered yesterday])
                                 (set_lastRunDate (Some yesterday) w)))
                = messages (w_db w)) by (destruct w; reflexivity).
  rewrite Hdb. fold dayStart. fold groupJids.
  replace (set_log (w_log (set_lastRunDate (Some yesterday) w)
                    ++ [InfoSchedulerTriggered yesterday])
             (set_lastRunDate (Some yesterday) w)) with w0
    by (destruct w; reflexivity).
  destruct (summarize_groups_spec cfg yesterday groupJids w0) as (Hok & _).
  destruct (summarize_groups cfg yesterday groupJids w0) as [[[]|e] w1];
    cbn [fst] in Hok; [reflexivity|discriminate].
Qed.

(** C9. A tick that fires (the local time is the trigger time and the date
    of yesterday is not the one last handled) completes without an
    exception, records yesterday's date as handled, and enters the pipeline
    once for every group with traffic in that date's range, in order,
    whatever the outcome of the runs before; and when the pipeline fails for
    a group, the failure is in the log at the end of the run. *)
Theorem tick_isolates_group_failures (cfg : GroupArchiveConfig) (w : World) :
  let yesterday := format_en_CA_date (timezone cfg) (w_clock w - 86400000) in
  let dayStart := midnightUtcForDate yesterday (timezone cfg) in
  let groupJids :=
    sql_select_distinct_groups dayStart (dayStart + 86400000) (messages (w_db w)) in
  format_en_GB_hm (timezone cfg) (w_clock w) = scheduledTime cfg ->
  w_lastRunDate w <> Some yesterday ->
  exists w',
    tick cfg w = (Ok tt, w') /\
    w_lastRunDate w' = Some yesterday /\
    w_pipeline_calls w' = w_pipeline_calls w ++ map (fun g => (g, yesterday)) groupJids /\
    (forall pre g post e,
       groupJids = pre ++ g :: post ->
       fst (generateAndStoreSummary cfg g yesterday
              (snd (summarize_groups cfg yesterday pre
                      (set_log (w_log w ++ [InfoSchedulerTriggered yesterday])
                         (set_lastRunDate (Some yesterday) w))))) = Throw e ->
       WarnSummaryFailed g e ∈ w_log w').
Proof.
  intros yesterday dayStart groupJids Htime Hnew.
  set (w0 := set_log (w_log w ++ [InfoSchedulerTriggered yesterday])
               (set_lastRunDate (Some yesterday) w)).
  eexists. split; [exact (tick_fires cfg w Htime Hnew)|].
  fold yesterday dayStart groupJids w0.
  destruct (summarize_groups_spec cfg yesterday groupJids w0) as (_ & Hcalls & Hlrd & _).
  split; [|split].
  - destruct (snd (summarize_groups cfg yesterday groupJids w0)); cbn in *.
    rewrite Hlrd. subst w0. destruct w; reflexivity.
  - destruct (snd (summarize_groups cfg yesterday groupJids w0)); cbn in *.
    rewrite Hcalls. subst w0. destruct w; reflexivity.
  - intros pre g post e Hsplit Hfail.
    pose proof (summarize_groups_logs_failure cfg yesterday pre post g e w0 Hfail) as Hin.
    rewrite <- Hsplit in Hin.
    destruct (snd (summarize_groups cfg yesterday groupJids w0)); cbn in *.
    apply elem_of_app. left. exact Hin.
Qed.

(** ** The calendar: day numbers and civil dates are inverse *)

Lemma year_of_era_split (doe : Z) :
  0 <= doe < 146097 ->
  let yoe := (doe - doe / 1460 + doe / 36524 - doe / 146096) / 365 in
  let doy := doe - (365 * yoe + yoe / 4 - yoe / 100) in
  0 <= yoe <= 399 /\ 0 <= doy <= 365 /\
  yoe * 365 + yoe / 4 - yoe / 100 + doy = doe.
Proof. intros Hdoe. cbv zeta. Z.div_mod_to_equations. lia. Qed.

Lemma month_of_year_split (doy : Z) :
  0 <= doy <= 365 ->
  let mp := (5 * doy + 2) / 153 in
  let d := doy - (153 * mp + 2) / 5 + 1 in
  0 <= mp <= 11 /\ 1 <= d <= 31 /\ (153 * mp + 2) / 5 + d - 1 = doy.
Proof. intros Hdoy. cbv zeta. Z.div_mod_to_equations. lia. Qed.

Lemma day_number_civil_from_days (z : Z) : day_number (civil_from_days z) = z.
Proof.
  unfold day_number, civil_from_days. cbv zeta. cbn [year month day].
  set (era := (z + 719468) / 146097).
  set (doe := z + 719468 - era * 146097).
  assert (Hdoe : 0 <= doe < 146097) by (subst doe era; Z.div_mod_to_equations; lia).
  destruct (year_of_era_split doe Hdoe) as (Hyoe & Hdoy & Hsum). cbv zeta in Hyoe, Hdoy, Hsum.
  set (yoe := (doe - doe / 1460 + doe / 36524 - doe / 146096) / 365) in *.
  set (doy := doe - (365 * yoe + yoe / 4 - yoe / 100)) in *.
  destruct (month_of_year_split doy Hdoy) as (Hmp & Hd & Hsum'). cbv zeta in Hmp, Hd, Hsum'.
  set (mp := (5 * doy + 2) / 153) in *.
  set (d := doy - (153 * mp + 2) / 5 + 1) in *.
  unfold days_from_civil. cbv zeta.
  destruct (mp <? 10) eqn:Hlt; [apply Z.ltb_lt in Hlt | apply Z.ltb_ge in Hlt].
  - rewrite (proj2 (Z.leb_gt (mp + 3) 2)) by lia.
    rewrite (proj2 (Z.gtb_gt (mp + 3) 2)) by lia.
    replace (mp + 3 - 3) with mp by lia.
    replace ((yoe + era * 400) / 400) with era by (Z.div_mod_to_equations; lia).
    replace (yoe + era * 400 - era * 400) with yoe by lia.
    rewrite Hsum'. rewrite Hsum. subst doe. lia.
  - rewrite (proj2 (Z.leb_le (mp - 9) 2)) by lia.
    replace (mp - 9 >? 2) with false by (symmetry; rewrite Z.gtb_ltb; apply Z.ltb_ge; lia).
    replace (mp - 9 + 9) with mp by lia.
    replace (yoe + era * 400 + 1 - 1) with (yoe + era * 400) by lia.
    replace ((yoe + era * 400) / 400) with era by (Z.div_mod_to_equations; lia).
    replace (yoe + era * 400 - era * 400) with yoe by lia.
    rewrite Hsum'. rewrite Hsum. subst doe. lia.
Qed.

Lemma civil_from_days_inj (a b : Z) : civil_from_days a = civil_from_days b -> a = b.
Proof.
  intros Heq. rewrite <- (day_number_civil_from_days a), <- (day_number_civil_from_days b).
  congruence.
Qed.

Lemma year_of_era_unique (yoe doy : Z) :
  0 <= yoe <= 399 -> 0 <= doy ->
  doy <= 364 + (if is_leap (yoe + 1) then 1 else 0) ->
  let doe := yoe * 365 + yoe / 4 - yoe / 100 + doy in
  0 <= doe < 146097 /\
  (doe - doe / 1460 + doe / 36524 - doe / 146096) / 365 = yoe.
Proof.
  intros Hy Hd Hl. cbv zeta. unfold is_leap in Hl.
  destruct ((yoe + 1) mod 4 =? 0) eqn:E4; destruct ((yoe + 1) mod 100 =? 0) eqn:E100;
  destruct ((yoe + 1) mod 400 =? 0) eqn:E400; cbn [andb orb negb] in Hl;
  rewrite ?Z.eqb_eq, ?Z.eqb_neq in *;
  (Z.div_mod_to_equations; lia).
Qed.

Lemma month_of_year_unique (mp d : Z) :
  0 <= mp <= 11 -> 1 <= d ->
  d <= (153 * (mp + 1) + 2) / 5 - (153 * mp + 2) / 5 ->
  (5 * ((153 * mp + 2) / 5 + d - 1) + 2) / 153 = mp.
Proof. intros Hmp Hd Hlen. Z.div_mod_to_equations. lia. Qed.

Lemma month_bounds (y m d : Z) :
  1 <= m <= 12 -> 1 <= d <= days_in_month y m ->
  let mp := if m >? 2 then m - 3 else m + 9 in
  d <= (153 * (mp + 1) + 2) / 5 - (153 * mp + 2) / 5 /\
  (153 * mp + 2) / 5 + d - 1 <= 364 + (if (m <=? 2) && is_leap y then 1 else 0).
Proof.
  intros Hm Hd.
  assert (Hcases : m = 1 \/ m = 2 \/ m = 3 \/ m = 4 \/ m = 5 \/ m = 6 \/ m = 7 \/
                   m = 8 \/ m = 9 \/ m = 10 \/ m = 11 \/ m = 12) by lia.
  unfold days_in_month in Hd.
  destruct Hcases as [-> | [-> | [-> | [-> | [-> | [-> | [-> | [-> | [-> | [-> | [-> | ->]]]]]]]]]]];
    destruct (is_leap y); cbn in Hd |- *; (Z.div_mod_to_equations; lia).
Qed.

Lemma civil_from_days_day_number (dt : CivilDate) :
  valid_date dt = true -> civil_from_days (day_number dt) = dt.
Proof.
  destruct dt as [y m d]. unfold valid_date, day_number. cbn [year month day].
  rewrite !andb_true_iff, !Z.leb_le. intros [[[Hm1 Hm12] Hd1] Hdim].
  unfold days_from_civil. cbv zeta.
  set (y' := if m <=? 2 then y - 1 else y).
  set (era := y' / 400). set (yoe := y' - era * 400).
  set (mp := if m >? 2 then m - 3 else m + 9).
  assert (Hyoe : 0 <= yoe <= 399) by (subst yoe era; Z.div_mod_to_equations; lia).
  assert (Hmp : 0 <= mp <= 11 /\ (m = if mp <? 10 then mp + 3 else mp - 9)).
  { subst mp. destruct (m >? 2) eqn:Hgt.
    - apply Z.gtb_gt in Hgt. rewrite (proj2 (Z.ltb_lt (m - 3) 10)) by lia. lia.
    - rewrite Z.gtb_ltb in Hgt. apply Z.ltb_ge in Hgt.
      rewrite (proj2 (Z.ltb_ge (m + 9) 10)) by lia. lia. }
  destruct Hmp as [Hmp Hm].
  assert (Hleap : m <= 2 -> is_leap (yoe + 1) = is_leap y).
  { intros Hm2. subst yoe era y'. rewrite (proj2 (Z.leb_le m 2)) by lia.
    unfold is_leap.
    replace ((y - 1 - (y - 1) / 400 * 400 + 1) mod 4) with (y mod 4)
      by (Z.div_mod_to_equations; lia).
    replace ((y - 1 - (y - 1) / 400 * 400 + 1) mod 100) with (y mod 100)
      by (Z.div_mod_to_equations; lia).
    replace ((y - 1 - (y - 1) / 400 * 400 + 1) mod 400) with (y mod 400)
      by (Z.div_mod_to_equations; lia).
    reflexivity. }
  assert (Hlen : d <= (153 * (mp + 1) + 2) / 5 - (153 * mp + 2) / 5 /\
                 (153 * mp + 2) / 5 + d - 1 <= 364 + (if is_leap (yoe + 1) then 1 else 0)).
  { destruct (month_bounds y m d) as [Hl1 Hl2]; [lia|lia|]. cbv zeta in Hl1, Hl2.
    fold mp in Hl1, Hl2. split; [exact Hl1|].
    destruct (m <=? 2) eqn:Hm2.
    - apply Z.leb_le in Hm2. rewrite (Hleap Hm2). exact Hl2.
    - cbn [andb] in Hl2. destruct (is_leap (yoe + 1)); lia. }
  destruct Hlen as [Hlen Hdoy].
  set (doy := (153 * mp + 2) / 5 + d - 1) in *.
  assert (Hdoy0 : 0 <= doy) by (subst doy; Z.div_mod_to_equations; lia).
  destruct (year_of_era_unique yoe doy Hyoe Hdoy0 Hdoy) as [Hdoe Hinv].
  cbv zeta in Hdoe, Hinv.
  set (doe := yoe * 365 + yoe / 4 - yoe / 100 + doy) in *.
  unfold civil_from_days. cbv zeta.
  replace (era * 146097 + doe - 719468 + 719468) with (doe + era * 146097) by lia.
  replace ((doe + era * 146097) / 146097) with era by (Z.div_mod_to_equations; lia).
  replace (doe + era * 146097 - era * 146097) with doe by lia.
  rewrite Hinv.
  replace (doe - (365 * yoe + yoe / 4 - yoe / 100)) with doy by (subst doe; lia).
  subst doy. rewrite (month_of_year_unique mp d Hmp Hd1 Hlen).
  rewrite <- Hm.
  replace ((153 * mp + 2) / 5 + d - 1 - (153 * mp + 2) / 5 + 1) with d by lia.
  f_equal. subst yoe y'. destruct (m <=? 2); lia.
Qed.

(** ** Day boundaries in a timezone with a fixed offset *)

Lemma Date_UTC_noon (dt : CivilDate) :
  1 <= month dt <= 12 -> ~ (0 <= year dt <= 99) ->
  Date_UTC (year dt) (month dt - 1) (day dt) 12
  = day_number dt * msPerDay + 12 * msPerHour.
Proof.
  intros Hm Hy. unfold Date_UTC, day_number.
  replace ((0 <=? year dt) && (year dt <=? 99)) with false
    by (symmetry; apply andb_false_iff; rewrite Z.leb_gt, Z.leb_gt; lia).
  replace ((month dt - 1) / 12) with 0 by (Z.div_mod_to_equations; lia).
  replace ((month dt - 1) mod 12 + 1) with (month dt) by (Z.div_mod_to_equations; lia).
  rewrite Z.add_0_r. unfold days_from_civil. cbv zeta. lia.
Qed.

(** The local date of an instant, in a timezone with a fixed offset, is the
    date [dt] exactly when the local time falls in the day of [dt]. *)
Lemma format_en_CA_date_fixed (dt : CivilDate) (off t : Z) :
  civil_from_days (day_number dt) = dt ->
  (format_en_CA_date (fixed_offset off) t = dt <->
   day_number dt * msPerDay <= t + off < (day_number dt + 1) * msPerDay).
Proof.
  intros Hdate. unfold format_en_CA_date, local_time, fixed_offset, day_of, msPerDay.
  split.
  - intros Heq. rewrite <- Hdate in Heq.
    apply civil_from_days_inj in Heq. Z.div_mod_to_equations. lia.
  - intros Hrange.
    replace ((t + off) / 86400000) with (day_number dt) by (Z.div_mod_to_equations; lia).
    exact Hdate.
Qed.

(** The search over the candidates [a], [a+1], ... in a timezone with a
    fixed offset of whole seconds: the first candidate on the local date
    gives the local midnight, whenever the candidates reach that date. *)
Lemma search_midnight_fixed (dt : CivilDate) (off : Z) (n : nat) (a : Z) :
  civil_from_days (day_number dt) = dt -> off mod 1000 = 0 ->
  (12 + a) * msPerHour + off < msPerDay ->
  0 <= (12 + a + Z.of_nat n) * msPerHour + off ->
  search_midnight dt (fixed_offset off) (day_number dt * msPerDay + 12 * msPerHour)
    (seqZ a (Z.of_nat (S n)))
  = Some (day_number dt * msPerDay - off).
Proof.
  intros Hvalid Hsec. revert a. induction n as [|n IH]; intros a Hlo Hhi;
    rewrite seqZ_cons by lia; cbn [search_midnight];
    replace (Z.succ a) with (a + 1) by lia;
    set (candidate := day_number dt * msPerDay + 12 * msPerHour + a * 3600000);
    (destruct (decide (0 <= (12 + a) * msPerHour + off)) as [Hin|Hout];
     [ rewrite bool_decide_eq_true_2;
       [ f_equal; unfold local_time, fixed_offset, hour_of, minute_of, second_of;
         subst candidate; unfold msPerDay, msPerHour, msPerMinute, msPerSecond in *;
         Z.div_mod_to_equations; lia
       | apply format_en_CA_date_fixed; [done|]; subst candidate;
         unfold msPerDay, msPerHour in *; lia ]
     | ]).
  - exfalso. unfold msPerHour in *. lia.
  - rewrite bool_decide_eq_false_2.
    + replace (Z.pred (Z.of_nat (S (S n)))) with (Z.of_nat (S n)) by lia.
      apply IH; unfold msPerDay, msPerHour in *; lia.
    + rewrite format_en_CA_date_fixed by done. subst candidate.
      unfold msPerDay, msPerHour in *. lia.
Qed.

(** The months of the dates that [civil_from_days] gives. *)
Lemma civil_from_days_month (z : Z) : 1 <= month (civil_from_days z) <= 12.
Proof.
  unfold civil_from_days. cbv zeta. cbn [month].
  set (era := (z + 719468) / 146097).
  set (doe := z + 719468 - era * 146097).
  assert (Hdoe : 0 <= doe < 146097) by (subst doe era; Z.div_mod_to_equations; lia).
  destruct (year_of_era_split doe Hdoe) as (_ & Hdoy & _). cbv zeta in Hdoy.
  set (yoe := (doe - doe / 1460 + doe / 36524 - doe / 146096) / 365) in *.
  set (doy := doe - (365 * yoe + yoe / 4 - yoe / 100)) in *.
  destruct (month_of_year_split doy Hdoy) as (Hmp & _ & _). cbv zeta in Hmp.
  set (mp := (5 * doy + 2) / 153) in *.
  destruct (mp <? 10) eqn:Hlt; [apply Z.ltb_lt in Hlt | apply Z.ltb_ge in Hlt]; lia.
Qed.

(** In a timezone with a fixed offset of whole seconds between -26 h and
    +26 h, the resolver returns the local midnight of a date of the
    calendar outside the years 0 to 99 (which [Date.UTC] reads as 19xx). *)
Lemma midnightUtcForDate_fixed_run (dt : CivilDate) (off : Z) :
  civil_from_days (day_number dt) = dt -> 1 <= month dt <= 12 ->
  ~ (0 <= year dt <= 99) ->
  off mod 1000 = 0 -> -26 * msPerHour <= off < 26 * msPerHour ->
  midnightUtcForDate dt (fixed_offset off) = day_number dt * msPerDay - off.
Proof.
  intros Hdate Hmonth Hyear Hsec Hoff.
  unfold midnightUtcForDate, offset_hours.
  rewrite Date_UTC_noon by done.
  change 29 with (Z.of_nat 29).
  rewrite (search_midnight_fixed dt off 28 (-14)); try done;
    unfold msPerHour, msPerDay in *; lia.
Qed.

(** The day-boundary resolver is right in every timezone with a fixed
    offset of whole seconds between -26 h and +26 h: for a date of the
    calendar with a year of four digits it returns the UTC instant of the
    local midnight that starts the date. *)
Theorem midnightUtcForDate_fixed_offset (dt : CivilDate) (off : Z) :
  valid_date dt = true -> 1000 <= year dt <= 9999 ->
  off mod 1000 = 0 -> -26 * msPerHour <= off < 26 * msPerHour ->
  midnightUtcForDate dt (fixed_offset off) = day_number dt * msPerDay - off /\
  format_en_CA_date (fixed_offset off) (midnightUtcForDate dt (fixed_offset off)) = dt /\
  local_time (fixed_offset off) (midnightUtcForDate dt (fixed_offset off)) mod msPerDay = 0.
Proof.
  intros Hvalid Hyear Hsec Hoff.
  pose proof (civil_from_days_day_number dt Hvalid) as Hdate.
  assert (Hmonth : 1 <= month dt <= 12).
  { unfold valid_date in Hvalid. rewrite !andb_true_iff, !Z.leb_le in Hvalid. lia. }
  rewrite (midnightUtcForDate_fixed_run dt off Hdate Hmonth) by (done || lia).
  split; [reflexivity|]. split.
  - apply format_en_CA_date_fixed; [done|]. unfold msPerDay. lia.
  - unfold local_time, fixed_offset, msPerDay.
    replace (day_number dt * 86400000 - off + off) with (day_number dt * 86400000) by lia.
    apply Z_mod_mult.
Qed.

(** ** The once-a-day guard in a timezone with a fixed offset *)

Lemma tick_records_date (cfg : GroupArchiveConfig) (w : World) :
  format_en_GB_hm (timezone cfg) (w_clock w) = scheduledTime cfg ->
  w_lastRunDate (snd (tick cfg w))
  = Some (format_en_CA_date (timezone cfg) (w_clock w - 86400000)).
Proof.
  intros Htime.
  set (yesterday := format_en_CA_date (timezone cfg) (w_clock w - 86400000)).
  destruct (decide (w_lastRunDate w = Some yesterday)) as [Hdone|Hnew].
  - rewrite (tick_skips cfg w Htime Hdone). exact Hdone.
  - rewrite (tick_fires cfg w Htime Hnew). fold yesterday.
    match goal with |- context [summarize_groups cfg yesterday ?gs ?w0] =>
      destruct (summarize_groups_spec cfg yesterday gs w0) as (_ & _ & Hlrd & _);
      destruct (snd (summarize_groups cfg yesterday gs w0)) end.
    cbn in *. rewrite Hlrd. destruct w; reflexivity.
Qed.

Lemma yesterday_fixed (off t : Z) :
  format_en_CA_date (fixed_offset off) (t - 86400000)
  = civil_from_days (day_of (t + off) - 1).
Proof.
  unfold format_en_CA_date, local_time, fixed_offset, day_of, msPerDay.
  f_equal. Z.div_mod_to_equations. lia.
Qed.

(** In a timezone with a fixed offset the guard is right.  After a tick in
    the trigger minute, a second tick in the trigger minute of the same
    local day changes nothing, and a tick in the trigger minute of the
    following local day fires again, for the date of the first tick. *)
Theorem scheduler_once_per_day_fixed_offset (cfg : GroupArchiveConfig) (off : Z)
    (w : World) :
  timezone cfg = fixed_offset off ->
  format_en_GB_hm (timezone cfg) (w_clock w) = scheduledTime cfg ->
  (forall t2,
     day_of (t2 + off) = day_of (w_clock w + off) ->
     format_en_GB_hm (timezone cfg) t2 = scheduledTime cfg ->
     tick cfg (set_clock t2 (snd (tick cfg w))) = (Ok tt, set_clock t2 (snd (tick cfg w)))) /\
  (forall t3,
     day_of (t3 + off) = day_of (w_clock w + off) + 1 ->
     format_en_GB_hm (timezone cfg) t3 = scheduledTime cfg ->
     w_lastRunDate (snd (tick cfg (set_clock t3 (snd (tick cfg w)))))
     = Some (format_en_CA_date (timezone cfg) (w_clock w)) /\
     w_lastRunDate (snd (tick cfg w)) <> Some (format_en_CA_date (timezone cfg) (w_clock w))).
Proof.
  intros Htz Htime.
  pose proof (tick_records_date cfg w Htime) as Hrec.
  rewrite Htz, yesterday_fixed in Hrec.
  split.
  - intros t2 Hday Ht2. apply tick_skips.
    + destruct (snd (tick cfg w)); exact Ht2.
    + rewrite Htz, yesterday_fixed.
      replace (w_lastRunDate (set_clock t2 (snd (tick cfg w))))
        with (w_lastRunDate (snd (tick cfg w))) by (destruct (snd (tick cfg w)); reflexivity).
      replace (w_clock (set_clock t2 (snd (tick cfg w)))) with t2
        by (destruct (snd (tick cfg w)); reflexivity).
      rewrite Hday. exact Hrec.
  - intros t3 Hday Ht3.
    assert (Htoday : format_en_CA_date (timezone cfg) (w_clock w)
                     = civil_from_days (day_of (w_clock w + off))).
    { rewrite Htz. reflexivity. }
    split.
    + rewrite tick_records_date.
      * replace (w_clock (set_clock t3 (snd (tick cfg w)))) with t3
          by (destruct (snd (tick cfg w)); reflexivity).
        rewrite Htz at 1. rewrite yesterday_fixed, Hday, Htoday. f_equal. f_equal. lia.
      * destruct (snd (tick cfg w)); exact Ht3.
    + rewrite Hrec, Htoday. intros Heq.
      assert (Heq' : civil_from_days (day_of (w_clock w + off) - 1)
                     = civil_from_days (day_of (w_clock w + off))) by congruence.
      apply civil_from_days_inj in Heq'. lia.
Qed.

(** * Further properties of the store, the pipeline and the hooks *)

(** ** Range queries on messages *)

Global Instance by_timestamp_total : Total by_timestamp.
Proof. intros a b. unfold by_timestamp. lia. Qed.

Global Instance by_timestamp_trans : Transitive by_timestamp.
Proof. intros a b c. unfold by_timestamp. lia. Qed.

Lemma insert_by_timestamp_Permutation (m : MessageRow) (l : list MessageRow) :
  insert_by_timestamp m l ≡ₚ m :: l.
Proof.
  induction l as [|x l IH]; [reflexivity|]. cbn [insert_by_timestamp].
  destruct (decide (by_timestamp m x)); [reflexivity|].
  rewrite IH. apply Permutation_swap.
Qed.

Lemma order_by_timestamp_Permutation (l : list MessageRow) : order_by_timestamp l ≡ₚ l.
Proof.
  induction l as [|m l IH]; [reflexivity|].
  cbn [order_by_timestamp foldr]. fold (order_by_timestamp l).
  by rewrite insert_by_timestamp_Permutation, IH.
Qed.

Lemma StronglySorted_insert_by_timestamp (m : MessageRow) (l : list MessageRow) :
  StronglySorted by_timestamp l -> StronglySorted by_timestamp (insert_by_timestamp m l).
Proof.
  induction 1 as [|x l Hsorted IH Hall]; cbn [insert_by_timestamp].
  - repeat constructor.
  - destruct (decide (by_timestamp m x)) as [Hle|Hgt].
    + constructor; [by constructor|]. constructor; [done|].
      eapply Forall_impl; [exact Hall|]. intros y Hy. by transitivity x.
    + constructor; [exact IH|]. rewrite insert_by_timestamp_Permutation.
      constructor; [|exact Hall]. by destruct (total by_timestamp m x).
Qed.

Lemma StronglySorted_order_by_timestamp (l : list MessageRow) :
  StronglySorted by_timestamp (order_by_timestamp l).
Proof.
  induction l as [|m l IH]; [constructor|].
  cbn [order_by_timestamp foldr]. by apply StronglySorted_insert_by_timestamp.
Qed.

Lemma elem_of_first_occurrences (l : list string) (x : string) :
  x ∈ first_occurrences l <-> x ∈ l.
Proof.
  induction l as [|y l IH]; [done|]. cbn [first_occurrences].
  rewrite !elem_of_cons, list_elem_of_filter, IH.
  destruct (decide (x = y)); intuition.
Qed.

Lemma NoDup_first_occurrences (l : list string) : NoDup (first_occurrences l).
Proof.
  induction l as [|y l IH]; [constructor|]. cbn [first_occurrences].
  constructor; [|by apply NoDup_filter].
  rewrite list_elem_of_filter. intros [Hne _]. by apply Hne.
Qed.

Lemma elem_of_sql_select_messages (g : string) (s e : Z) (t : list MessageRow)
    (m : MessageRow) :
  m ∈ sql_select_messages g s e t <->
  m ∈ t /\ msg_group_jid m = g /\ s <= msg_timestamp m < e.
Proof.
  unfold sql_select_messages.
  rewrite order_by_timestamp_Permutation, list_elem_of_filter. tauto.
Qed.

Lemma elem_of_sql_select_distinct_groups (s e : Z) (t : list MessageRow) (g : string) :
  g ∈ sql_select_distinct_groups s e t <->
  exists m, m ∈ t /\ msg_group_jid m = g /\ s <= msg_timestamp m < e.
Proof.
  unfold sql_select_distinct_groups.
  rewrite elem_of_first_occurrences, list_elem_of_fmap. split.
  - intros (m & -> & Hin).
    rewrite order_by_timestamp_Permutation, list_elem_of_filter in Hin.
    exists m. tauto.
  - intros (m & Hin & <- & Hr). exists m. split; [done|].
    rewrite order_by_timestamp_Permutation, list_elem_of_filter. tauto.
Qed.

Lemma filter_range_split {A} (ts : A -> Z) (P : A -> Prop) `{forall x, Decision (P x)}
    (a b c : Z) (l : list A) :
  a <= b -> b <= c ->
  filter (fun x => P x /\ a <= ts x /\ ts x < c) l
  ≡ₚ filter (fun x => P x /\ a <= ts x /\ ts x < b) l
     ++ filter (fun x => P x /\ b <= ts x /\ ts x < c) l.
Proof.
  intros Hab Hbc. induction l as [|x l IH]; [reflexivity|].
  destruct (decide (P x /\ a <= ts x /\ ts x < b)) as [H1|H1].
  - rewrite (filter_cons_True (fun x => P x /\ a <= ts x /\ ts x < c)) by (intuition lia).
    rewrite (filter_cons_True (fun x => P x /\ a <= ts x /\ ts x < b)) by done.
    rewrite (filter_cons_False (fun x => P x /\ b <= ts x /\ ts x < c)) by (intuition lia).
    cbn. by rewrite IH.
  - rewrite (filter_cons_False (fun x => P x /\ a <= ts x /\ ts x < b)) by done.
    destruct (decide (P x /\ b <= ts x /\ ts x < c)) as [H2|H2].
    + rewrite (filter_cons_True (fun x => P x /\ a <= ts x /\ ts x < c)) by (intuition lia).
      rewrite (filter_cons_True (fun x => P x /\ b <= ts x /\ ts x < c)) by done.
      rewrite IH. by rewrite Permutation_middle.
    + rewrite (filter_cons_False (fun x => P x /\ a <= ts x /\ ts x < c)) by (intuition lia).
      rewrite (filter_cons_False (fun x => P x /\ b <= ts x /\ ts x < c)) by done.
      exact IH.
Qed.

(** [getMessagesByGroupAndDateRange] is a pure read that returns, in
    ascending order of timestamp, exactly the stored messages of the group
    whose timestamp lies in the half-open range: the start is included, the
    end is not, and every such row comes once. *)
Theorem getMessagesByGroupAndDateRange_sorted_exact (w : World) (groupJid : string)
    (startTs endTs : Z) :
  exists rows,
    getMessagesByGroupAndDateRange groupJid startTs endTs w = (Ok rows, w) /\
    StronglySorted by_timestamp rows /\
    rows ≡ₚ filter (fun m => msg_group_jid m = groupJid /\
                             startTs <= msg_timestamp m /\ msg_timestamp m < endTs)
              (messages (w_db w)) /\
    (forall m, m ∈ rows <->
       m ∈ messages (w_db w) /\ msg_group_jid m = groupJid /\
       startTs <= msg_timestamp m < endTs).
Proof.
  eexists. split; [reflexivity|]. unfold sql_select_messages.
  split; [apply StronglySorted_order_by_timestamp|].
  split; [apply order_by_timestamp_Permutation|].
  intros m. rewrite order_by_timestamp_Permutation, list_elem_of_filter. tauto.
Qed.

Lemma filter_insert_by_timestamp (t : Z) (m : MessageRow) (l : list MessageRow) :
  filter (fun x => msg_timestamp x = t) (insert_by_timestamp m l)
  = filter (fun x => msg_timestamp x = t) (m :: l).
Proof.
  induction l as [|x l IH]; [reflexivity|]. cbn [insert_by_timestamp].
  destruct (decide (by_timestamp m x)) as [Hle|Hgt]; [reflexivity|].
  unfold by_timestamp in Hgt.
  destruct (decide (msg_timestamp m = t)) as [Hm|Hm].
  - rewrite (filter_cons_False _ x) by lia. rewrite IH.
    rewrite !(filter_cons_True _ m) by done.
    rewrite (filter_cons_False _ x) by lia. reflexivity.
  - rewrite (filter_cons_False _ m) by done.
    destruct (decide (msg_timestamp x = t)) as [Hx|Hx].
    + rewrite !(filter_cons_True _ x) by done. rewrite IH.
      by rewrite (filter_cons_False _ m).
    + rewrite !(filter_cons_False _ x) by done. rewrite IH.
      by rewrite (filter_cons_False _ m).
Qed.

Lemma filter_order_by_timestamp (t : Z) (l : list MessageRow) :
  filter (fun x => msg_timestamp x = t) (order_by_timestamp l)
  = filter (fun x => msg_timestamp x = t) l.
Proof.
  induction l as [|m l IH]; [reflexivity|].
  cbn [order_by_timestamp foldr]. fold (order_by_timestamp l).
  rewrite filter_insert_by_timestamp.
  destruct (decide (msg_timestamp m = t)).
  - rewrite !(filter_cons_True _ m) by done. by rewrite IH.
  - rewrite !(filter_cons_False _ m) by done. exact IH.
Qed.

(** Messages of equal timestamp come in the order in which they were
    inserted: for every timestamp, the rows of [getMessagesByGroupAndDateRange]
    that bear it are the selected rows of the table that bear it, in the
    order of the table. *)
Theorem getMessagesByGroupAndDateRange_ties_in_table_order (w : World)
    (groupJid : string) (startTs endTs : Z) :
  exists rows,
    getMessagesByGroupAndDateRange groupJid startTs endTs w = (Ok rows, w) /\
    forall t,
      filter (fun m => msg_timestamp m = t) rows
      = filter (fun m => msg_timestamp m = t)
          (filter (fun m => msg_group_jid m = groupJid /\
                            startTs <= msg_timestamp m /\ msg_timestamp m < endTs)
                  (messages (w_db w))).
Proof.
  eexists. split; [reflexivity|]. intros t. unfold sql_select_messages.
  apply filter_order_by_timestamp.
Qed.

(** Two adjacent ranges share no message and lose none: the messages of
    [a, c) are those of [a, b) together with those of [b, c). *)
Theorem adjacent_ranges_partition (w : World) (groupJid : string) (a b c : Z) :
  a <= b -> b <= c ->
  fst (getMessagesByGroupAndDateRange groupJid a c w)
  = Ok (sql_select_messages groupJid a c (messages (w_db w))) /\
  sql_select_messages groupJid a c (messages (w_db w))
  ≡ₚ sql_select_messages groupJid a b (messages (w_db w))
     ++ sql_select_messages groupJid b c (messages (w_db w)) /\
  (forall m, m ∈ sql_select_messages groupJid a b (messages (w_db w)) ->
             m ∉ sql_select_messages groupJid b c (messages (w_db w))).
Proof.
  intros Hab Hbc. split; [reflexivity|]. unfold sql_select_messages. split.
  - rewrite !order_by_timestamp_Permutation.
    apply (filter_range_split msg_timestamp (fun m => msg_group_jid m = groupJid)); done.
  - intros m. rewrite !order_by_timestamp_Permutation, !list_elem_of_filter. lia.
Qed.

(** [getGroupsWithMessagesOnDate] lists each group once, and lists a group
    exactly when one of its messages lies in the range, that is, exactly
    when the range query for that group is not empty. *)
Theorem getGroupsWithMessagesOnDate_exact (w : World) (startTs endTs : Z) :
  exists jids,
    getGroupsWithMessagesOnDate startTs endTs w = (Ok jids, w) /\
    NoDup jids /\
    (forall g, g ∈ jids <->
       exists m, m ∈ messages (w_db w) /\ msg_group_jid m = g /\
                 startTs <= msg_timestamp m < endTs) /\
    (forall g, g ∈ jids <->
       sql_select_messages g startTs endTs (messages (w_db w)) <> []).
Proof.
  eexists. split; [reflexivity|].
  split; [apply NoDup_first_occurrences|].
  split; [apply elem_of_sql_select_distinct_groups|].
  intros g. rewrite elem_of_sql_select_distinct_groups. split.
  - intros (m & Hin & Hg & Hr) Hnil.
    assert (Hm : m ∈ sql_select_messages g startTs endTs (messages (w_db w)))
      by (apply elem_of_sql_select_messages; tauto).
    rewrite Hnil in Hm. by apply elem_of_nil in Hm.
  - intros Hne.
    destruct (sql_select_messages g startTs endTs (messages (w_db w)))
      as [|m rest] eqn:Hrows; [done|].
    assert (Hm : m ∈ m :: rest) by apply list_elem_of_here.
    rewrite <- Hrows in Hm. apply elem_of_sql_select_messages in Hm.
    exists m. tauto.
Qed.

(** ** Groups: what a history of upserts leaves *)

Lemma upsertGroup_groups (jid : string) (name : option string) (t : Z) (w : World) :
  w_db (snd (upsertGroup jid name (set_clock t w)))
  = with_groups (sql_upsert_group jid name t) (w_db w).
Proof. destruct w. reflexivity. Qed.

Lemma upsert_each_cons (jid : string) (c : option string * Z)
    (calls : list (option string * Z)) (w : World) :
  upsert_each jid (c :: calls) w
  = upsert_each jid calls (snd (upsertGroup jid (fst c) (set_clock (snd c) w))).
Proof. reflexivity. Qed.

Lemma upsert_each_known (jid : string) (calls : list (option string * Z)) (w : World)
    (old : GroupRow) :
  groups (w_db w) !! jid = Some old ->
  exists row,
    groups (w_db (upsert_each jid calls w)) !! jid = Some row /\
    grp_name row = last_name calls (grp_name old) /\
    grp_first_seen row = grp_first_seen old /\
    grp_last_message row = match last calls with
                           | Some c => Some (snd c)
                           | None => grp_last_message old
                           end /\
    grp_message_count row = grp_message_count old + Z.of_nat (length calls).
Proof.
  revert w old. induction calls as [|[name t] calls IH]; intros w old Hold.
  - exists old. cbn. split; [done|]. repeat split; lia.
  - rewrite upsert_each_cons. cbn [fst snd].
    set (w1 := snd (upsertGroup jid name (set_clock t w))).
    assert (Hnew : groups (w_db w1) !! jid
                   = Some (mkGroup jid (match name with Some n => Some n | None => grp_name old end)
                             (grp_first_seen old) (Some t) (grp_message_count old + 1))).
    { subst w1. rewrite upsertGroup_groups. unfold with_groups, sql_upsert_group.
      cbn [groups]. rewrite Hold. apply lookup_insert_eq. }
    destruct (IH w1 _ Hnew) as (row & Hrow & Hn & Hf & Hl & Hc).
    cbn [grp_name grp_first_seen grp_last_message grp_message_count] in Hn, Hf, Hl, Hc.
    exists row. split; [exact Hrow|]. split; [exact Hn|]. split; [exact Hf|]. split.
    + rewrite Hl. destruct calls as [|c calls]; [reflexivity|].
      change (last ((name, t) :: c :: calls)) with (last (c :: calls)).
      destruct (last (c :: calls)) eqn:Hlast; [reflexivity|].
      by apply last_None in Hlast.
    + rewrite Hc. cbn [length]. lia.
Qed.

Lemma upsert_each_others (jid other : string) (calls : list (option string * Z))
    (w : World) :
  other <> jid ->
  groups (w_db (upsert_each jid calls w)) !! other = groups (w_db w) !! other.
Proof.
  intros Hne. revert w. induction calls as [|[name t] calls IH]; intros w; [done|].
  rewrite upsert_each_cons. cbn [fst snd].
  rewrite IH, upsertGroup_groups.
  unfold with_groups, sql_upsert_group. cbn [groups].
  destruct (groups (w_db w) !! jid); by rewrite lookup_insert_ne.
Qed.

Lemma upsert_each_messages (jid : string) (calls : list (option string * Z)) (w : World) :
  messages (w_db (upsert_each jid calls w)) = messages (w_db w).
Proof.
  revert w. induction calls as [|[name t] calls IH]; intros w; [done|].
  rewrite upsert_each_cons. cbn [fst snd]. by rewrite IH, upsertGroup_groups.
Qed.

(** A group the store has not seen, after a history of [upsertGroup]
    calls: it counts one message per call, keeps the time of the first call
    as [first_seen] and the time of the last as [last_message], and bears
    the last name that a call passed (a call without a name never erases
    one).  The other groups and the messages are as they were. *)
Theorem upsertGroup_history (jid : string) (name0 : option string) (t0 : Z)
    (calls : list (option string * Z)) (w : World) :
  groups (w_db w) !! jid = None ->
  (exists row,
     groups (w_db (upsert_each jid ((name0, t0) :: calls) w)) !! jid = Some row /\
     grp_name row = last_name ((name0, t0) :: calls) None /\
     grp_first_seen row = t0 /\
     grp_last_message row = option_map snd (last ((name0, t0) :: calls)) /\
     grp_message_count row = Z.of_nat (length ((name0, t0) :: calls))) /\
  (forall other, other <> jid ->
     groups (w_db (upsert_each jid ((name0, t0) :: calls) w)) !! other
     = groups (w_db w) !! other) /\
  messages (w_db (upsert_each jid ((name0, t0) :: calls) w)) = messages (w_db w).
Proof.
  intros Hnew. split; [|split].
  - rewrite upsert_each_cons. cbn [fst snd].
    set (w1 := snd (upsertGroup jid name0 (set_clock t0 w))).
    assert (Hrow : groups (w_db w1) !! jid = Some (mkGroup jid name0 t0 (Some t0) 1)).
    { subst w1. rewrite upsertGroup_groups. unfold with_groups, sql_upsert_group.
      cbn [groups]. rewrite Hnew. apply lookup_insert_eq. }
    destruct (upsert_each_known jid calls w1 _ Hrow) as (row & Hfin & Hn & Hf & Hl & Hc).
    cbn [grp_name grp_first_seen grp_last_message grp_message_count] in Hn, Hf, Hl, Hc.
    exists row. split; [exact Hfin|]. split; [|split; [exact Hf|split]].
    + rewrite Hn. unfold last_name. cbn [foldl fst]. destruct name0; reflexivity.
    + rewrite Hl. destruct calls as [|c calls]; [reflexivity|].
      change (last ((name0, t0) :: c :: calls)) with (last (c :: calls)).
      destruct (last (c :: calls)) eqn:Hlast; [reflexivity|].
      by apply last_None in Hlast.
    + rewrite Hc. cbn [length]. lia.
  - intros other Hne. by apply upsert_each_others.
  - apply upsert_each_messages.
Qed.

(** ** Messages: inserts only append *)

(** [insertMessage] for a message whose group has its row returns the
    identity it drew and never changes or removes a stored message: the
    table grows at its end or stays, its primary key stays unique, and the
    groups are not touched; when the identity is not in the table, the new
    row is appended and is the only row with that identity.  For a message
    whose group has no row, and an identity that is not in the table, the
    foreign key makes the insert fail: the call throws, and only the
    identity is spent. *)
Theorem insertMessage_appends (msg : NewMessage) (w : World) :
  keys_unique (w_db w) ->
  (is_Some (groups (w_db w) !! new_group_jid msg) ->
   exists w',
     insertMessage msg w = (Ok (w_uuid w (w_uuid_next w)), w') /\
     keys_unique (w_db w') /\
     groups (w_db w') = groups (w_db w) /\
     (exists added, messages (w_db w') = messages (w_db w) ++ added) /\
     (w_uuid w (w_uuid_next w) ∉ map msg_id (messages (w_db w)) ->
      messages (w_db w') = messages (w_db w) ++ [new_row (w_uuid w (w_uuid_next w)) msg] /\
      rows_with_id (w_uuid w (w_uuid_next w)) (w_db w')
      = [new_row (w_uuid w (w_uuid_next w)) msg])) /\
  (groups (w_db w) !! new_group_jid msg = None ->
   w_uuid w (w_uuid_next w) ∉ map msg_id (messages (w_db w)) ->
   insertMessage msg w
   = (Throw ForeignKeyConstraintFailed, set_uuid_next (S (w_uuid_next w)) w)).
Proof.
  intros Hkeys. set (id := w_uuid w (w_uuid_next w)). rewrite insertMessage_run. fold id.
  split.
  - intros Hgrp. rewrite sql_insert_or_ignore_message_ok by exact Hgrp.
    eexists. split; [reflexivity|].
    rewrite w_db_set_uuid_next, w_db_set_db.
    unfold keys_unique, rows_with_id. cbn [with_messages messages groups].
    split; [apply append_new_message_keys; exact Hkeys|].
    split; [reflexivity|].
    unfold append_new_message. cbn [new_row msg_id].
    destruct (bool_decide (id ∈ map msg_id (messages (w_db w)))) eqn:Hin.
    + apply bool_decide_eq_true in Hin. split; [exists []; by rewrite app_nil_r|]. done.
    + split; [eauto|]. intros Hfresh. split; [reflexivity|].
      rewrite filter_app, rows_with_id_absent by done.
      rewrite filter_cons_True by done. reflexivity.
  - intros Hnone Hfresh.
    by rewrite sql_insert_or_ignore_message_orphan.
Qed.

(** ** Summaries: the write and the read *)

Lemma filter_no_conflict_keys (row : DailySummaryRow) (t : list DailySummaryRow) :
  (sum_id row ∉ map sum_id (filter (fun r => ~ summary_conflicts row r) t)) /\
  (summary_key row ∉ map summary_key (filter (fun r => ~ summary_conflicts row r) t)).
Proof.
  induction t as [|r t [IH1 IH2]]; [split; apply not_elem_of_nil|].
  destruct (decide (summary_conflicts row r)) as [Hc|Hc].
  - rewrite filter_cons_False by tauto. done.
  - rewrite filter_cons_True by done. cbn [map]. rewrite !not_elem_of_cons.
    unfold summary_conflicts, summary_key in *. split; split; try done.
    + intros Heq. apply Hc. left. done.
    + intros [= Hg Hd]. apply Hc. right. done.
Qed.

Lemma NoDup_map_filter {A B} (f : A -> B) (P : A -> Prop) `{forall x, Decision (P x)}
    (l : list A) :
  NoDup (map f l) -> NoDup (map f (filter P l)).
Proof.
  induction l as [|x l IH]; [done|]. cbn [map]. rewrite NoDup_cons. intros [Hx Hl].
  destruct (decide (P x)).
  - rewrite filter_cons_True by done. cbn [map]. apply NoDup_cons. split; [|auto].
    intros Hin. apply Hx. apply list_elem_of_In, in_map_iff in Hin as (y & Hy & Hin).
    apply list_elem_of_In, list_elem_of_filter in Hin as [_ Hin].
    apply list_elem_of_In, in_map_iff. exists y. split; [done|]. by apply list_elem_of_In.
  - rewrite filter_cons_False by done. auto.
Qed.

Lemma sql_get_summary_other_key (row : DailySummaryRow) (t : list DailySummaryRow)
    (g : string) (d : CivilDate) :
  (g, d) <> summary_key row ->
  sum_id row ∉ map sum_id t ->
  sql_get_summary g d (replace_summary row t) = sql_get_summary g d t.
Proof.
  intros Hkey Hid. unfold sql_get_summary, replace_summary.
  rewrite filter_app. rewrite (filter_cons_False _ row []).
  2:{ intros [Hg Hd]. apply Hkey. unfold summary_key. congruence. }
  rewrite filter_nil, app_nil_r. f_equal.
  induction t as [|r t IH]; [reflexivity|].
  cbn [map] in Hid. apply not_elem_of_cons in Hid as [Hne Hid].
  destruct (decide (sum_group_jid r = g /\ sum_date r = d)) as [Hm|Hm].
  - rewrite (filter_cons_True (fun r => ~ summary_conflicts row r)).
    + rewrite !filter_cons_True by done. f_equal. auto.
    + unfold summary_conflicts. intros [Heq | [Hg Hd]]; [congruence|].
      apply Hkey. unfold summary_key. destruct Hm. congruence.
  - rewrite (filter_cons_False (fun r => sum_group_jid r = g /\ sum_date r = d) r t) by done.
    destruct (decide (summary_conflicts row r)).
    + rewrite filter_cons_False by tauto. auto.
    + rewrite filter_cons_True by done. rewrite filter_cons_False by done. auto.
Qed.

(** [insertSummary] for a group that has its row, followed by
    [getSummary] for the same key, reads back the row just written: the
    text, the count, the identity drawn and the time of the write.  The
    write keeps the table free of duplicate identities and duplicate
    (group, date) keys, and leaves the summary of every other key as it
    was, provided the identity drawn is new (a repeated identity replaces
    the row that bears it).  For a group that has no row the foreign key
    makes the write fail: the call throws, the store stays, and
    [getSummary] answers as before. *)
Theorem insertSummary_getSummary (groupJid : string) (date : CivilDate)
    (summaryText : string) (messageCount : Z) (w : World) :
  (is_Some (groups (w_db w) !! groupJid) ->
   exists w',
     insertSummary groupJid date summaryText messageCount w = (Ok tt, w') /\
     getSummary groupJid date w'
     = (Ok (Some (mkSummary (w_uuid w (w_uuid_next w)) groupJid date summaryText
                    messageCount (w_clock w))), w') /\
     (summaries_unique (w_db w) -> summaries_unique (w_db w')) /\
     (forall g d, (g, d) <> (groupJid, date) ->
        w_uuid w (w_uuid_next w) ∉ map sum_id (daily_summaries (w_db w)) ->
        getSummary g d w' = (Ok (sql_get_summary g d (daily_summaries (w_db w))), w'))) /\
  (groups (w_db w) !! groupJid = None ->
   exists w',
     insertSummary groupJid date summaryText messageCount w
     = (Throw ForeignKeyConstraintFailed, w') /\
     w_db w' = w_db w /\
     forall g d,
       getSummary g d w' = (Ok (sql_get_summary g d (daily_summaries (w_db w))), w')).
Proof.
  set (row := mkSummary (w_uuid w (w_uuid_next w)) groupJid date summaryText
                messageCount (w_clock w)).
  rewrite insertSummary_run. cbv zeta. fold row. split.
  - intros Hgrp. rewrite bool_decide_eq_true_2 by exact Hgrp.
    eexists. split; [reflexivity|]. unfold getSummary.
    rewrite w_db_set_db. cbn [with_summaries daily_summaries].
    split; [|split].
    + f_equal. f_equal. apply (sql_get_summary_after_insert row).
    + unfold summaries_unique. cbn [with_summaries daily_summaries].
      intros [Hids Hkeys]. unfold replace_summary.
      destruct (filter_no_conflict_keys row (daily_summaries (w_db w))) as [Hid Hkey].
      rewrite !map_app. cbn [map]. split; apply NoDup_app.
      * split; [by apply NoDup_map_filter|]. split; [|apply NoDup_singleton].
        intros x Hx Hx'. apply list_elem_of_singleton in Hx'. by subst x.
      * split; [by apply NoDup_map_filter|]. split; [|apply NoDup_singleton].
        intros x Hx Hx'. apply list_elem_of_singleton in Hx'. by subst x.
    + intros g d Hkey Hfresh. f_equal. f_equal.
      by apply (sql_get_summary_other_key row).
  - intros Hnone.
    rewrite bool_decide_eq_false_2 by (rewrite Hnone; by intros [? ?]).
    eexists. split; [reflexivity|]. split; [apply w_db_set_uuid_next|].
    intros g d. unfold getSummary. by rewrite w_db_set_uuid_next.
Qed.

(** ** The pipeline: what it writes and what it leaves *)

(** The store after a run of the pipeline: as before, or with one row
    written for the key, after a generation that gave a text. *)
Lemma generateAndStoreSummary_db (cfg : GroupArchiveConfig) (g : string)
    (d : CivilDate) (w : World) :
  (w_db (snd (generateAndStoreSummary cfg g d w)) = w_db w) \/
  (exists text m rest,
     fst (generateAndStoreSummary cfg g d w) = Ok text /\
     sql_get_summary g d (daily_summaries (w_db w)) = None /\
     sql_select_messages g (midnightUtcForDate d (timezone cfg))
       (midnightUtcForDate d (timezone cfg) + 86400000) (messages (w_db w)) = m :: rest /\
     w_db (snd (generateAndStoreSummary cfg g d w))
     = with_summaries
         (replace_summary
            (mkSummary (w_uuid w (w_uuid_next w)) g d text
               (Z.of_nat (length (m :: rest))) (w_clock w)))
         (w_db w)).
Proof.
  destruct (sql_get_summary g d (daily_summaries (w_db w))) as [row|] eqn:Hrow.
  { left. rewrite (generateAndStoreSummary_hit cfg g d w row Hrow). by destruct w. }
  destruct (sql_select_messages g (midnightUtcForDate d (timezone cfg))
              (midnightUtcForDate d (timezone cfg) + 86400000) (messages (w_db w)))
    as [|m rest] eqn:Hmsgs.
  { left. rewrite (generateAndStoreSummary_empty_day cfg g d w Hrow Hmsgs). by destruct w. }
  rewrite (generateAndStoreSummary_generate cfg g d w m rest Hrow Hmsgs). cbv zeta.
  match goal with |- context [generateSummary cfg (m :: rest) ?w0] =>
    destruct (generateSummary_effect cfg (m :: rest) w0) as (reqs & Hsnd & _);
    destruct (generateSummary cfg (m :: rest) w0) as [[text|e] w2]
  end; cbn [snd] in Hsnd; subst w2.
  - destruct (bool_decide (is_Some _)).
    + right. exists text, m, rest. split; [reflexivity|]. split; [reflexivity|].
      split; [reflexivity|]. destruct w. reflexivity.
    + left. destruct w. reflexivity.
  - left. destruct w. reflexivity.
Qed.

Lemma generateAndStoreSummary_throw_db (cfg : GroupArchiveConfig) (g : string)
    (d : CivilDate) (w : World) (e : Exn) :
  fst (generateAndStoreSummary cfg g d w) = Throw e ->
  w_db (snd (generateAndStoreSummary cfg g d w)) = w_db w.
Proof.
  intros Hthrow. destruct (generateAndStoreSummary_db cfg g d w)
    as [Hsame | (text & m & rest & Hok & _)]; [exact Hsame|congruence].
Qed.

Lemma generateAndStoreSummary_same_but_summaries (cfg : GroupArchiveConfig) (g : string)
    (d : CivilDate) (w : World) :
  same_but_summaries (w_db w) (w_db (snd (generateAndStoreSummary cfg g d w))).
Proof.
  unfold same_but_summaries.
  destruct (generateAndStoreSummary_db cfg g d w)
    as [-> | (text & m & rest & _ & _ & _ & ->)]; repeat split; reflexivity.
Qed.

(** A run of the pipeline never touches the groups, the messages or the
    embeddings, and a run that fails leaves the whole store exactly as it
    was: nothing partial is written. *)
Theorem generateAndStoreSummary_leaves_archive (cfg : GroupArchiveConfig) (g : string)
    (d : CivilDate) (w : World) :
  same_but_summaries (w_db w) (w_db (snd (generateAndStoreSummary cfg g d w))) /\
  (forall e, fst (generateAndStoreSummary cfg g d w) = Throw e ->
             w_db (snd (generateAndStoreSummary cfg g d w)) = w_db w).
Proof.
  split; [apply generateAndStoreSummary_same_but_summaries|].
  intros e. apply generateAndStoreSummary_throw_db.
Qed.

(** A run of the pipeline writes at most one row, and only when no summary
    was stored for the key, the day has messages and the generation gave a
    text: the row bears the key, that text, the number of messages of the
    day, and the time of the write. *)
Theorem generateAndStoreSummary_writes_one_row (cfg : GroupArchiveConfig) (g : string)
    (d : CivilDate) (w : World) :
  w_db (snd (generateAndStoreSummary cfg g d w)) = w_db w \/
  exists text msgs,
    fst (generateAndStoreSummary cfg g d w) = Ok text /\
    sql_get_summary g d (daily_summaries (w_db w)) = None /\
    msgs = sql_select_messages g (midnightUtcForDate d (timezone cfg))
             (midnightUtcForDate d (timezone cfg) + 86400000) (messages (w_db w)) /\
    msgs <> [] /\
    daily_summaries (w_db (snd (generateAndStoreSummary cfg g d w)))
    = filter (fun r => ~ summary_conflicts
                           (mkSummary (w_uuid w (w_uuid_next w)) g d text
                              (Z.of_nat (length msgs)) (w_clock w)) r)
             (daily_summaries (w_db w))
      ++ [mkSummary (w_uuid w (w_uuid_next w)) g d text
            (Z.of_nat (length msgs)) (w_clock w)].
Proof.
  destruct (generateAndStoreSummary_db cfg g d w)
    as [Hsame | (text & m & rest & Hok & Hnone & Hmsgs & Hdb)]; [left; exact Hsame|].
  right. exists text, (m :: rest). split; [exact Hok|]. split; [exact Hnone|].
  split; [by rewrite Hmsgs|]. split; [done|]. rewrite Hdb. reflexivity.
Qed.

(** ** The scheduler: a tick never fails *)

Lemma summarize_groups_same_but_summaries (cfg : GroupArchiveConfig) (d : CivilDate)
    (groupJids : list string) (w : World) :
  same_but_summaries (w_db w) (w_db (snd (summarize_groups cfg d groupJids w))).
Proof.
  revert w. induction groupJids as [|g rest IH]; intros w.
  - repeat split; reflexivity.
  - rewrite summarize_groups_cons.
    pose proof (generateAndStoreSummary_same_but_summaries cfg g d w) as Hstep.
    destruct (generateAndStoreSummary cfg g d w) as [[t|e] w1]; cbn [snd] in Hstep.
    + specialize (IH w1). unfold same_but_summaries in *.
      destruct IH as (-> & -> & -> & -> & ->). exact Hstep.
    + specialize (IH (set_log (w_log w1 ++ [WarnSummaryFailed g e]) w1)).
      replace (w_db (set_log (w_log w1 ++ [WarnSummaryFailed g e]) w1)) with (w_db w1)
        in IH by (destruct w1; reflexivity).
      unfold same_but_summaries in *.
      destruct IH as (-> & -> & -> & -> & ->). exact Hstep.
Qed.

(** A tick in a timezone that [Intl] knows completes, whatever the
    backends answer. *)
Lemma tick_completes (cfg : GroupArchiveConfig) (w : World) :
  fst (tick cfg w) = Ok tt /\
  same_but_summaries (w_db w) (w_db (snd (tick cfg w))) /\
  (format_en_GB_hm (timezone cfg) (w_clock w) <> scheduledTime cfg ->
   snd (tick cfg w) = w).
Proof.
  destruct (decide (format_en_GB_hm (timezone cfg) (w_clock w) = scheduledTime cfg))
    as [Htime|Htime].
  - set (yesterday := format_en_CA_date (timezone cfg) (w_clock w - 86400000)).
    destruct (decide (w_lastRunDate w = Some yesterday)) as [Hdone|Hnew].
    + rewrite (tick_skips cfg w Htime Hdone). split; [done|]. split; [|done].
      repeat split; reflexivity.
    + rewrite (tick_fires cfg w Htime Hnew). split; [done|]. split; [|done].
      cbn [snd].
      match goal with |- context [summarize_groups cfg ?y ?gs ?w0] =>
        pose proof (summarize_groups_same_but_summaries cfg y gs w0) as Hloop;
        destruct (snd (summarize_groups cfg y gs w0)) end.
      destruct w. exact Hloop.
  - rewrite (tick_idle cfg w Htime). split; [done|]. split; [|done].
    repeat split; reflexivity.
Qed.

(** The one way a tick throws.  For a configured timezone name that [Intl]
    does not know, the tick throws a RangeError at its first statement and
    changes nothing.  For a name that [Intl] knows the tick never throws,
    whatever the backends answer and whatever fails in the store; it never
    touches the groups, the messages or the embeddings, and outside the
    trigger minute it changes nothing at all. *)
Theorem tick_throws_only_on_unknown_timezone (intl : TimezoneNames) (p : ParsedConfig)
    (w : World) :
  (intl (parsed_timezone p) = None ->
   tick_named intl p w = (Throw (RangeError_InvalidTimeZone (parsed_timezone p)), w)) /\
  (forall tz, intl (parsed_timezone p) = Some tz ->
     fst (tick_named intl p w) = Ok tt /\
     same_but_summaries (w_db w) (w_db (snd (tick_named intl p w))) /\
     (format_en_GB_hm tz (w_clock w) <> parsed_scheduledTime p ->
      snd (tick_named intl p w) = w)).
Proof.
  unfold tick_named. split.
  - intros ->. reflexivity.
  - intros tz ->. apply tick_completes.
Qed.

(** ** The request to the backend and the reading of its reply *)

(** [generateSummary] sends one request per call.  It goes to the
    Anthropic endpoint exactly when the configured provider is the string
    "anthropic"; every other provider string goes to the OpenAI endpoint.
    A rejected request and a response that is not ok make the call throw; a
    response that is ok gives its text, and the empty string when it has
    none. *)
Theorem generateSummary_dispatch (cfg : GroupArchiveConfig) (msgs : list MessageRow)
    (w : World) (t : string) :
  formatTranscript msgs = Ok t ->
  exists req,
    req_provider req = (if bool_decide (summary_provider cfg = "anthropic"%string)
                        then Anthropic else OpenAI) /\
    req_model req = summary_model cfg /\
    w_requests (snd (generateSummary cfg msgs w)) = w_requests w ++ [req] /\
    fst (generateSummary cfg msgs w)
    = match w_backend w (length (w_requests w)) req with
      | Rejected reason => Throw (BackendFailure reason)
      | Response false status body _ => Throw (ApiError status body)
      | Response true _ _ (Some text) => Ok text
      | Response true _ _ None => Ok EmptyString
      end.
Proof.
  intros Ht. unfold generateSummary, bind, lift. rewrite Ht.
  destruct (bool_decide (summary_provider cfg = "anthropic"%string));
    unfold generateWithAnthropic, generateWithOpenAI, bind, send_request;
    match goal with |- context [w_backend w ?k ?r] =>
      exists r; destruct (w_backend w k r) as [?|[] ? ? []] end;
    destruct w; repeat split; reflexivity.
Qed.

(** ** The lines of the transcript *)

Lemma slice_11_16 (s : string) : slice 11 16 s = String.substring 11 5 s.
Proof. reflexivity. Qed.

(** For a timestamp in the years 0 to 9999 the label of a transcript line
    is the UTC time of day of the message, hours and minutes in two digits:
    the configured timezone plays no part.  The sender is the push name
    when the row has one, the sender id otherwise. *)
Theorem format_line_utc_label (m : MessageRow) :
  valid_time (msg_timestamp m) = true ->
  0 <= year (civil_from_days (day_of (msg_timestamp m))) <= 9999 ->
  format_line m
  = Ok ("[" +:+ pad 2 (hour_of (msg_timestamp m)) +:+ ":"
        +:+ pad 2 (minute_of (msg_timestamp m)) +:+ "] "
        +:+ (match msg_sender_name m with Some n => n | None => msg_sender_id m end)
        +:+ ": " +:+ msg_content m).
Proof.
  intros Hvalid Hyear. unfold format_line, toISOString. rewrite Hvalid.
  replace ((0 <=? year (civil_from_days (day_of (msg_timestamp m))))
           && (year (civil_from_days (day_of (msg_timestamp m))) <=? 9999)) with true
    by (symmetry; apply andb_true_iff; rewrite !Z.leb_le; lia).
  cbv zeta. rewrite slice_11_16. reflexivity.
Qed.

(** ** The capture hook: what every stored message looks like *)

Lemma trimStart_fixed (c : ascii) (s : string) :
  is_space c = false -> trimStart (String c s) = String c s.
Proof. intros Hc. cbn [trimStart]. by rewrite Hc. Qed.

Lemma trimEnd_cons (c : ascii) (s : string) :
  trimEnd (String c s) =
  match trimEnd s with
  | EmptyString => if is_space c then EmptyString else String c EmptyString
  | String c' s' => String c (String c' s')
  end.
Proof. reflexivity. Qed.

Lemma trimEnd_idem (s : string) : trimEnd (trimEnd s) = trimEnd s.
Proof.
  induction s as [|c s IH]; [reflexivity|].
  rewrite trimEnd_cons. destruct (trimEnd s) as [|c' s'] eqn:Hs.
  - destruct (is_space c) eqn:Hc; [reflexivity|]. cbn [trimEnd]. by rewrite Hc.
  - rewrite trimEnd_cons, IH. reflexivity.
Qed.

Lemma trimEnd_keeps_head (c : ascii) (s : string) :
  is_space c = false -> exists s', trimEnd (String c s) = String c s'.
Proof.
  intros Hc. cbn [trimEnd]. destruct (trimEnd s); [rewrite Hc|]; eauto.
Qed.

Lemma trimStart_head (s : string) :
  trimStart s = EmptyString \/
  exists c s', trimStart s = String c s' /\ is_space c = false.
Proof.
  induction s as [|c s IH]; [by left|].
  cbn [trimStart]. destruct (is_space c) eqn:Hc; [exact IH|]. right. eauto.
Qed.

(** Trimming a trimmed string changes nothing. *)
Lemma trim_idem (s : string) : trim (trim s) = trim s.
Proof.
  unfold trim. destruct (trimStart_head s) as [-> | (c & s' & -> & Hc)]; [reflexivity|].
  destruct (trimEnd_keeps_head c s' Hc) as [s'' Hs]. rewrite Hs.
  rewrite trimStart_fixed by done. rewrite <- Hs. apply trimEnd_idem.
Qed.

(** The two ways of the capture hook: it leaves the world alone, or the
    event is a whatsapp group event with text. *)
Lemma createCaptureHandler_cases (ev : InboundEvent) (hc : HookCtx) (w : World) :
  createCaptureHandler ev hc w = (Ok tt, w) \/
  exists c raw,
    channelId hc = "whatsapp"%string /\ conversationId hc = Some c /\
    endsWith "@g.us" c = true /\ ev_content ev = Some raw /\ trim raw <> EmptyString.
Proof.
  unfold createCaptureHandler.
  destruct (bool_decide (channelId hc = "whatsapp"%string)) eqn:Hch; [|by left].
  apply bool_decide_eq_true in Hch. cbn [negb].
  destruct (conversationId hc) as [c|] eqn:Hconv; [|by left].
  destruct (endsWith "@g.us" c) eqn:Hends; [|by left]. cbn [negb].
  destruct (ev_content ev) as [raw|] eqn:Hraw; cbn [option_map truthy]; [|by left].
  destruct (bool_decide (trim raw = EmptyString)) eqn:Hblank; [by left|].
  apply bool_decide_eq_false in Hblank. right. exists c, raw. auto.
Qed.

Lemma w_db_after_embed_request (b : bool) (w : World) (queue : list (string * string)) :
  w_db (if b then set_embed_requests queue w else w) = w_db w.
Proof. destruct w. by destruct b. Qed.

Lemma w_db_after_insert (d : ArchiveDb) (n : nat) (w : World) :
  w_db (set_uuid_next n (set_db d w)) = d.
Proof. by destruct w. Qed.

(** The capture hook never throws and keeps the store well formed: after
    it, as before, every message belongs to a stored group whose id ends in
    "@g.us", has a content that is not empty and is trimmed, and the
    identities of the messages are unique. *)
Theorem createCaptureHandler_keeps_archive (ev : InboundEvent) (hc : HookCtx) (w : World) :
  archived_well (w_db w) -> keys_unique (w_db w) ->
  fst (createCaptureHandler ev hc w) = Ok tt /\
  archived_well (w_db (snd (createCaptureHandler ev hc w))) /\
  keys_unique (w_db (snd (createCaptureHandler ev hc w))).
Proof.
  intros Hwell Hkeys.
  destruct (createCaptureHandler_cases ev hc w)
    as [-> | (c & raw & Hch & Hconv & Hends & Hraw & Htext)]; [done|].
  rewrite (createCaptureHandler_ingests ev hc w c raw Hch Hconv Hends Hraw Htext).
  rewrite ingest_run by reflexivity.
  set (id := w_uuid w (w_uuid_next w)).
  set (msg := mkNewMessage c _ _ (trim raw) _ _).
  set (name := match ev_metadata ev with Some md => md_groupName md | None => None end).
  set (db' := with_messages (append_new_message (new_row id msg))
                (with_groups (sql_upsert_group c name (w_clock w)) (w_db w))).
  split; [reflexivity|]. cbn [snd]. rewrite w_db_after_embed_request, w_db_after_insert.
  split.
  - intros m Hm. subst db'. rewrite messages_with_messages, messages_with_groups in Hm.
    rewrite groups_with_messages. cbn [with_groups groups].
    assert (Hgroup : forall j, is_Some (groups (w_db w) !! j) \/ j = c ->
              is_Some (sql_upsert_group c name (w_clock w) (groups (w_db w)) !! j)).
    { intros j Hj. unfold sql_upsert_group.
      destruct (groups (w_db w) !! c) eqn:Hc;
        (destruct (decide (j = c)) as [->|Hne];
         [rewrite lookup_insert_eq; eauto
         |rewrite lookup_insert_ne by done; destruct Hj; [done|contradiction]]). }
    unfold append_new_message in Hm.
    destruct (bool_decide _) in Hm.
    + destruct (Hwell m Hm) as (Hg & He & Hc & Ht). auto.
    + apply elem_of_app in Hm as [Hm|Hm].
      * destruct (Hwell m Hm) as (Hg & He & Hc & Ht). auto.
      * apply list_elem_of_singleton in Hm. subst m.
        cbn [new_row msg_group_jid msg_content msg new_group_jid new_content].
        split; [apply Hgroup; by right|]. split; [exact Hends|].
        split; [exact Htext|apply trim_idem].
  - subst db'. unfold keys_unique. rewrite messages_with_messages, messages_with_groups.
    by apply append_new_message_keys.
Qed.

(** ** The suppress hook *)

(** The suppress hook cancels an outbound message exactly when it goes to a
    whatsapp conversation whose id ends in "@g.us", and logs one line then;
    otherwise it returns nothing and logs nothing.  Its guard is the one of
    the capture hook: whenever the capture hook archives an event (changes
    the world), replies to that conversation are cancelled. *)
Theorem createSuppressHandler_guard (hc : HookCtx) :
  (fst (createSuppressHandler hc) = Some (mkDecision true) <->
   channelId hc = "whatsapp"%string /\
   exists p, conversationId hc = Some (p +:+ "@g.us")) /\
  (fst (createSuppressHandler hc) = None -> snd (createSuppressHandler hc) = []) /\
  (forall ev w, createCaptureHandler ev hc w <> (Ok tt, w) ->
                fst (createSuppressHandler hc) = Some (mkDecision true)).
Proof.
  assert (Hiff : fst (createSuppressHandler hc) = Some (mkDecision true) <->
                 channelId hc = "whatsapp"%string /\
                 exists c, conversationId hc = Some c /\ endsWith "@g.us" c = true).
  { unfold createSuppressHandler.
    destruct (bool_decide (channelId hc = "whatsapp"%string)) eqn:Hch; cbn [negb].
    - apply bool_decide_eq_true in Hch.
      destruct (conversationId hc) as [c|]; [destruct (endsWith "@g.us" c) eqn:He|];
        cbn [negb fst]; split; try done.
      + eauto.
      + intros [_ (c' & [= <-] & He')]. congruence.
      + intros [_ (c' & Hc' & _)]. discriminate.
    - apply bool_decide_eq_false in Hch. cbn [fst]. split; [done|]. intros [? _]. done. }
  split; [|split].
  - rewrite Hiff. split.
    + intros [Hch (c & Hc & He)]. split; [done|].
      apply endsWith_spec in He as [p ->]. eauto.
    + intros [Hch (p & Hp)]. split; [done|]. exists (p +:+ "@g.us"). split; [done|].
      apply endsWith_spec. eauto.
  - unfold createSuppressHandler.
    destruct (negb (bool_decide _)); [done|].
    destruct (negb _); [done|]. discriminate.
  - intros ev w Hchange. apply Hiff.
    destruct (createCaptureHandler_cases ev hc w)
      as [Hsame | (c & raw & Hch & Hconv & Hends & _)]; [contradiction|eauto].
Qed.

(** ** The configured trigger time and the clock *)

Lemma pad_2 (n : Z) :
  pad 2 n = String (digit (n / 10)) (String (digit n) EmptyString).
Proof. reflexivity. Qed.

Lemma is_digit_digit (n : Z) : is_digit (digit n) = true.
Proof.
  unfold is_digit, digit. cbv zeta.
  pose proof (Z.mod_pos_bound n 10 ltac:(lia)) as Hn.
  rewrite nat_ascii_embedding by lia.
  apply andb_true_iff. rewrite !Nat.leb_le. lia.
Qed.

Lemma is_digit_inv (c : ascii) :
  is_digit c = true -> exists d, 0 <= d < 10 /\ c = digit d.
Proof.
  unfold is_digit. cbv zeta. rewrite andb_true_iff, !Nat.leb_le. intros [Hlo Hhi].
  exists (Z.of_nat (nat_of_ascii c - 48)). split; [lia|].
  unfold digit. rewrite Z.mod_small by lia. rewrite Nat2Z.id.
  replace (48 + (nat_of_ascii c - 48))%nat with (nat_of_ascii c) by lia.
  by rewrite ascii_nat_embedding.
Qed.

Lemma digit_inj (a b : Z) : digit a = digit b -> a mod 10 = b mod 10.
Proof.
  unfold digit. intros Heq. apply (f_equal nat_of_ascii) in Heq.
  pose proof (Z.mod_pos_bound a 10 ltac:(lia)).
  pose proof (Z.mod_pos_bound b 10 ltac:(lia)).
  rewrite !nat_ascii_embedding in Heq by lia. lia.
Qed.

Lemma pad_2_inj (a b : Z) :
  0 <= a < 100 -> 0 <= b < 100 -> pad 2 a = pad 2 b -> a = b.
Proof.
  intros Ha Hb. rewrite !pad_2. intros Heq.
  assert (H1 : digit (a / 10) = digit (b / 10)) by congruence.
  assert (H2 : digit a = digit b) by congruence.
  apply digit_inj in H1, H2. revert H1 H2. Z.div_mod_to_equations. lia.
Qed.

Lemma pad_2_digits (d1 d2 : Z) :
  0 <= d1 < 10 -> 0 <= d2 < 10 ->
  pad 2 (10 * d1 + d2) = String (digit d1) (String (digit d2) EmptyString).
Proof.
  intros H1 H2. rewrite pad_2. f_equal; [|f_equal].
  - f_equal. Z.div_mod_to_equations. lia.
  - unfold digit. do 3 f_equal. Z.div_mod_to_equations. lia.
Qed.

Lemma hm_string (h m : Z) :
  pad 2 h +:+ ":" +:+ pad 2 m
  = String (digit (h / 10)) (String (digit h) (String ":"
      (String (digit (m / 10)) (String (digit m) EmptyString)))).
Proof. reflexivity. Qed.

(** The strings the check accepts are the two-digit pairs "HH:MM", with
    any digits. *)
Lemma scheduledTime_ok_spec (s : string) :
  scheduledTime_ok s = true <->
  exists h m, 0 <= h < 100 /\ 0 <= m < 100 /\ s = pad 2 h +:+ ":" +:+ pad 2 m.
Proof.
  split.
  - destruct s as [|h1 [|h2 [|c [|m1 [|m2 [|? ?]]]]]]; try discriminate.
    cbn [scheduledTime_ok]. rewrite !andb_true_iff.
    intros [[[[Hh1 Hh2] Hc] Hm1] Hm2].
    apply Ascii.eqb_eq in Hc. subst c.
    apply is_digit_inv in Hh1 as (a1 & Ha1 & ->), Hh2 as (a2 & Ha2 & ->).
    apply is_digit_inv in Hm1 as (b1 & Hb1 & ->), Hm2 as (b2 & Hb2 & ->).
    exists (10 * a1 + a2), (10 * b1 + b2).
    split; [lia|]. split; [lia|].
    change (pad 2 (10 * a1 + a2) +:+ ":" +:+ pad 2 (10 * b1 + b2))
      with (pad 2 (10 * a1 + a2) +:+ String ":" (pad 2 (10 * b1 + b2))).
    rewrite !pad_2_digits by done. reflexivity.
  - intros (h & m & _ & _ & ->). rewrite hm_string. cbn [scheduledTime_ok].
    rewrite !is_digit_digit. reflexivity.
Qed.

Lemma hm_inj (h m h' m' : Z) :
  0 <= h < 100 -> 0 <= m < 100 -> 0 <= h' < 100 -> 0 <= m' < 100 ->
  pad 2 h +:+ ":" +:+ pad 2 m = pad 2 h' +:+ ":" +:+ pad 2 m' -> h = h' /\ m = m'.
Proof.
  intros Hh Hm Hh' Hm'. rewrite !hm_string. intros Heq.
  split; apply pad_2_inj; try done; rewrite !pad_2; congruence.
Qed.

Lemma clock_fields (t : Z) : 0 <= hour_of t < 24 /\ 0 <= minute_of t < 60.
Proof.
  unfold hour_of, minute_of, msPerDay, msPerHour, msPerMinute.
  split; Z.div_mod_to_equations; lia.
Qed.

(** Every reading of the scheduler's clock passes the check of the
    configuration: a trigger time the scheduler can meet is never refused. *)
Theorem parse_scheduledTime_accepts_clock (tz : Timezone) (t : Z) :
  parse_scheduledTime (Some (format_en_GB_hm tz t)) = inr (format_en_GB_hm tz t).
Proof.
  unfold parse_scheduledTime. cbv zeta.
  assert (Hok : scheduledTime_ok (format_en_GB_hm tz t) = true).
  { apply scheduledTime_ok_spec. unfold format_en_GB_hm. cbv zeta.
    pose proof (clock_fields (local_time tz t)) as [Hh Hm].
    exists (hour_of (local_time tz t)), (minute_of (local_time tz t)).
    split; [lia|]. split; [lia|reflexivity]. }
  by rewrite Hok.
Qed.

(** The check of the configuration looks at the shape of the trigger time
    only.  A time such as "24:00" or "12:60" (hour of 24 or more, or minute
    of 60 or more) is accepted, and with it no tick ever does anything, in
    any timezone and at any instant. *)
Theorem tick_never_fires_off_the_clock (cfg : GroupArchiveConfig) (h m : Z) (w : World) :
  0 <= h < 100 -> 0 <= m < 100 -> 24 <= h \/ 60 <= m ->
  scheduledTime cfg = pad 2 h +:+ ":" +:+ pad 2 m ->
  parse_scheduledTime (Some (scheduledTime cfg)) = inr (scheduledTime cfg) /\
  tick cfg w = (Ok tt, w).
Proof.
  intros Hh Hm Hoff Hcfg. split.
  - unfold parse_scheduledTime. cbv zeta.
    assert (Hok : scheduledTime_ok (scheduledTime cfg) = true)
      by (apply scheduledTime_ok_spec; eauto).
    by rewrite Hok.
  - apply tick_idle. rewrite Hcfg. unfold format_en_GB_hm. cbv zeta. intros Heq.
    pose proof (clock_fields (local_time (timezone cfg) (w_clock w))) as [Hh' Hm'].
    apply hm_inj in Heq; lia.
Qed.

(** ** Listing the groups *)

Global Instance by_last_message_desc_total : Total by_last_message_desc.
Proof.
  intros a b. unfold by_last_message_desc.
  destruct (grp_last_message a), (grp_last_message b); cbn; lia.
Qed.

Global Instance by_last_message_desc_trans : Transitive by_last_message_desc.
Proof.
  intros a b c. unfold by_last_message_desc.
  destruct (grp_last_message a), (grp_last_message b), (grp_last_message c); cbn; lia.
Qed.

Lemma elem_of_sql_select_groups (t : gmap string GroupRow) (row : GroupRow) :
  row ∈ sql_select_groups t <-> exists jid, t !! jid = Some row.
Proof.
  unfold sql_select_groups. rewrite merge_sort_Permutation, list_elem_of_fmap. split.
  - intros ([jid r] & -> & Hin). apply elem_of_map_to_list in Hin. eauto.
  - intros [jid Hjid]. exists (jid, row). split; [done|]. by apply elem_of_map_to_list.
Qed.

Lemma upsertGroup_run (jid : string) (name : option string) (w : World) :
  upsertGroup jid name w
  = (Ok tt, set_db (with_groups (sql_upsert_group jid name (w_clock w)) (w_db w)) w).
Proof. reflexivity. Qed.

(** When the clock is not behind the last message of any stored group, the
    group that [upsertGroup] has just touched leads the list of
    [listGroups]: the list holds exactly the rows of the table, in
    descending order of last message, its first row has the current time as
    its last message, and the row of the group is in it. *)
Theorem listGroups_latest_first (jid : string) (name : option string) (w : World) :
  (forall g row, groups (w_db w) !! g = Some row ->
                 last_message_le (grp_last_message row) (Some (w_clock w))) ->
  exists first rest,
    listGroups (snd (upsertGroup jid name w))
    = (Ok (first :: rest), snd (upsertGroup jid name w)) /\
    grp_last_message first = Some (w_clock w) /\
    StronglySorted by_last_message_desc (first :: rest) /\
    (forall row, row ∈ first :: rest <->
       exists g, groups (w_db (snd (upsertGroup jid name w))) !! g = Some row) /\
    (exists row, row ∈ first :: rest /\ grp_jid row = jid /\
                 grp_last_message row = Some (w_clock w)).
Proof.
  intros Hclock. unfold listGroups. rewrite upsertGroup_run. cbn [snd].
  rewrite w_db_set_db. cbn [with_groups groups].
  set (t := sql_upsert_group jid name (w_clock w) (groups (w_db w))).
  assert (Hrow : exists row, t !! jid = Some row /\ grp_jid row = jid /\
                             grp_last_message row = Some (w_clock w)).
  { subst t. unfold sql_upsert_group. destruct (groups (w_db w) !! jid);
      rewrite lookup_insert_eq; eauto. }
  assert (Hall : forall g row, t !! g = Some row ->
                   last_message_le (grp_last_message row) (Some (w_clock w))).
  { intros g row. subst t. unfold sql_upsert_group.
    destruct (groups (w_db w) !! jid) eqn:Hjid;
      (destruct (decide (g = jid)) as [->|Hne];
       [rewrite lookup_insert_eq; intros [= <-]; cbn; lia
       |rewrite lookup_insert_ne by done; apply Hclock]). }
  destruct Hrow as (row & Hlook & Hjid & Hlast).
  assert (Hin : row ∈ sql_select_groups t) by (apply elem_of_sql_select_groups; eauto).
  assert (Hsorted : StronglySorted by_last_message_desc (sql_select_groups t))
    by (apply StronglySorted_merge_sort; apply _).
  destruct (sql_select_groups t) as [|first rest] eqn:Hrows; [by apply elem_of_nil in Hin|].
  exists first, rest. split; [reflexivity|].
  assert (Hfirst : exists g, t !! g = Some first)
    by (apply elem_of_sql_select_groups; rewrite Hrows; apply list_elem_of_here).
  split; [|split; [exact Hsorted|split]].
  - destruct Hfirst as [g Hg]. apply Hall in Hg.
    apply elem_of_cons in Hin as [<-|Hin]; [exact Hlast|].
    apply StronglySorted_inv in Hsorted as [_ Hle].
    rewrite Forall_forall in Hle. specialize (Hle row Hin).
    unfold by_last_message_desc in Hle. rewrite Hlast in Hle.
    destruct (grp_last_message first) as [x|]; cbn in *; [f_equal; lia|done].
  - intros r. rewrite <- Hrows. apply elem_of_sql_select_groups.
  - eauto.
Qed.

(** ** The embedding client and the semantic search *)

Lemma embed_run (api : EmbeddingApi) (text : string) (w : World) :
  embed api text w =
  (match api (slice 0 EMBED_INPUT_LIMIT text) with
   | EmbedRejected reason => Throw (BackendFailure reason)
   | EmbedData [] => Throw (BackendFailure "OpenAI embeddings returned empty data")
   | EmbedData (vec :: _) => Ok vec
   end, w).
Proof.
  unfold embed. cbv zeta.
  destruct (api (slice 0 EMBED_INPUT_LIMIT text)) as [reason|[|vec data]]; reflexivity.
Qed.

(** Without the vector extension [semanticSearch] still sends the query to
    the embeddings endpoint first: it returns the empty list when the
    endpoint answers with a vector, and fails with the endpoint's failure
    (a rejected request, or an answer without data) otherwise.  The world is
    left as it was in each case. *)
Theorem semanticSearch_without_vectors (api : EmbeddingApi) (query : string)
    (opts : option SearchOpts) (w : World) :
  vecAvailable (w_db w) = false ->
  semanticSearch api query opts w =
  (match api (slice 0 EMBED_INPUT_LIMIT query) with
   | EmbedRejected reason => Throw (BackendFailure reason)
   | EmbedData [] => Throw (BackendFailure "OpenAI embeddings returned empty data")
   | EmbedData (_ :: _) => Ok []
   end, w).
Proof.
  intros Hoff. unfold semanticSearch, bind. cbv zeta. rewrite embed_run.
  destruct (api (slice 0 EMBED_INPUT_LIMIT query)) as [reason|[|vec data]]; try reflexivity.
  unfold searchSimilar, bind, get_world. by rewrite Hoff.
Qed.

(** With the vector extension, a store whose vectors have the configured
    width and an endpoint that answers the query with a vector of that
    width, [semanticSearch] without a limit returns the ten best candidates
    (fewer when there are fewer), ranked by descending score, and changes
    nothing. *)
Theorem semanticSearch_default_limit (api : EmbeddingApi) (query : string)
    (opts : option SearchOpts) (w : World) (vec : list number) (more : list (list number)) :
  vecAvailable (w_db w) = true -> widths_ok (w_db w) ->
  api (slice 0 EMBED_INPUT_LIMIT query) = EmbedData (vec :: more) ->
  vec <> [] -> Z.of_nat (length vec) = dims (w_db w) ->
  (forall o, opts = Some o -> opt_limit o = None) ->
  exists rows,
    semanticSearch api query opts w = (Ok rows, w) /\
    rows = take 10 (merge_sort by_score_desc
                      (map (score_row (vectorToBlob vec))
                         (search_candidates
                            (match opts with Some o => opt_groupJid o | None => None end)
                            (w_db w)))) /\
    (length rows <= 10)%nat /\
    StronglySorted by_score_desc rows.
Proof.
  intros Hon Hwid Hapi Hvec Hdim Hopts.
  eexists. split; [|split; [reflexivity|split]].
  - unfold semanticSearch, bind. cbv zeta. rewrite embed_run, Hapi.
    rewrite searchSimilar_run by done.
    replace (match opts with
             | Some o => match opt_limit o with Some l => l | None => 10 end
             | None => 10
             end) with 10
      by (destruct opts as [o|]; [by rewrite (Hopts o eq_refl)|done]).
    rewrite sql_limit_nonneg by lia. reflexivity.
  - rewrite length_take. lia.
  - match goal with |- StronglySorted _ (take ?n ?l) =>
      assert (Hsorted : StronglySorted by_score_desc l)
        by (apply StronglySorted_merge_sort; apply _);
      rewrite <- (take_drop n l) in Hsorted;
      by apply StronglySorted_app_1_l in Hsorted
    end.
Qed.

(** Only the first 8000 characters of a text reach the embeddings endpoint:
    two texts that agree on them are embedded alike, whatever follows. *)
Theorem embed_reads_8000_characters (api : EmbeddingApi) (common tail1 tail2 : string)
    (w : World) :
  strlen common = EMBED_INPUT_LIMIT ->
  embed api (common +:+ tail1) w = embed api (common +:+ tail2) w.
Proof.
  intros Hlen. rewrite !embed_run.
  assert (Hslice : forall tail, slice 0 EMBED_INPUT_LIMIT (common +:+ tail) = common).
  { intros tail. unfold slice, strlen, EMBED_INPUT_LIMIT in *.
    replace (Z.to_nat (8000 - 0)) with (String.length common) by lia.
    change (Z.to_nat 0) with 0%nat. clear Hlen.
    induction common as [|c common IH]; [by destruct tail|].
    rewrite append_cons. cbn [String.length String.substring]. by rewrite IH. }
  by rewrite !Hslice.
Qed.

(** ** Starting and stopping the scheduler *)

(** [stop] after [start] leaves the live timers as they were before
    [start], and no timer in [interval]. *)
Theorem stop_cancels_started_timer (scheduledTime tzName : string) (s : SchedulerState) :
  timers_fresh s ->
  live_timers (stop (start scheduledTime tzName s)) = live_timers s /\
  interval (stop (start scheduledTime tzName s)) = None /\
  timers_fresh (stop (start scheduledTime tzName s)).
Proof.
  intros Hfresh. unfold stop, start, setInterval, clearInterval. cbn.
  rewrite decide_False by (intros Hne; by apply Hne).
  assert (Hsame : filter (fun h' => h' <> next_timer s) (live_timers s) = live_timers s).
  { unfold timers_fresh in Hfresh. induction (live_timers s) as [|h l IH]; [done|].
    rewrite filter_cons_True.
    - f_equal. apply IH. intros h' Hh'. apply Hfresh. by apply list_elem_of_further.
    - specialize (Hfresh h (list_elem_of_here _ _)). lia. }
  split; [exact Hsame|]. split; [done|].
  intros h Hh. cbn in *. apply list_elem_of_filter in Hh as [_ Hh].
  specialize (Hfresh h Hh). lia.
Qed.

(** [start] overwrites [interval] without looking at it: a timer that is
    live when [start] is called, such as the one of an earlier [start] that
    no [stop] has followed, stays live through every later call of [start]
    and [stop]. *)
Theorem start_twice_leaks_timer (scheduledTime tzName : string) (s : SchedulerState)
    (h0 : nat) (calls : list SchedulerCall) :
  h0 ∈ live_timers s -> (h0 < next_timer s)%nat ->
  h0 ∈ live_timers (run_calls scheduledTime tzName (CallStart :: calls) s).
Proof.
  intros Hlive Hold. unfold run_calls. cbn [foldl].
  set (inv := fun s' : SchedulerState =>
                h0 ∈ live_timers s' /\ (h0 < next_timer s')%nat /\
                interval s' <> Some h0).
  assert (Hstart : forall s', h0 ∈ live_timers s' -> (h0 < next_timer s')%nat ->
                              inv (start scheduledTime tzName s')).
  { intros s' Hin Hlt. unfold inv, start, setInterval. cbn.
    split; [by apply list_elem_of_further|]. split; [lia|]. intros [= Heq]. lia. }
  assert (Hstep : forall c s', inv s' ->
            inv (match c with
                 | CallStart => start scheduledTime tzName s'
                 | CallStop => stop s'
                 end)).
  { intros [|] s' (Hin & Hlt & Hne); [by apply Hstart|].
    unfold inv, stop, clearInterval. destruct (interval s') as [h|] eqn:Hint; cbn.
    - split; [|split; [done|done]]. apply list_elem_of_filter. split; [congruence|done].
    - rewrite Hint. done. }
  assert (Hinv : forall s', inv s' ->
            inv (foldl (fun s c => match c with
                                   | CallStart => start scheduledTime tzName s
                                   | CallStop => stop s
                                   end) s' calls)).
  { induction calls as [|c calls IH]; intros s' Hs'; [exact Hs'|].
    cbn [foldl]. apply IH. by apply Hstep. }
  apply Hinv. by apply Hstart.
Qed.

(** ** The scheduler: every group of the day gets its summary *)

Lemma generateSummary_run (cfg : GroupArchiveConfig) (msgs : list MessageRow)
    (w : World) (t : string) :
  formatTranscript msgs = Ok t ->
  generateSummary cfg msgs w =
  let req := mkRequest (if bool_decide (summary_provider cfg = "anthropic"%string)
                        then Anthropic else OpenAI)
                       (summary_model cfg) (cap_transcript t) in
  (match w_backend w (length (w_requests w)) req with
   | Rejected reason => Throw (BackendFailure reason)
   | Response false status body _ => Throw (ApiError status body)
   | Response true _ _ (Some text) => Ok text
   | Response true _ _ None => Ok EmptyString
   end, set_requests (w_requests w ++ [req]) w).
Proof.
  intros Ht. unfold generateSummary, bind, lift. rewrite Ht. cbv zeta.
  destruct (bool_decide (summary_provider cfg = "anthropic"%string));
    unfold generateWithAnthropic, generateWithOpenAI, bind, send_request;
    match goal with |- context [w_backend w ?k ?r] =>
      destruct (w_backend w k r) as [?|[] ? ? []] end;
    reflexivity.
Qed.

Lemma sql_select_messages_subset (g : string) (s e : Z) (t : list MessageRow)
    (m : MessageRow) :
  m ∈ sql_select_messages g s e t -> m ∈ t.
Proof. rewrite elem_of_sql_select_messages. tauto. Qed.

Lemma sql_select_distinct_groups_nonempty (g : string) (s e : Z) (t : list MessageRow) :
  g ∈ sql_select_distinct_groups s e t -> sql_select_messages g s e t <> [].
Proof.
  rewrite elem_of_sql_select_distinct_groups. intros (m & Hin & Hg & Hr) Hnil.
  assert (Hm : m ∈ sql_select_messages g s e t)
    by (apply elem_of_sql_select_messages; tauto).
  rewrite Hnil in Hm. by apply elem_of_nil in Hm.
Qed.

Lemma elem_of_ids_after_insert (row : DailySummaryRow) (t : list DailySummaryRow)
    (id : string) :
  id ∈ map sum_id (replace_summary row t) ->
  id = sum_id row \/ id ∈ map sum_id t.
Proof.
  unfold replace_summary. rewrite map_app, elem_of_app. intros [Hin|Hin].
  - right. apply list_elem_of_fmap in Hin as (r & -> & Hr).
    apply list_elem_of_filter in Hr as [_ Hr]. apply list_elem_of_fmap. eauto.
  - left. cbn in Hin. by apply list_elem_of_singleton in Hin.
Qed.

(** One run of the pipeline in a world where nothing can fail: it returns
    a text, the world stays one where nothing can fail, the group has its
    summary, and the summaries of the date that were stored stay. *)
Lemma generateAndStoreSummary_ready (cfg : GroupArchiveConfig) (g : string)
    (d : CivilDate) (w : World) :
  pipeline_ready w ->
  sql_select_messages g (midnightUtcForDate d (timezone cfg))
    (midnightUtcForDate d (timezone cfg) + 86400000) (messages (w_db w)) <> [] ->
  (exists text, fst (generateAndStoreSummary cfg g d w) = Ok text) /\
  pipeline_ready (snd (generateAndStoreSummary cfg g d w)) /\
  messages (w_db (snd (generateAndStoreSummary cfg g d w))) = messages (w_db w) /\
  is_Some (sql_get_summary g d
             (daily_summaries (w_db (snd (generateAndStoreSummary cfg g d w))))) /\
  (forall g', is_Some (sql_get_summary g' d (daily_summaries (w_db w))) ->
     is_Some (sql_get_summary g' d
                (daily_summaries (w_db (snd (generateAndStoreSummary cfg g d w)))))).
Proof.
  intros (Hback & Hvalid & [Hinj Hfresh] & Hknown) Hmsgs.
  destruct (sql_get_summary g d (daily_summaries (w_db w))) as [row|] eqn:Hrow.
  { rewrite (generateAndStoreSummary_hit cfg g d w row Hrow). cbn [fst snd].
    split; [eauto|]. destruct w. cbn in *. rewrite Hrow.
    split; [|split; [done|split; [eauto|done]]].
    split; [exact Hback|]. split; [exact Hvalid|]. split; [|exact Hknown].
    split; [exact Hinj|exact Hfresh]. }
  destruct (sql_select_messages g (midnightUtcForDate d (timezone cfg))
              (midnightUtcForDate d (timezone cfg) + 86400000) (messages (w_db w)))
    as [|m rest] eqn:Hsel; [done|].
  assert (Hm : m ∈ messages (w_db w) /\ msg_group_jid m = g).
  { assert (Hin : m ∈ m :: rest) by apply list_elem_of_here.
    rewrite <- Hsel in Hin. apply elem_of_sql_select_messages in Hin. tauto. }
  assert (Hgroup : is_Some (groups (w_db w) !! g)).
  { destruct Hm as [Hin <-]. by apply Hknown. }
  assert (Hall : forallb (fun m => valid_time (msg_timestamp m)) (m :: rest) = true).
  { apply forallb_forall. intros m' Hin. apply Hvalid.
    apply (sql_select_messages_subset g (midnightUtcForDate d (timezone cfg))
             (midnightUtcForDate d (timezone cfg) + 86400000)).
    rewrite Hsel. by apply list_elem_of_In. }
  destruct (formatTranscript_total _ Hall) as [t Ht].
  rewrite (generateAndStoreSummary_generate cfg g d w m rest Hrow Hsel). cbv zeta.
  rewrite (generateSummary_run cfg (m :: rest) _ t Ht). cbv zeta.
  set (req := mkRequest _ _ _).
  assert (Hreply : exists text,
            match w_backend w (length (w_requests w)) req with
            | Rejected reason => Throw (BackendFailure reason)
            | Response false status body _ => Throw (ApiError status body)
            | Response true _ _ (Some text) => Ok text
            | Response true _ _ None => Ok EmptyString
            end = Ok text).
  { destruct (Hback (length (w_requests w)) req) as (status & body & text & ->).
    destruct text; eauto. }
  destruct Hreply as [text Hreply].
  destruct w as [db clock uuid next backend requests embeds log lrd calls].
  cbn in Hback, Hvalid, Hinj, Hfresh, Hknown, Hrow, Hsel, Hreply, Hgroup |- *.
  rewrite Hreply. cbn. rewrite (bool_decide_eq_true_2 _ Hgroup). cbn.
  set (row := mkSummary (uuid next) g d text _ clock).
  split; [eauto|]. split; [|split; [done|split]].
  - split; [exact Hback|]. split; [exact Hvalid|]. split; [|exact Hknown]. split.
    + intros j k Hj Hk. world_simpl. apply Hinj; lia.
    + intros k Hk Hin. world_simpl. cbn in Hin.
      apply elem_of_ids_after_insert in Hin as [Heq|Hin].
      * cbn in Heq. apply Hinj in Heq; lia.
      * revert Hin. apply Hfresh. lia.
  - change g with (sum_group_jid row) at 1. change d with (sum_date row) at 1.
    rewrite sql_get_summary_after_insert. eauto.
  - intros g' Hsome. destruct (decide (g' = g)) as [->|Hne].
    + rewrite Hrow in Hsome. by destruct Hsome.
    + rewrite sql_get_summary_other_key; [exact Hsome| |].
      * unfold summary_key. cbn. congruence.
      * cbn. apply Hfresh. lia.
Qed.

Lemma summarize_groups_ready (cfg : GroupArchiveConfig) (d : CivilDate)
    (groupJids : list string) (w : World) :
  pipeline_ready w ->
  (forall g, g ∈ groupJids ->
     sql_select_messages g (midnightUtcForDate d (timezone cfg))
       (midnightUtcForDate d (timezone cfg) + 86400000) (messages (w_db w)) <> []) ->
  forall g,
    g ∈ groupJids \/ is_Some (sql_get_summary g d (daily_summaries (w_db w))) ->
    is_Some (sql_get_summary g d
               (daily_summaries (w_db (snd (summarize_groups cfg d groupJids w))))).
Proof.
  revert w. induction groupJids as [|g0 rest IH]; intros w Hready Hmsgs g Hg.
  - destruct Hg as [Hg|Hg]; [by apply elem_of_nil in Hg|exact Hg].
  - rewrite summarize_groups_cons.
    destruct (generateAndStoreSummary_ready cfg g0 d w Hready)
      as ([text Hok] & Hready1 & Hsame & Hdone & Hkept).
    { apply Hmsgs. apply list_elem_of_here. }
    destruct (generateAndStoreSummary cfg g0 d w) as [[text'|e] w1];
      cbn [fst snd] in *; [|discriminate].
    apply IH; [exact Hready1| |].
    + intros g' Hg'. rewrite Hsame. apply Hmsgs. by apply list_elem_of_further.
    + destruct Hg as [Hg|Hg].
      * apply elem_of_cons in Hg as [->|Hg]; [right; exact Hdone|left; exact Hg].
      * right. by apply Hkept.
Qed.

(** The day of a date, in a timezone with a fixed offset: the instants of
    the window the pipeline computes are the instants whose local date is
    the date. *)
Lemma day_window_fixed (z off t : Z) :
  ~ (0 <= year (civil_from_days z) <= 99) ->
  off mod 1000 = 0 -> -26 * msPerHour <= off < 26 * msPerHour ->
  (format_en_CA_date (fixed_offset off) t = civil_from_days z <->
   midnightUtcForDate (civil_from_days z) (fixed_offset off) <= t
   < midnightUtcForDate (civil_from_days z) (fixed_offset off) + 86400000).
Proof.
  intros Hyear Hsec Hoff.
  assert (Hdate : civil_from_days (day_number (civil_from_days z)) = civil_from_days z)
    by (by rewrite day_number_civil_from_days).
  rewrite (midnightUtcForDate_fixed_run _ off Hdate (civil_from_days_month z))
    by (done || lia).
  rewrite (format_en_CA_date_fixed _ off t Hdate). unfold msPerDay. lia.
Qed.

(** When a tick fires in a timezone with a fixed offset, on a date whose
    year has four digits, and in a world where nothing can fail (the
    backends answer every request, every stored timestamp is a valid time
    value, the identities still to be drawn are new, every message belongs
    to a stored group), it leaves a summary of yesterday for every group
    that has a message whose local date is yesterday. *)
Theorem tick_summarizes_every_group (cfg : GroupArchiveConfig) (off : Z) (w : World) :
  let yesterday := format_en_CA_date (timezone cfg) (w_clock w - 86400000) in
  timezone cfg = fixed_offset off ->
  off mod 1000 = 0 -> -26 * msPerHour <= off < 26 * msPerHour ->
  1000 <= year yesterday <= 9999 ->
  format_en_GB_hm (timezone cfg) (w_clock w) = scheduledTime cfg ->
  w_lastRunDate w <> Some yesterday ->
  pipeline_ready w ->
  forall g m,
    m ∈ messages (w_db w) -> msg_group_jid m = g ->
    format_en_CA_date (timezone cfg) (msg_timestamp m) = yesterday ->
    is_Some (sql_get_summary g yesterday (daily_summaries (w_db (snd (tick cfg w))))).
Proof.
  intros yesterday Htz Hsec Hoff Hyear Htime Hnew Hready g m Hin Hg Hlocal.
  rewrite (tick_fires cfg w Htime Hnew). cbn [snd].
  fold yesterday.
  set (dayStart := midnightUtcForDate yesterday (timezone cfg)).
  set (groupJids := sql_select_distinct_groups dayStart (dayStart + 86400000)
                      (messages (w_db w))).
  set (w0 := set_log _ (set_lastRunDate (Some yesterday) w)).
  assert (Hdb0 : w_db w0 = w_db w) by (subst w0; by destruct w).
  assert (Hready0 : pipeline_ready w0) by (subst w0; destruct w; exact Hready).
  assert (Hrange : dayStart <= msg_timestamp m < dayStart + 86400000).
  { subst dayStart. revert Hlocal Hyear. subst yesterday.
    rewrite Htz, yesterday_fixed. intros Hlocal Hyear.
    apply day_window_fixed; [lia|done|done|exact Hlocal]. }
  assert (Hmem : g ∈ groupJids).
  { subst groupJids. apply elem_of_sql_select_distinct_groups. exists m. auto. }
  pose proof (summarize_groups_ready cfg yesterday groupJids w0 Hready0) as Hloop.
  rewrite w_db_set_log. apply Hloop; [|by left].
  intros g' Hg'. rewrite Hdb0.
  by apply sql_select_distinct_groups_nonempty.
Qed.

(** In a timezone with a fixed offset, for a date of the calendar whose
    year has four digits: with no stored summary and no message of the
    group whose local date is the date, the pipeline returns the empty
    string, sends nothing to the backend and leaves the store as it is, so
    that [getSummary] for the key still finds nothing. *)
Theorem empty_day_stores_nothing_fixed_offset (cfg : GroupArchiveConfig) (off : Z)
    (g : string) (d : CivilDate) (w : World) :
  timezone cfg = fixed_offset off ->
  off mod 1000 = 0 -> -26 * msPerHour <= off < 26 * msPerHour ->
  valid_date d = true -> 1000 <= year d <= 9999 ->
  sql_get_summary g d (daily_summaries (w_db w)) = None ->
  (forall m, m ∈ messages (w_db w) -> msg_group_jid m = g ->
             format_en_CA_date (timezone cfg) (msg_timestamp m) <> d) ->
  exists w', generateAndStoreSummary cfg g d w = (Ok EmptyString, w') /\
             w_db w' = w_db w /\ w_requests w' = w_requests w /\
             getSummary g d w' = (Ok None, w').
Proof.
  intros Htz Hsec Hoff Hvalid Hyear Hrow Hnone.
  assert (Hmsgs : sql_select_messages g (midnightUtcForDate d (timezone cfg))
                    (midnightUtcForDate d (timezone cfg) + 86400000) (messages (w_db w))
                  = []).
  { destruct (sql_select_messages _ _ _ _) as [|m rest] eqn:Hsel; [reflexivity|].
    assert (Hin : m ∈ m :: rest) by apply list_elem_of_here.
    rewrite <- Hsel in Hin. apply elem_of_sql_select_messages in Hin as (Hm & Hg & Hr).
    exfalso. apply (Hnone m Hm Hg). revert Hr. rewrite Htz.
    rewrite <- (civil_from_days_day_number d Hvalid).
    intros Hr. apply day_window_fixed; [|done|done|exact Hr].
    rewrite (civil_from_days_day_number d Hvalid). lia. }
  eexists. split; [by apply generateAndStoreSummary_empty_day|].
  unfold getSummary. destruct w; cbn in *. rewrite Hrow. auto.
Qed.

(** ** The capture hook, the counters and the stored summaries *)

Lemma createCaptureHandler_db (ev : InboundEvent) (hc : HookCtx) (w : World) :
  createCaptureHandler ev hc w = (Ok tt, w) \/
  exists c name msg,
    new_group_jid msg = c /\
    w_db (snd (createCaptureHandler ev hc w))
    = with_messages
        (append_new_message (new_row (w_uuid w (w_uuid_next w)) msg))
        (with_groups (sql_upsert_group c name (w_clock w)) (w_db w)).
Proof.
  destruct (createCaptureHandler_cases ev hc w)
    as [Hsame | (c & raw & Hch & Hconv & Hends & Hraw & Htext)]; [by left|].
  right. rewrite (createCaptureHandler_ingests ev hc w c raw Hch Hconv Hends Hraw Htext).
  rewrite ingest_run by reflexivity. cbn [snd].
  rewrite w_db_after_embed_request, w_db_after_insert.
  eexists c, _, (mkNewMessage c _ _ _ _ _). split; reflexivity.
Qed.

Lemma createCaptureHandler_requests (ev : InboundEvent) (hc : HookCtx) (w : World) :
  w_requests (snd (createCaptureHandler ev hc w)) = w_requests w.
Proof.
  destruct (createCaptureHandler_cases ev hc w)
    as [-> | (c & raw & Hch & Hconv & Hends & Hraw & Htext)]; [done|].
  rewrite (createCaptureHandler_ingests ev hc w c raw Hch Hconv Hends Hraw Htext).
  rewrite ingest_run by reflexivity. destruct w. cbn. by destruct (vecAvailable _).
Qed.

Lemma group_messages_after_insert (jid : string) (row : MessageRow) (d : ArchiveDb) :
  group_messages jid (with_messages (append_new_message row) d)
  = group_messages jid d ++
    (if bool_decide (msg_id row ∈ map msg_id (messages d)) then []
     else if bool_decide (msg_group_jid row = jid) then [row] else []).
Proof.
  unfold group_messages. rewrite messages_with_messages.
  unfold append_new_message.
  destruct (bool_decide (msg_id row ∈ map msg_id (messages d))); [by rewrite app_nil_r|].
  rewrite filter_app. f_equal.
  destruct (bool_decide (msg_group_jid row = jid)) eqn:Hg.
  - apply bool_decide_eq_true in Hg. by rewrite filter_cons_True.
  - apply bool_decide_eq_false in Hg. by rewrite filter_cons_False.
Qed.

(** The counter of a group never falls behind its stored messages: the
    capture hook keeps every counter at or above the number of stored
    messages of its group, and keeps them equal as long as the identity it
    draws is not the identity of a stored message. *)
Theorem createCaptureHandler_counter (ev : InboundEvent) (hc : HookCtx) (w : World) :
  counter_covers (w_db w) ->
  counter_covers (w_db (snd (createCaptureHandler ev hc w))) /\
  (counter_exact (w_db w) ->
   w_uuid w (w_uuid_next w) ∉ map msg_id (messages (w_db w)) ->
   counter_exact (w_db (snd (createCaptureHandler ev hc w)))).
Proof.
  intros Hcov.
  destruct (createCaptureHandler_db ev hc w) as [-> | (c & name & msg & Hgrp & ->)];
    [by split|].
  set (row := new_row (w_uuid w (w_uuid_next w)) msg).
  assert (Hrow : msg_group_jid row = c) by exact Hgrp.
  assert (Hid : msg_id row = w_uuid w (w_uuid_next w)) by reflexivity.
  assert (Hmsgs : forall jid,
            group_messages jid (with_groups (sql_upsert_group c name (w_clock w)) (w_db w))
            = group_messages jid (w_db w)) by reflexivity.
  assert (Hsame : messages (with_groups (sql_upsert_group c name (w_clock w)) (w_db w))
                  = messages (w_db w)) by reflexivity.
  split.
  - intros jid. rewrite group_messages_after_insert, message_count_with_messages.
    rewrite Hmsgs, Hsame, length_app. specialize (Hcov jid).
    destruct (decide (jid = c)) as [->|Hne].
    + rewrite message_count_after_upsert.
      destruct (bool_decide _); [cbn [length]; lia|].
      destruct (bool_decide _); cbn [length]; lia.
    + rewrite message_count_other_group by done.
      destruct (bool_decide _); [cbn [length]; lia|].
      rewrite bool_decide_eq_false_2 by congruence. cbn [length]. lia.
  - intros Hexact Hfresh jid.
    rewrite group_messages_after_insert, message_count_with_messages.
    rewrite Hmsgs, Hsame, length_app. specialize (Hexact jid).
    rewrite (bool_decide_eq_false_2 (msg_id row ∈ _)) by (rewrite Hid; exact Hfresh).
    destruct (decide (jid = c)) as [->|Hne].
    + rewrite message_count_after_upsert.
      rewrite bool_decide_eq_true_2 by done. cbn [length]. lia.
    + rewrite message_count_other_group by done.
      rewrite bool_decide_eq_false_2 by congruence. cbn [length]. lia.
Qed.

Lemma capture_each_frame (events : list (InboundEvent * HookCtx)) (w : World) :
  daily_summaries (w_db (capture_each events w)) = daily_summaries (w_db w) /\
  w_requests (capture_each events w) = w_requests w.
Proof.
  revert w. induction events as [|[ev hc] events IH]; intros w; [done|].
  unfold capture_each in *. cbn [foldl fst snd].
  destruct (IH (snd (createCaptureHandler ev hc w))) as [-> ->].
  split; [|apply createCaptureHandler_requests].
  destruct (createCaptureHandler_db ev hc w) as [-> | (c & name & msg & _ & ->)]; done.
Qed.

(** A stored summary is final.  Whatever the capture hook archives after
    a summary was stored for a group and a date, the pipeline answers with
    the stored text for that key: it sends no request to a backend and
    leaves the store as it is, so messages that arrive later never reach
    the summary. *)
Theorem stored_summary_is_final (cfg : GroupArchiveConfig) (g : string) (d : CivilDate)
    (row : DailySummaryRow) (events : list (InboundEvent * HookCtx)) (w : World) :
  sql_get_summary g d (daily_summaries (w_db w)) = Some row ->
  fst (generateAndStoreSummary cfg g d (capture_each events w)) = Ok (sum_summary_text row) /\
  w_db (snd (generateAndStoreSummary cfg g d (capture_each events w)))
  = w_db (capture_each events w) /\
  w_requests (snd (generateAndStoreSummary cfg g d (capture_each events w)))
  = w_requests w.
Proof.
  intros Hrow. destruct (capture_each_frame events w) as [Hsum Hreq].
  rewrite (generateAndStoreSummary_hit cfg g d (capture_each events w) row)
    by (by rewrite Hsum).
  cbn [fst snd]. split; [done|]. rewrite <- Hreq.
  destruct (capture_each events w). done.
Qed.

End Properties.

(** * Instances of the statements on concrete data *)

(** ** Renderings of time values *)

Example toISOString_epoch :
  toISOString 1718409600123 = Ok "2024-06-15T00:00:00.123Z"%string.
Proof. reflexivity. Qed.

Example calendar_samples :
  day_number (mkDate 1970 1 1) = 0 /\
  day_number (mkDate 1969 12 31) = -1 /\
  day_number (mkDate 2000 2 29) = 11016 /\
  civil_from_days 19782 = mkDate 2024 2 29 /\
  civil_from_days (-719468) = mkDate 0 3 1 /\
  valid_date (mkDate 2023 2 29) = false /\
  valid_date (mkDate 2024 2 29) = true.
Proof. vm_compute. repeat split; reflexivity. Qed.

Example toISOString_far :
  toISOString 253402300800000 = Ok "+010000-01-01T00:00:00.000Z"%string.
Proof. reflexivity. Qed.

Lemma capture_skips_unarchived_events_witness :
  createCaptureHandler blank_event group_ctx (quiet_world true 0)
  = (Ok tt, quiet_world true 0).
Proof.
  apply (@capture_skips_unarchived_events Z_ops).
  left. reflexivity.
Defined.

Lemma ingest_one_row_per_identity_witness :
  exists w' : World,
    ingest "g1@g.us" None (mkNewMessage "g1@g.us" "alice" None "hi" 5 None)
      three_groups_world = (Ok "000"%string, w') /\
    rows_with_id "000" (w_db w')
    = [mkMessage "000" "g1@g.us" "alice" None "hi" 5 None] /\
    message_count_of "g1@g.us" (w_db w')
    = message_count_of "g1@g.us" (w_db three_groups_world) + 1 /\
    sql_insert_or_ignore_message (groups (w_db w'))
      (mkMessage "000" "g1@g.us" "bob" None "again" 6 None) (messages (w_db w'))
    = Ok (messages (w_db w')).
Proof.
  destruct (@ingest_one_row_per_identity Z_ops three_groups_world "g1@g.us" None
              (mkNewMessage "g1@g.us" "alice" None "hi" 5 None))
    as (w' & Hrun & _ & Hrows & _ & Hcount & _ & Hagain).
  - apply (bool_decide_unpack _). vm_compute. exact I.
  - reflexivity.
  - apply (bool_decide_unpack _). vm_compute. exact I.
  - exists w'. split; [exact Hrun|]. split; [exact Hrows|]. split; [exact Hcount|].
    apply (Hagain (mkNewMessage "g1@g.us" "bob" None "again" 6 None)).
    replace w' with (snd (ingest (H := Z_ops) "g1@g.us" None
                            (mkNewMessage "g1@g.us" "alice" None "hi" 5 None)
                            three_groups_world)) by (by rewrite Hrun).
    apply (bool_decide_unpack _). vm_compute. exact I.
Defined.

(** C6. The statement of [insertEmbedding] says INSERT OR REPLACE, and the
    vec0 table does not replace: a second vector for a message that has one
    is refused with a UNIQUE constraint error, and the first vector stays. *)
Theorem insertEmbedding_second_write_throws :
  let w1 := snd (insertEmbedding (H := Z_ops) "m1" [1; 2; 3] (quiet_world true 0)) in
  insertEmbedding (H := Z_ops) "m1" [1; 2; 3] (quiet_world true 0) = (Ok tt, w1) /\
  message_embeddings (w_db w1) !! "m1"%string = Some [1; 2; 3] /\
  Z.of_nat (length [4; 5; 6]) = dims (w_db w1) /\
  insertEmbedding (H := Z_ops) "m1" [4; 5; 6] w1 = (Throw UniqueConstraintFailed, w1) /\
  message_embeddings (w_db (snd (insertEmbedding (H := Z_ops) "m1" [4; 5; 6] w1)))
    !! "m1"%string = Some [1; 2; 3].
Proof. vm_compute. repeat split; reflexivity. Qed.

Lemma insertEmbedding_outcomes_witness :
  insertEmbedding (H := Z_ops) "m1" [1; 2] (quiet_world false 0) = (Ok tt, quiet_world false 0) /\
  insertEmbedding (H := Z_ops) "m1" [1; 2] (quiet_world true 0)
  = (Throw (DimensionMismatch 3 2), quiet_world true 0) /\
  (exists w', insertEmbedding (H := Z_ops) "m1" [1; 2; 3] (quiet_world true 0) = (Ok tt, w') /\
     message_embeddings (w_db w') !! "m1"%string = Some [1; 2; 3]) /\
  insertEmbedding (H := Z_ops) "a" [0; 0; 1] search_world
  = (Throw UniqueConstraintFailed, search_world).
Proof.
  split; [|split; [|split]].
  - apply (proj1 (@insertEmbedding_outcomes Z_ops (quiet_world false 0) "m1" [1; 2])).
    reflexivity.
  - apply (proj1 (proj2 (@insertEmbedding_outcomes Z_ops (quiet_world true 0) "m1" [1; 2]))).
    + reflexivity.
    + cbn. lia.
  - destruct (proj1 (proj2 (proj2 (@insertEmbedding_outcomes Z_ops (quiet_world true 0) "m1"
                              [1; 2; 3]))) eq_refl eq_refl) as (w' & Hrun & Hnew & _).
    + reflexivity.
    + exists w'. split; [exact Hrun | exact Hnew].
  - apply (proj2 (proj2 (proj2 (@insertEmbedding_outcomes Z_ops search_world "a"
                                  [0; 0; 1]))) eq_refl eq_refl [1; 0; 0]).
    vm_compute. reflexivity.
Defined.




(** The retry of a failed generation: when the backend rejects the request
    of a call, nothing is stored, and the next call sends a request again. *)
Example failed_generation_is_retried :
  let r1 := generateAndStoreSummary (demo_config (fixed_offset 0)) "g1@g.us" june15
              (day_world rejecting) in
  let r2 := generateAndStoreSummary (demo_config (fixed_offset 0)) "g1@g.us" june15
              (snd r1) in
  fst r1 = Throw (BackendFailure "timeout") /\
  fst r2 = Throw (BackendFailure "timeout") /\
  length (w_requests (day_world rejecting)) = 0%nat /\
  length (w_requests (snd r2)) = 2%nat.
Proof. vm_compute. auto. Qed.

(** C4. For 6 October 2024 in Sydney the group has no message: its only
    message came at 23:30 local time on 5 October, half an hour before the
    date starts at 2024-10-05T14:00Z; no summary is stored.  The window of
    the pipeline starts an hour early, at 13:00Z, and takes the message in:
    the pipeline sends a request to the backend, returns its text and
    stores a summary of one message for the date. *)
Theorem empty_day_summarized_at_dst_start :
  let cfg := demo_config sydney in
  let d := mkDate 2024 10 6 in
  let r := generateAndStoreSummary cfg "g1@g.us" d sydney_world in
  messages (w_db sydney_world)
  = [mkMessage "a" "g1@g.us" "alice" None "good night" 1728135000000 None] /\
  format_en_CA_date sydney 1728135000000 = mkDate 2024 10 5 /\
  format_en_CA_date sydney 1728136800000 = d /\
  local_time sydney 1728136800000 mod msPerDay = 0 /\
  format_en_CA_date sydney (1728136800000 - 1) = mkDate 2024 10 5 /\
  1728135000000 < 1728136800000 /\
  sql_get_summary "g1@g.us" d (daily_summaries (w_db sydney_world)) = None /\
  midnightUtcForDate d sydney = 1728133200000 /\
  fst r = Ok "summary"%string /\
  length (w_requests sydney_world) = 0%nat /\
  length (w_requests (snd r)) = 1%nat /\
  sql_get_summary "g1@g.us" d (daily_summaries (w_db (snd r)))
  = Some (mkSummary "000" "g1@g.us" d "summary" 1 1728300000000).
Proof. vm_compute. repeat split; reflexivity. Qed.

Lemma generateSummary_caps_transcript_witness :
  exists t req,
    formatTranscript long_day = Ok t /\
    strlen t > 100000 /\
    w_requests (snd (generateSummary (H := Z_ops) (demo_config (fixed_offset 0))
                       long_day (quiet_world false 0))) = [req] /\
    strlen (req_transcript req) = 100030 /\
    endsWith (String "010"%char (String "010"%char "[...transcript truncated...]"))
             (req_transcript req) = true.
Proof.
  destruct (@generateSummary_caps_transcript Z_ops (demo_config (fixed_offset 0))
              long_day (quiet_world false 0))
    as (t & req & Ht & Hreq & Hlong & _).
  - vm_compute. reflexivity.
  - assert (Hlen : match formatTranscript long_day with
                   | Ok t' => strlen t' >? 100000
                   | Throw _ => false
                   end = true) by (vm_compute; reflexivity).
    rewrite Ht in Hlen. apply Z.gtb_gt in Hlen.
    destruct (Hlong Hlen) as (Hbound & Hends & _).
    exists t, req. split; [exact Ht|]. split; [exact Hlen|].
    split; [exact Hreq|]. split; [exact Hbound|exact Hends].
Defined.

Lemma tick_isolates_group_failures_witness :
  exists w',
    tick (demo_config (fixed_offset 0)) three_groups_world = (Ok tt, w') /\
    w_lastRunDate w' = Some june15 /\
    w_pipeline_calls w'
    = [("g1@g.us"%string, june15); ("g2@g.us"%string, june15); ("g3@g.us"%string, june15)] /\
    WarnSummaryFailed "g2@g.us" (BackendFailure "timeout") ∈ w_log w'.
Proof.
  destruct (@tick_isolates_group_failures Z_ops (demo_config (fixed_offset 0))
              three_groups_world) as (w' & Hrun & Hdate & Hcalls & Hlogged).
  - vm_compute. reflexivity.
  - discriminate.
  - exists w'. split; [exact Hrun|]. split; [exact Hdate|]. split; [exact Hcalls|].
    apply (Hlogged ["g1@g.us"%string] "g2@g.us"%string ["g3@g.us"%string]).
    + vm_compute. reflexivity.
    + vm_compute. reflexivity.
Defined.

(** ** Day boundaries *)

(** The example of the specification: UTC+2 and 2024-06-15. *)
Example day_range_utc_plus_2 :
  midnightUtcForDate june15 utc_plus_2 = 1718402400000 /\
  toISOString 1718402400000 = Ok "2024-06-14T22:00:00.000Z"%string /\
  toISOString (1718402400000 + 86400000) = Ok "2024-06-15T22:00:00.000Z"%string.
Proof. vm_compute. auto. Qed.

Lemma midnightUtcForDate_fixed_offset_witness :
  midnightUtcForDate june15 (fixed_offset 7200000) = day_number june15 * msPerDay - 7200000 /\
  format_en_CA_date (fixed_offset 7200000)
    (midnightUtcForDate june15 (fixed_offset 7200000)) = june15 /\
  local_time (fixed_offset 7200000)
    (midnightUtcForDate june15 (fixed_offset 7200000)) mod msPerDay = 0.
Proof.
  apply midnightUtcForDate_fixed_offset.
  - reflexivity.
  - cbn. lia.
  - reflexivity.
  - unfold msPerHour. lia.
Defined.

(** C2. On a day on which the offset changes before the first candidate of
    the search, the resolver misses the local midnight: for 6 October 2024
    in Sydney it returns 2024-10-05T13:00Z, which is 23:00 local time on
    5 October, while the date starts at 2024-10-05T14:00Z. *)
Theorem midnightUtcForDate_sydney_dst_start :
  midnightUtcForDate (mkDate 2024 10 6) sydney = 1728133200000 /\
  toISOString 1728133200000 = Ok "2024-10-05T13:00:00.000Z"%string /\
  format_en_CA_date sydney 1728133200000 = mkDate 2024 10 5 /\
  hour_of (local_time sydney 1728133200000) = 23 /\
  format_en_CA_date sydney (1728136800000 - 1) = mkDate 2024 10 5 /\
  format_en_CA_date sydney 1728136800000 = mkDate 2024 10 6 /\
  local_time sydney 1728136800000 mod msPerDay = 0 /\
  toISOString 1728136800000 = Ok "2024-10-05T14:00:00.000Z"%string.
Proof. vm_compute. repeat split; reflexivity. Qed.

(** ** The once-a-day guard *)

(** C5. With the trigger at 00:00 in New York, the tick of 10 March 2024
    (00:00:30 local, 05:00:30Z) handles 9 March.  The clocks go forward at
    02:00, so the tick of 11 March (00:00:30 local, 04:00:30Z) is 23 hours
    later: the date 24 hours before it is again 9 March, and the tick does
    nothing.  The tick of 12 March handles 11 March: the scheduler never
    runs the pipeline for 10 March, a day with a message. *)
Theorem tick_skips_day_after_dst_start :
  let cfg := demo_config new_york in
  let t1 := 1710046830000 in
  let t2 := 1710129630000 in
  let t3 := 1710216030000 in
  let w1 := snd (tick cfg ny_world) in
  let w2 := snd (tick cfg (set_clock t2 w1)) in
  let w3 := snd (tick cfg (set_clock t3 w2)) in
  w_clock ny_world = t1 /\
  format_en_GB_hm new_york t1 = scheduledTime cfg /\
  format_en_CA_date new_york t1 = mkDate 2024 3 10 /\
  format_en_GB_hm new_york t2 = scheduledTime cfg /\
  format_en_CA_date new_york t2 = mkDate 2024 3 11 /\
  format_en_GB_hm new_york t3 = scheduledTime cfg /\
  format_en_CA_date new_york t3 = mkDate 2024 3 12 /\
  w_pipeline_calls w1 = [("g1@g.us"%string, mkDate 2024 3 9)] /\
  w_lastRunDate w1 = Some (mkDate 2024 3 9) /\
  tick cfg (set_clock t2 w1) = (Ok tt, set_clock t2 w1) /\
  w_lastRunDate w3 = Some (mkDate 2024 3 11) /\
  w_pipeline_calls w3 = [("g1@g.us"%string, mkDate 2024 3 9)] /\
  sql_select_distinct_groups
    (midnightUtcForDate (mkDate 2024 3 10) new_york)
    (midnightUtcForDate (mkDate 2024 3 10) new_york + 86400000)
    (messages (w_db w3)) = ["g1@g.us"%string] /\
  sql_get_summary "g1@g.us" (mkDate 2024 3 10) (daily_summaries (w_db w3)) = None.
Proof. vm_compute. repeat split; reflexivity. Qed.

(** ** Instances of the further properties *)

Lemma adjacent_ranges_partition_witness :
  sql_select_messages "g1@g.us" 0 1718420400000 (messages (w_db three_groups_world))
  ≡ₚ sql_select_messages "g1@g.us" 0 1718413200000 (messages (w_db three_groups_world))
     ++ sql_select_messages "g1@g.us" 1718413200000 1718420400000
          (messages (w_db three_groups_world)).
Proof.
  apply (proj1 (proj2 (@adjacent_ranges_partition Z_ops three_groups_world "g1@g.us"
                         0 1718413200000 1718420400000 ltac:(lia) ltac:(lia)))).
Defined.

Lemma upsertGroup_history_witness :
  exists row,
    groups (w_db (upsert_each "g1@g.us"
                    [(Some "Team"%string, 10); (None, 20); (Some "Crew"%string, 30); (None, 40)]
                    (quiet_world false 0))) !! "g1@g.us"%string = Some row /\
    grp_name row = Some "Crew"%string /\
    grp_first_seen row = 10 /\
    grp_last_message row = Some 40 /\
    grp_message_count row = 4.
Proof.
  destruct (@upsertGroup_history Z_ops "g1@g.us" (Some "Team"%string) 10
              [(None, 20); (Some "Crew"%string, 30); (None, 40)] (quiet_world false 0))
    as [(row & Hrow & Hn & Hf & Hl & Hc) _].
  - reflexivity.
  - exists row. auto.
Defined.

Lemma insertMessage_appends_witness :
  (exists w',
     insertMessage (mkNewMessage "g1@g.us" "alice" None "hi" 5 None) family_world
     = (Ok "u1"%string, w') /\
     messages (w_db w') = [mkMessage "u1" "g1@g.us" "alice" None "hi" 5 None]) /\
  insertMessage (mkNewMessage "g1@g.us" "alice" None "hi" 5 None) (quiet_world false 0)
  = (Throw ForeignKeyConstraintFailed, set_uuid_next 1 (quiet_world false 0)).
Proof.
  split.
  - destruct (proj1 (@insertMessage_appends Z_ops
                       (mkNewMessage "g1@g.us" "alice" None "hi" 5 None) family_world
                       NoDup_nil_2))
      as (w' & Hrun & _ & _ & _ & Hfresh).
    + apply (bool_decide_unpack _). vm_compute. exact I.
    + exists w'. split; [exact Hrun|]. apply Hfresh. apply not_elem_of_nil.
  - apply (proj2 (@insertMessage_appends Z_ops
                    (mkNewMessage "g1@g.us" "alice" None "hi" 5 None) (quiet_world false 0)
                    NoDup_nil_2)).
    + reflexivity.
    + apply not_elem_of_nil.
Defined.

Lemma insertSummary_getSummary_witness :
  (exists w',
     insertSummary "g1@g.us" june15 "text" 3 (day_world answering) = (Ok tt, w') /\
     getSummary "g1@g.us" june15 w'
     = (Ok (Some (mkSummary "u1" "g1@g.us" june15 "text" 3 1718500000000)), w') /\
     summaries_unique (w_db w')) /\
  (exists w',
     insertSummary "g1@g.us" june15 "text" 3 (quiet_world false 7)
     = (Throw ForeignKeyConstraintFailed, w') /\
     getSummary "g1@g.us" june15 w' = (Ok None, w')).
Proof.
  split.
  - destruct (proj1 (@insertSummary_getSummary Z_ops "g1@g.us" june15 "text" 3
                       (day_world answering)))
      as (w' & Hrun & Hread & Huniq & _).
    + apply (bool_decide_unpack _). vm_compute. exact I.
    + exists w'. split; [exact Hrun|]. split; [exact Hread|].
      apply Huniq. split; apply NoDup_nil_2.
  - destruct (proj2 (@insertSummary_getSummary Z_ops "g1@g.us" june15 "text" 3
                       (quiet_world false 7)))
      as (w' & Hrun & _ & Hread).
    + reflexivity.
    + exists w'. split; [exact Hrun|]. apply Hread.
Defined.

Lemma generateAndStoreSummary_leaves_archive_witness :
  w_db (snd (generateAndStoreSummary (demo_config (fixed_offset 0)) "g1@g.us" june15
               (day_world rejecting))) = w_db (day_world rejecting).
Proof.
  apply (proj2 (@generateAndStoreSummary_leaves_archive Z_ops (demo_config (fixed_offset 0))
                  "g1@g.us" june15 (day_world rejecting)) (BackendFailure "timeout")).
  vm_compute. reflexivity.
Defined.

Lemma tick_throws_only_on_unknown_timezone_witness :
  tick_named utc_only (mkParsed "openai" "gpt-4o-mini" "00:00" "Europe/Atlantis")
    three_groups_world
  = (Throw (RangeError_InvalidTimeZone "Europe/Atlantis"), three_groups_world) /\
  fst (tick_named utc_only (mkParsed "openai" "gpt-4o-mini" "00:00" "UTC")
         three_groups_world) = Ok tt.
Proof.
  split.
  - apply (proj1 (@tick_throws_only_on_unknown_timezone Z_ops utc_only
                    (mkParsed "openai" "gpt-4o-mini" "00:00" "Europe/Atlantis")
                    three_groups_world)).
    reflexivity.
  - apply (proj2 (@tick_throws_only_on_unknown_timezone Z_ops utc_only
                    (mkParsed "openai" "gpt-4o-mini" "00:00" "UTC")
                    three_groups_world) (fixed_offset 0)).
    reflexivity.
Defined.

Lemma generateSummary_dispatch_witness :
  exists req,
    req_provider req = OpenAI /\
    w_requests (snd (generateSummary (mkConfig "Anthropic" "m" "00:00" (fixed_offset 0))
                       [one_oclock_message] (day_world answering))) = [req] /\
    fst (generateSummary (mkConfig "Anthropic" "m" "00:00" (fixed_offset 0))
           [one_oclock_message] (day_world answering)) = Ok "summary"%string.
Proof.
  destruct (@generateSummary_dispatch Z_ops (mkConfig "Anthropic" "m" "00:00" (fixed_offset 0))
              [one_oclock_message] (day_world answering)
              "[01:00] alice: twenty characters ok")
    as (req & Hprov & _ & Hreqs & Hres).
  - reflexivity.
  - exists req. split; [exact Hprov|]. split; [exact Hreqs|]. exact Hres.
Defined.

Lemma format_line_utc_label_witness :
  format_line one_oclock_message = Ok "[01:00] alice: twenty characters ok"%string.
Proof.
  apply (format_line_utc_label one_oclock_message).
  - reflexivity.
  - vm_compute. split; discriminate.
Defined.

Lemma createCaptureHandler_keeps_archive_witness :
  fst (createCaptureHandler hello_event group_ctx (quiet_world true 5)) = Ok tt /\
  archived_well (w_db (snd (createCaptureHandler hello_event group_ctx (quiet_world true 5)))) /\
  keys_unique (w_db (snd (createCaptureHandler hello_event group_ctx (quiet_world true 5)))).
Proof.
  apply (@createCaptureHandler_keeps_archive Z_ops).
  - intros m Hm. by apply elem_of_nil in Hm.
  - apply NoDup_nil_2.
Defined.

Lemma createSuppressHandler_guard_witness :
  fst (createSuppressHandler group_ctx) = Some (mkDecision true).
Proof.
  apply (proj2 (proj2 (createSuppressHandler_guard group_ctx)) hello_event
           (quiet_world true 5)).
  vm_compute. discriminate.
Defined.

Lemma tick_never_fires_off_the_clock_witness :
  parse_scheduledTime (Some "24:00"%string) = inr "24:00"%string /\
  tick (mkConfig "openai" "gpt-4o-mini" "24:00" (fixed_offset 0)) three_groups_world
  = (Ok tt, three_groups_world).
Proof.
  apply (@tick_never_fires_off_the_clock Z_ops
           (mkConfig "openai" "gpt-4o-mini" "24:00" (fixed_offset 0)) 24 0
           three_groups_world); [lia|lia|lia|reflexivity].
Defined.

Lemma listGroups_latest_first_witness :
  exists first rest,
    listGroups (snd (upsertGroup "g2@g.us" None family_world))
    = (Ok (first :: rest), snd (upsertGroup "g2@g.us" None family_world)) /\
    grp_last_message first = Some 9.
Proof.
  destruct (@listGroups_latest_first Z_ops "g2@g.us" None family_world)
    as (first & rest & Hrun & Hlast & _).
  - intros g row.
    change (groups (w_db family_world))
      with (<["g1@g.us"%string := mkGroup "g1@g.us" (Some "Family"%string) 5 (Some 5) 1]>
              (∅ : gmap string GroupRow)).
    rewrite lookup_insert_Some, lookup_empty.
    intros [[_ <-] | [_ Hnone]]; [cbn; lia | discriminate].
  - exists first, rest. split; [exact Hrun | exact Hlast].
Defined.

Lemma semanticSearch_without_vectors_witness :
  semanticSearch unreachable_api "hello" None (quiet_world false 5)
  = (Throw (BackendFailure "timeout"), quiet_world false 5).
Proof.
  exact (@semanticSearch_without_vectors Z_ops unreachable_api "hello" None
           (quiet_world false 5) eq_refl).
Defined.

Lemma semanticSearch_default_limit_witness :
  exists rows,
    semanticSearch unit_x_api "one" None search_world = (Ok rows, search_world) /\
    (length rows <= 10)%nat.
Proof.
  destruct (@semanticSearch_default_limit Z_ops unit_x_api "one" None search_world
              [1; 0; 0] [])
    as (rows & Hrun & _ & Hlen & _).
  - reflexivity.
  - apply (bool_decide_unpack _). vm_compute. exact I.
  - reflexivity.
  - discriminate.
  - reflexivity.
  - discriminate.
  - exists rows. split; [exact Hrun | exact Hlen].
Defined.

Lemma embed_reads_8000_characters_witness :
  embed echo_api (long_text +:+ "one") (quiet_world true 5)
  = embed echo_api (long_text +:+ "two") (quiet_world true 5).
Proof.
  apply (@embed_reads_8000_characters Z_ops echo_api long_text "one" "two"
           (quiet_world true 5)).
  vm_compute. reflexivity.
Defined.

Lemma stop_cancels_started_timer_witness :
  live_timers (stop (start "00:00" "UTC" idle_scheduler)) = [] /\
  interval (stop (start "00:00" "UTC" idle_scheduler)) = None /\
  timers_fresh (stop (start "00:00" "UTC" idle_scheduler)).
Proof.
  apply (stop_cancels_started_timer "00:00" "UTC" idle_scheduler).
  intros h Hh. by apply elem_of_nil in Hh.
Defined.

Lemma start_twice_leaks_timer_witness :
  O ∈ live_timers (run_calls "00:00" "UTC" [CallStart; CallStop; CallStop]
                     (start "00:00" "UTC" idle_scheduler)).
Proof.
  apply (start_twice_leaks_timer "00:00" "UTC" (start "00:00" "UTC" idle_scheduler) O
           [CallStop; CallStop]).
  - apply list_elem_of_here.
  - cbn. lia.
Defined.

Lemma scheduler_once_per_day_fixed_offset_witness :
  (forall t2,
     day_of (t2 + 0) = day_of (w_clock three_groups_world + 0) ->
     format_en_GB_hm (fixed_offset 0) t2 = "00:00"%string ->
     tick (demo_config (fixed_offset 0))
       (set_clock t2 (snd (tick (demo_config (fixed_offset 0)) three_groups_world)))
     = (Ok tt, set_clock t2 (snd (tick (demo_config (fixed_offset 0)) three_groups_world)))) /\
  (forall t3,
     day_of (t3 + 0) = day_of (w_clock three_groups_world + 0) + 1 ->
     format_en_GB_hm (fixed_offset 0) t3 = "00:00"%string ->
     w_lastRunDate
       (snd (tick (demo_config (fixed_offset 0))
               (set_clock t3 (snd (tick (demo_config (fixed_offset 0)) three_groups_world)))))
     = Some (format_en_CA_date (fixed_offset 0) (w_clock three_groups_world)) /\
     w_lastRunDate (snd (tick (demo_config (fixed_offset 0)) three_groups_world))
     <> Some (format_en_CA_date (fixed_offset 0) (w_clock three_groups_world))).
Proof.
  apply (@scheduler_once_per_day_fixed_offset Z_ops (demo_config (fixed_offset 0)) 0
           three_groups_world).
  - reflexivity.
  - vm_compute. reflexivity.
Defined.

Lemma insertEmbedding_keeps_widths_witness :
  widths_ok (w_db (snd (insertEmbedding (H := Z_ops) "a" [1; 2; 3] (quiet_world true 5)))).
Proof.
  apply (@insertEmbedding_keeps_widths Z_ops (quiet_world true 5) "a" [1; 2; 3]).
  apply empty_db_widths_ok.
Defined.

Lemma length_letters (k : nat) (c : ascii) :
  String.length (string_of_list_ascii (replicate k c)) = k.
Proof. induction k as [|k IH]; [reflexivity|]. cbn. by rewrite IH. Qed.

Lemma answered_world_ready : pipeline_ready answered_world.
Proof.
  split; [|split; [|split; [split|]]].
  - intros n req. unfold answered_world, answering. cbn. eauto.
  - intros m Hm. cbn in Hm.
    repeat (apply elem_of_cons in Hm as [->|Hm]; [reflexivity|]).
    by apply elem_of_nil in Hm.
  - intros j k _ _ Heq. cbn in Heq. apply (f_equal String.length) in Heq.
    by rewrite !length_letters in Heq.
  - intros k _. cbn. apply not_elem_of_nil.
  - intros m Hm. cbn in Hm.
    repeat (apply elem_of_cons in Hm as [->|Hm];
            [apply (bool_decide_unpack _); vm_compute; exact I|]).
    by apply elem_of_nil in Hm.
Qed.

Lemma tick_summarizes_every_group_witness :
  is_Some (sql_get_summary "g1@g.us" june15
             (daily_summaries
                (w_db (snd (tick (demo_config (fixed_offset 0)) answered_world))))).
Proof.
  apply (@tick_summarizes_every_group Z_ops (demo_config (fixed_offset 0)) 0 answered_world)
    with (m := mkMessage "a" "g1@g.us" "alice" None "one" 1718413200000 None).
  - reflexivity.
  - reflexivity.
  - unfold msPerHour. lia.
  - vm_compute. split; discriminate.
  - vm_compute. reflexivity.
  - discriminate.
  - exact answered_world_ready.
  - apply list_elem_of_here.
  - reflexivity.
  - vm_compute. reflexivity.
Defined.

Lemma empty_day_stores_nothing_fixed_offset_witness :
  exists w', generateAndStoreSummary (demo_config utc_plus_2) "g1@g.us" (mkDate 2024 6 14)
               (day_world answering) = (Ok EmptyString, w') /\
             w_db w' = w_db (day_world answering) /\
             w_requests w' = w_requests (day_world answering) /\
             getSummary "g1@g.us" (mkDate 2024 6 14) w' = (Ok None, w').
Proof.
  apply (@empty_day_stores_nothing_fixed_offset Z_ops (demo_config utc_plus_2) 7200000).
  - reflexivity.
  - reflexivity.
  - unfold msPerHour. lia.
  - reflexivity.
  - cbn. lia.
  - reflexivity.
  - intros m Hm _. cbn in Hm. apply list_elem_of_singleton in Hm. subst m.
    vm_compute. discriminate.
Defined.

Lemma createCaptureHandler_counter_witness :
  counter_covers (w_db (snd (createCaptureHandler hello_event group_ctx (quiet_world true 5)))).
Proof.
  apply (@createCaptureHandler_counter Z_ops hello_event group_ctx (quiet_world true 5)).
  intros jid. unfold group_messages, message_count_of. cbn.
  rewrite lookup_empty. lia.
Defined.

Lemma stored_summary_is_final_witness :
  fst (generateAndStoreSummary (demo_config utc_plus_2) "g1@g.us" june15
         (capture_each [(hello_event, group_ctx)] summarized_world))
  = Ok "done"%string.
Proof.
  apply (@stored_summary_is_final Z_ops (demo_config utc_plus_2) "g1@g.us" june15
           (mkSummary "u1" "g1@g.us" june15 "done" 1 1718500000000)
           [(hello_event, group_ctx)] summarized_world).
  reflexivity.
Defined.
